(** * igs_data_downloader: a shallow embedding of [igs_data_downloader.py]

    The script reads the first-observation time out of a rover RINEX file,
    derives year / day-of-year strings, builds the CDDIS archive paths,
    downloads the base-station observation file and the broadcast
    navigation file, and inflates the gzip archives.

    Modelling conventions.
    - Python [str] is [string]; a character is a code point below 256 (the
      ASCII and Latin-1 range), on which [str.lower], [str.isspace], [\d]
      and [\s] are the Python operations.  Texts with other characters
      are outside the model.
    - Python [int] is [Z]; [float] is IEEE-754 binary64, taken from the
      axiom-free [SpecFloat] of the standard library ([prec = 53],
      [emax = 1024]).
    - The file system is a finite map from paths to the bytes of the
      regular files, plus a set of directories.  Paths are compared as
      strings, after the trailing slashes of a directory name are dropped;
      the components [.] and [..], doubled slashes and symbolic links are
      not resolved.  A relative path is relative to the working directory,
      which exists.  The world also says which files cannot be opened for
      reading, which paths the system refuses to create or to write and
      with which exception, and which files it refuses to remove.
    - A computation that can raise is in the monad [Run], whose result is
      [Returned] or [Raises]; the functions that catch every exception
      ([get_obs_date_from_rinex], [decompress_gz_file]) are in the state
      monad [IO].  [print] itself does not raise.
    - The network and the gzip codec are external: they are the section
      variables [http] and [gunzip].  A text file is decoded in the
      encoding of the platform; bytes that are all ASCII decode to
      themselves, and what the parser finds in any other file is given by
      the world.
    - [print] appends a structured [message] (one constructor per call
      site, carrying the interpolated values) to the standard output. *)

From Stdlib Require Import ZArith List Ascii String Bool Lia SpecFloat DecimalString.
From stdpp Require Import gmap strings list.

Local Open Scope string_scope.
Local Open Scope Z_scope.
Local Open Scope list_scope.

(** ** Python string operations *)
Module PyStr.

Definition code (c : ascii) : nat := nat_of_ascii c.

(** the characters that [str.lower] changes: [A]-[Z], and the Latin-1
    capitals from U+00C0 to U+00DE but the sign U+00D7; each goes 32
    code points up *)
Definition is_upper (c : ascii) : bool :=
  ((65 <=? code c) && (code c <=? 90)
   || (192 <=? code c) && (code c <=? 222) && negb (code c =? 215))%nat.

Definition lower_char (c : ascii) : ascii :=
  if is_upper c then ascii_of_nat (code c + 32) else c.

(** [s.lower()] *)
Fixpoint lower (s : string) : string :=
  match s with
  | EmptyString => EmptyString
  | String c s' => String (lower_char c) (lower s')
  end.

(** every character is ASCII *)
Fixpoint is_ascii (s : string) : bool :=
  match s with
  | EmptyString => true
  | String c s' => (code c <? 128)%nat && is_ascii s'
  end.

(** [str(n)] for an integer. *)
Definition str_of_Z (n : Z) : string :=
  NilZero.string_of_int (Z.to_int n).

Fixpoint zeros (n : nat) : string :=
  match n with
  | O => EmptyString
  | S n' => String "0"%char (zeros n')
  end.

(** zero padding on the left up to [width] characters *)
Definition zfill (width : nat) (s : string) : string :=
  zeros (width - String.length s) +:+ s.

(** [f"{n:03d}"]: the sign, when there is one, stays in front of the
    padding. *)
Definition format_03d (n : Z) : string :=
  if n <? 0 then "-" +:+ zfill 2 (str_of_Z (- n)) else zfill 3 (str_of_Z n).

(** [s[-2:]] *)
Definition last2 (s : string) : string :=
  substring (String.length s - 2) 2 s.

(** [s.startswith(p)] and [s.endswith(p)] *)
Definition startswith (s p : string) : bool := String.prefix p s.

Definition endswith (s p : string) : bool :=
  (String.length p <=? String.length s)%nat
  && String.eqb (substring (String.length s - String.length p) (String.length p) s) p.

(** [needle in s] *)
Fixpoint contains (needle s : string) : bool :=
  String.prefix needle s
  || match s with
     | EmptyString => false
     | String _ s' => contains needle s'
     end.

(** the characters for which [str.isspace] holds, which are also the
    ones matched by [\s] in a [str] pattern: the ASCII white space, the
    separators U+001C to U+001F, U+0085 and U+00A0 *)
Definition is_space (c : ascii) : bool :=
  ((9 <=? code c) && (code c <=? 13) || (28 <=? code c) && (code c <=? 32)
   || (code c =? 133) || (code c =? 160))%nat.

(** the decimal digits, which are the characters matched by [\d] *)
Definition is_digit (c : ascii) : bool :=
  (48 <=? code c)%nat && (code c <=? 57)%nat.

Fixpoint lstrip (s : string) : string :=
  match s with
  | String c s' => if is_space c then lstrip s' else s
  | EmptyString => EmptyString
  end.

(** [s.strip()] *)
Definition strip (s : string) : string :=
  String.rev (lstrip (String.rev (lstrip s))).

End PyStr.

(** ** [os.path] (posixpath) *)
Module OsPath.

(** [os.path.join] with two arguments *)
Definition join (a b : string) : string :=
  if PyStr.startswith b "/" then b
  else if String.eqb a EmptyString || PyStr.endswith a "/" then a +:+ b
  else a +:+ "/" +:+ b.

Fixpoint all_slashes (s : string) : bool :=
  match s with
  | EmptyString => true
  | String c s' => Ascii.eqb c "/"%char && all_slashes s'
  end.

Fixpoint lstrip_slashes (s : string) : string :=
  match s with
  | String c s' => if Ascii.eqb c "/"%char then lstrip_slashes s' else s
  | EmptyString => EmptyString
  end.

(** [s.rstrip('/')] *)
Definition rstrip_slashes (s : string) : string :=
  String.rev (lstrip_slashes (String.rev s)).

(** the characters before the first slash, and the rest from that slash *)
Fixpoint until_slash (s : string) : string * string :=
  match s with
  | EmptyString => (EmptyString, EmptyString)
  | String c s' =>
      if Ascii.eqb c "/"%char then (EmptyString, s)
      else let (a, b) := until_slash s' in (String c a, b)
  end.

(** [os.path.split]: the tail is what follows the last slash; the head is
    what precedes it, without its trailing slashes unless it is made of
    slashes only *)
Definition split (p : string) : string * string :=
  let (tail_rev, head_rev) := until_slash (String.rev p) in
  let head := String.rev head_rev in
  (if all_slashes head then head else rstrip_slashes head, String.rev tail_rev).

(** the name under which a directory is recorded: without trailing
    slashes, the root apart *)
Definition normdir (p : string) : string :=
  if all_slashes p then p else rstrip_slashes p.

End OsPath.

(** ** Configuration *)
Definition CDDIS_BASE_URL : string :=
  "https://cddis.nasa.gov/archive/gnss/data/daily".
Definition MGEX_NAV_BASE_URL : string :=
  "https://cddis.nasa.gov/archive/gnss/data/campaign/mgex/daily/rinex3".

(** ** Path and name construction (step 2 and 3 of [main])

    The local variables of [main] that hold file names and URLs, as
    functions of the values they are interpolated from. *)
Section Names.
Variables (year : Z) (doy_str yy station_id_lower : string).

(** version "3": [ssssDDD0.YYo.crx.gz] *)
Definition obs_filename_stem_3 : string :=
  station_id_lower +:+ doy_str +:+ "0." +:+ yy +:+ "o".
Definition obs_filename_crx_gz : string := obs_filename_stem_3 +:+ ".crx.gz".
Definition obs_url_3 : string :=
  CDDIS_BASE_URL +:+ "/" +:+ PyStr.str_of_Z year +:+ "/" +:+ doy_str +:+ "/"
    +:+ yy +:+ "o/" +:+ obs_filename_crx_gz.

(** version "2": [ssssDDD0.YYd.Z] *)
Definition obs_filename_stem_2 : string :=
  station_id_lower +:+ doy_str +:+ "0." +:+ yy +:+ "d".
Definition obs_filename_211_gz : string := obs_filename_stem_2 +:+ ".Z".
Definition obs_url_2 : string :=
  CDDIS_BASE_URL +:+ "/" +:+ PyStr.str_of_Z year +:+ "/" +:+ doy_str +:+ "/"
    +:+ yy +:+ "d/" +:+ obs_filename_211_gz.

(** The three variables set by the [if] / [elif] on the version; they
    keep their initial value the empty string for any other version string. *)
Record obs_names := {
  obs_filename_gz : string;
  obs_final_filename : string;
  obs_url : string
}.

Definition build_obs (rinex_obs_version : string) : obs_names :=
  if String.eqb rinex_obs_version "3" then
    {| obs_filename_gz := obs_filename_crx_gz;
       obs_final_filename := obs_filename_stem_3 +:+ ".crx";
       obs_url := obs_url_3 |}
  else if String.eqb rinex_obs_version "2" then
    {| obs_filename_gz := obs_filename_211_gz;
       obs_final_filename := obs_filename_stem_2;
       obs_url := obs_url_2 |}
  else
    {| obs_filename_gz := EmptyString; obs_final_filename := EmptyString; obs_url := EmptyString |}.

(** navigation file, for an analysis-centre code ([DLR], then [GDE]) *)
Definition nav_filename_stem_for (agency : string) : string :=
  "BRDM00" +:+ agency +:+ "_S_" +:+ PyStr.str_of_Z year +:+ doy_str +:+ "0000_01D_MN".
Definition nav_filename_rnx_gz_for (agency : string) : string :=
  nav_filename_stem_for agency +:+ ".rnx.gz".
Definition nav_url_for (agency : string) : string :=
  MGEX_NAV_BASE_URL +:+ "/" +:+ PyStr.str_of_Z year +:+ "/" +:+ doy_str +:+ "/"
    +:+ nav_filename_rnx_gz_for agency.

Definition nav_filename_stem : string := nav_filename_stem_for "DLR".
Definition nav_filename_rnx_gz : string := nav_filename_rnx_gz_for "DLR".
Definition nav_url : string := nav_url_for "DLR".
Definition nav_filename_stem_gde : string := nav_filename_stem_for "GDE".
Definition nav_filename_rnx_gz_gde : string := nav_filename_rnx_gz_for "GDE".
Definition nav_url_gde : string := nav_url_for "GDE".
End Names.

(** ** Python [float]: IEEE-754 binary64 *)
Module PyFloat.

Definition prec : Z := 53.
Definition emax : Z := 1024.

(** conversion of an [int] operand to [float] (round to nearest, ties
    to even) *)
Definition of_Z (n : Z) : spec_float := binary_normalize prec emax n 0 false.

Definition sub (x y : spec_float) : spec_float := SFsub prec emax x y.
Definition mul (x y : spec_float) : spec_float := SFmul prec emax x y.

(** A decimal literal made of digits and dots: the digits read as one
    number and the count of digits after the dot.  [None] when there are
    two dots, no digit at all, or another character. *)
Fixpoint scan_decimal (s : string) (acc : N) (ndigits : nat) (frac : option nat)
  : option (N * nat) :=
  match s with
  | EmptyString =>
      match ndigits with
      | O => None
      | _ => Some (acc, match frac with Some k => k | None => O end)
      end
  | String c s' =>
      if PyStr.is_digit c then
        scan_decimal s' (10 * acc + N.of_nat (PyStr.code c - 48))%N (S ndigits)
          (option_map S frac)
      else if Ascii.eqb c "."%char then
        match frac with
        | Some _ => None
        | None => scan_decimal s' acc ndigits (Some O)
        end
      else None
  end.

(** [float(s)] for such a literal: the binary64 number nearest to
    [digits / 10^k] (correctly rounded, ties to even); [None] stands for
    [ValueError]. *)
Definition of_string (s : string) : option spec_float :=
  match scan_decimal s 0%N O None with
  | None => None
  | Some (N0, _) => Some (S754_zero false)
  | Some (Npos d, k) =>
      Some (SFdiv prec emax (S754_finite false d 0)
              (S754_finite false (Z.to_pos (10 ^ Z.of_nat k)) 0))
  end.

(** [int(x)]: truncation toward zero; [None] stands for the
    [OverflowError] / [ValueError] raised on an infinity or a NaN. *)
Definition to_int (x : spec_float) : option Z :=
  match x with
  | S754_zero _ => Some 0
  | S754_finite s m e => Some (cond_Zopp s (Z.shiftl (Zpos m) e))
  | S754_infinity _ => None
  | S754_nan => None
  end.

End PyFloat.

(** ** The regular expression of the parser

    The pattern of [get_obs_date_from_rinex] is a sequence of greedy
    repetitions of character classes, six of them captured.  [match_items]
    is the backtracking matcher for such sequences: each repetition first
    takes as many characters as it can and gives them back one at a time
    while the rest of the pattern fails.  [search] is [re.search]: the
    match at the leftmost start position. *)
Module PyRe.

Record item := {
  cls : ascii -> bool;      (* the character class *)
  rmin : nat;               (* least number of repetitions *)
  rmax : option nat;        (* greatest number, [None] when unbounded *)
  captured : bool           (* whether the repetition is a group *)
}.

Fixpoint take (n : nat) (s : string) : string :=
  match n, s with
  | S n', String c s' => String c (take n' s')
  | _, _ => EmptyString
  end.

Fixpoint drop (n : nat) (s : string) : string :=
  match n, s with
  | S n', String _ s' => drop n' s'
  | _, _ => s
  end.

(** length of the longest prefix of [s] inside the class *)
Fixpoint run (p : ascii -> bool) (s : string) : nat :=
  match s with
  | String c s' => if p c then S (run p s') else O
  | EmptyString => O
  end.

Definition most (it : item) (s : string) : nat :=
  match rmax it with
  | Some m => Nat.min m (run (cls it) s)
  | None => run (cls it) s
  end.

(** One repetition taking [k] characters, then [k - 1], ... while the
    rest of the pattern, [rest_match], fails on what is left. *)
Fixpoint give_back (it : item) (s : string)
    (rest_match : string -> option (list string)) (k : nat) : option (list string) :=
  let attempt :=
    if (rmin it <=? k)%nat then
      match rest_match (drop k s) with
      | Some groups => Some (if captured it then take k s :: groups else groups)
      | None => None
      end
    else None in
  match attempt with
  | Some groups => Some groups
  | None =>
      match k with
      | O => None
      | S k' => give_back it s rest_match k'
      end
  end.

(** the groups of a match of the whole sequence at the start of [s] *)
Fixpoint match_items (items : list item) (s : string) : option (list string) :=
  match items with
  | [] => Some []
  | it :: rest => give_back it s (match_items rest) (most it s)
  end.

Fixpoint search (items : list item) (s : string) : option (list string) :=
  match match_items items s with
  | Some groups => Some groups
  | None =>
      match s with
      | EmptyString => None
      | String _ s' => search items s'
      end
  end.

Definition digit_or_dot (c : ascii) : bool :=
  PyStr.is_digit c || Ascii.eqb c "."%char.

Definition group (p : ascii -> bool) (lo : nat) (hi : option nat) : item :=
  {| cls := p; rmin := lo; rmax := hi; captured := true |}.

(** [\s+] *)
Definition spaces : item :=
  {| cls := PyStr.is_space; rmin := 1; rmax := None; captured := false |}.

(** [(\d{4})\s+(\d{1,2})\s+(\d{1,2})\s+(\d{1,2})\s+(\d{1,2})\s+([\d\.]+)] *)
Definition TIME_OF_FIRST_OBS_RE : list item :=
  [ group PyStr.is_digit 4 (Some 4%nat); spaces;
    group PyStr.is_digit 1 (Some 2%nat); spaces;
    group PyStr.is_digit 1 (Some 2%nat); spaces;
    group PyStr.is_digit 1 (Some 2%nat); spaces;
    group PyStr.is_digit 1 (Some 2%nat); spaces;
    group digit_or_dot 1 None ].

End PyRe.

(** ** [datetime.datetime] *)
Module PyDatetime.

Inductive timezone := utc.

Record datetime := {
  year : Z; month : Z; day : Z;
  hour : Z; minute : Z; second : Z; microsecond : Z;
  tzinfo : timezone
}.

Definition MINYEAR : Z := 1.
Definition MAXYEAR : Z := 9999.

Definition is_leap (y : Z) : bool :=
  (y mod 4 =? 0) && (negb (y mod 100 =? 0) || (y mod 400 =? 0)).

(** [_DAYS_IN_MONTH], indexed from 1 *)
Definition DAYS_IN_MONTH : list Z :=
  [-1; 31; 28; 31; 30; 31; 30; 31; 31; 30; 31; 30; 31].

(** [_DAYS_BEFORE_MONTH], indexed from 1 *)
Definition DAYS_BEFORE_MONTH : list Z :=
  [-1; 0; 31; 59; 90; 120; 151; 181; 212; 243; 273; 304; 334].

Definition days_in_month (y m : Z) : Z :=
  if (m =? 2) && is_leap y then 29 else nth (Z.to_nat m) DAYS_IN_MONTH 0.

Definition days_before_month (y m : Z) : Z :=
  nth (Z.to_nat m) DAYS_BEFORE_MONTH 0 + (if (2 <? m) && is_leap y then 1 else 0).

Definition between (lo x hi : Z) : bool := (lo <=? x) && (x <=? hi).

(** the range checks of the constructor; outside them it raises
    [ValueError] *)
Definition valid (y mo d h mi s us : Z) : bool :=
  between MINYEAR y MAXYEAR && between 1 mo 12 && between 1 d (days_in_month y mo)
  && between 0 h 23 && between 0 mi 59 && between 0 s 59 && between 0 us 999999.

(** [datetime.datetime(y, mo, d, h, mi, s, us, tzinfo=timezone.utc)] *)
Definition make (y mo d h mi s us : Z) : option datetime :=
  if valid y mo d h mi s us then
    Some {| year := y; month := mo; day := d; hour := h; minute := mi;
            second := s; microsecond := us; tzinfo := utc |}
  else None.

(** [dt.timetuple().tm_yday] *)
Definition tm_yday (dt : datetime) : Z :=
  days_before_month (year dt) (month dt) + day dt.

End PyDatetime.

Import PyDatetime.

(** ** [get_doy] *)
Definition get_doy (dt_object : datetime) : Z := tm_yday dt_object.
(** ** Exceptions, messages and the world *)

(** the exceptions the script can meet, by the [except] clause that
    handles them; [OSError] stands for the other operating-system errors
    ([PermissionError], [IsADirectoryError], [NotADirectoryError], ...) *)
Inductive exn :=
  | FileNotFoundError
  | FileExistsError
  | OSError
  | ValueError            (* [float], [datetime] *)
  | OverflowError         (* [int] of an infinite float *)
  | UnicodeDecodeError    (* a text file that does not decode *)
  | BadGzipFile.          (* any failure while inflating *)

(** the [requests] exceptions, by the first [except] clause of
    [download_file] that catches them *)
Inductive request_exn :=
  | HTTPError
  | ConnectionError
  | Timeout
  | RequestException.

(** What the server does with one GET.  The request itself can raise
    (connection error, time-out, another request error); otherwise there is
    a status and, since the body is streamed, the chunks that arrive and
    possibly an exception that ends the stream early. *)
Inductive http_outcome :=
  | GetRaises (e : request_exn)
  | Response (status : Z) (chunks : list string) (broken : option request_exn).

(** the result of inflating a byte string: the content, or the bytes
    written before the codec raised *)
Inductive gunzip_result :=
  | Inflated (data : string)
  | Corrupt (written : string).

(** ** The header parser: from the lines to the timestamp *)

(** The lines of a text file as the iteration [for line in f] gives them:
    every line keeps its end, and the ends [\r\n] and [\r] are given as
    [\n] (universal newlines). *)
Fixpoint text_lines_go (cur : string) (s : string) : list string :=
  match s with
  | EmptyString => if String.eqb cur EmptyString then [] else [cur]
  | String c s' =>
      if Ascii.eqb c "010"%char then (cur +:+ String "010"%char EmptyString) :: text_lines_go EmptyString s'
      else if Ascii.eqb c "013"%char then
        match s' with
        | String c' s'' =>
            if Ascii.eqb c' "010"%char
            then (cur +:+ String "010"%char EmptyString) :: text_lines_go EmptyString s''
            else (cur +:+ String "010"%char EmptyString) :: text_lines_go EmptyString s'
        | EmptyString => [cur +:+ String "010"%char EmptyString]
        end
      else text_lines_go (cur +:+ String c EmptyString) s'
  end.

Definition text_lines (content : string) : list string := text_lines_go EmptyString content.

(** [int(s)] for a string of decimal digits *)
Fixpoint int_go (s : string) (acc : Z) : Z :=
  match s with
  | EmptyString => acc
  | String c s' => int_go s' (10 * acc + Z.of_nat (PyStr.code c - 48))
  end.

Definition int_of_digits (s : string) : Z := int_go s 0.

(** lines 27 and 28: the whole seconds and the microseconds of the
    seconds field, both by [int] on a [float] *)
Definition split_seconds (second_full : string) : exn + Z * Z :=
  match PyFloat.of_string second_full with
  | None => inl ValueError
  | Some x =>
      match PyFloat.to_int x with
      | None => inl OverflowError
      | Some second =>
          match PyFloat.to_int
                  (PyFloat.mul (PyFloat.sub x (PyFloat.of_Z second))
                     (PyFloat.of_Z 1000000)) with
          | None => inl OverflowError
          | Some microsecond => inr (second, microsecond)
          end
      end
  end.

(** lines 26 to 31: from the six groups to the [datetime] *)
Definition datetime_of_groups (year month day hour minute second_full : string)
  : exn + datetime :=
  match split_seconds second_full with
  | inl e => inl e
  | inr (second, microsecond) =>
      match PyDatetime.make (int_of_digits year) (int_of_digits month)
              (int_of_digits day) (int_of_digits hour)
              (int_of_digits minute) second microsecond with
      | Some dt => inr dt
      | None => inl ValueError
      end
  end.

(** how the loop over the lines ends *)
Inductive scan_result :=
  | Found (dt : datetime)          (* line 29 *)
  | Unparsable (line : string)     (* line 34 *)
  | NoMarker                       (* line 36 *)
  | Raised (e : exn).              (* an exception inside the loop *)

Definition TIME_OF_FIRST_OBS : string := "TIME OF FIRST OBS".

Fixpoint scan_lines (lines : list string) : scan_result :=
  match lines with
  | [] => NoMarker
  | line :: rest =>
      if PyStr.contains TIME_OF_FIRST_OBS line then
        match PyRe.search PyRe.TIME_OF_FIRST_OBS_RE line with
        | Some [year; month; day; hour; minute; second_full] =>
            match datetime_of_groups year month day hour minute second_full with
            | inr dt => Found dt
            | inl e => Raised e
            end
        | _ => Unparsable line
        end
      else scan_lines rest
  end.

(** a timestamp is always the result of the [datetime] constructor *)
Definition constructed (r : scan_result) : scan_result :=
  match r with
  | Found dt =>
      match PyDatetime.make (year dt) (month dt) (day dt) (hour dt) (minute dt)
              (second dt) (microsecond dt) with
      | Some dt' => Found dt'
      | None => Raised ValueError
      end
  | _ => r
  end.

(** one constructor per [print] call, with the source line *)
Inductive message :=
  | MsgCouldNotParseDate (line : string)              (* 33 *)
  | MsgMarkerNotFound                                 (* 35 *)
  | MsgRoverNotFound (path : string)                  (* 38 *)
  | MsgRoverReadError (e : exn)                       (* 41 *)
  | MsgAttemptDownload (url : string)                 (* 50 *)
  | MsgDownloaded (path : string)                     (* 57 *)
  | MsgRequestFailed (e : request_exn) (url : string) (* 60, 62, 64, 66 *)
  | MsgDecompressing (gz : string)                    (* 71 *)
  | MsgDecompressed (out : string)                    (* 76 *)
  | MsgRemovedCompressed (gz : string)                (* 78 *)
  | MsgCompressedNotFound (gz : string)               (* 81 *)
  | MsgDecompressError (gz : string) (e : exn)        (* 83 *)
  | MsgCreatedOutputDir (dir : string)                (* 101 *)
  | MsgRoverStart (dt : datetime)                     (* 114 *)
  | MsgYearDoyStation (year : Z) (doy_str station_id_lower : string)
      (* 115; the station is shown through [.upper()] *)
  | MsgWarnManualDecompression (name : string)        (* 140 *)
  | MsgDecompressManually (path : string)             (* 152 *)
  | MsgNoAutomatedDecompression (path : string)       (* 154 *)
  | MsgObsDownloadFailed                              (* 156 *)
  | MsgNavDlrFailed                                   (* 176 *)
  | MsgNavGdeFailed (year : Z) (doy_str : string)     (* 182 *)
  | MsgFinished                                       (* 186 *)
  | MsgCheckDirectory (dir : string)                  (* 187 *)
  | MsgRequiredFiles                                  (* 188 *)
  | MsgRoverObs (shown : string)                      (* 189 *)
  | MsgBaseObs (shown : string)                       (* 190 *)
  | MsgNavFile (shown : string).                      (* 191 *)

Record world := {
  files : gmap string string;     (* regular files: path to content *)
  dirs : gset string;             (* directories, by [OsPath.normdir] *)
  unreadable : gset string;       (* files that cannot be opened for reading *)
  unwritable : gmap string exn;   (* paths the system refuses to create or
                                     to write, with the exception raised *)
  unremovable : gset string;      (* files the system refuses to remove *)
  scan_of_encoded : string -> scan_result;
                                  (* how the loop of the parser ends on a
                                     file whose bytes are not all ASCII *)
  stdout : list message;          (* what has been printed, oldest first *)
  requests : list string          (* the URLs given to [requests.get], oldest first *)
}.

Definition set_files (f : gmap string string -> gmap string string) (w : world) : world :=
  {| files := f (files w); dirs := dirs w; unreadable := unreadable w;
     unwritable := unwritable w; unremovable := unremovable w;
     scan_of_encoded := scan_of_encoded w;
     stdout := stdout w; requests := requests w |}.

Definition set_dirs (f : gset string -> gset string) (w : world) : world :=
  {| files := files w; dirs := f (dirs w); unreadable := unreadable w;
     unwritable := unwritable w; unremovable := unremovable w;
     scan_of_encoded := scan_of_encoded w;
     stdout := stdout w; requests := requests w |}.

(** the world with more output *)
Definition printed (msgs : list message) (w : world) : world :=
  {| files := files w; dirs := dirs w; unreadable := unreadable w;
     unwritable := unwritable w; unremovable := unremovable w;
     scan_of_encoded := scan_of_encoded w;
     stdout := stdout w ++ msgs; requests := requests w |}.

(** the world with one more request *)
Definition requested (url : string) (w : world) : world :=
  {| files := files w; dirs := dirs w; unreadable := unreadable w;
     unwritable := unwritable w; unremovable := unremovable w;
     scan_of_encoded := scan_of_encoded w;
     stdout := stdout w; requests := requests w ++ [url] |}.

(** *** A state monad over the world, for the code that cannot raise *)
Definition IO (A : Type) : Type := world -> A * world.

Definition ret {A} (a : A) : IO A := fun w => (a, w).
Definition bind {A B} (c : IO A) (k : A -> IO B) : IO B :=
  fun w => let (a, w') := c w in k a w'.

Declare Scope io_scope.
Delimit Scope io_scope with io.
Notation "x <- c ;; k" := (bind c (fun x => k))
  (at level 100, c at next level, right associativity) : io_scope.
Notation "c ;;; k" := (bind c (fun _ => k))
  (at level 100, right associativity) : io_scope.

Definition print (m : message) : IO unit := fun w => (tt, printed [m] w).

Definition get_world : IO world := fun w => (w, w).

(** *** The file system *)

Definition is_file (w : world) (p : string) : bool :=
  bool_decide (is_Some (files w !! p)).

Definition is_dir (w : world) (p : string) : bool :=
  bool_decide (OsPath.normdir p ∈ dirs w).

(** [os.path.exists] *)
Definition path_exists (w : world) (p : string) : bool := is_file w p || is_dir w p.

Definition os_path_exists (p : string) : IO bool :=
  fun w => (path_exists w p, w).

(** the directory that holds [p] is there: the working directory for a
    name without a slash, the root, or a directory of the world *)
Definition parent_there (w : world) (p : string) : bool :=
  let parent := fst (OsPath.split p) in
  String.eqb parent EmptyString || OsPath.all_slashes parent || is_dir w parent.

(** [open(p, 'wb')] succeeds: the system does not refuse [p], which names
    a file (it does not end with a slash and is not a directory) in a
    directory that is there *)
Definition can_open (w : world) (p : string) : bool :=
  bool_decide (unwritable w !! p = None)
  && negb (String.eqb (snd (OsPath.split p)) EmptyString)
  && negb (is_dir w p)
  && parent_there w p.

(** the exception of [open(p, 'wb')] when it fails *)
Definition open_error (w : world) (p : string) : option exn :=
  if can_open w p then None
  else
    Some match unwritable w !! p with
         | Some e => e
         | None =>
             if String.eqb p EmptyString then FileNotFoundError
             else if String.eqb (snd (OsPath.split p)) EmptyString || is_dir w p
             then OSError                              (* IsADirectoryError *)
             else if is_file w (fst (OsPath.split p))
             then OSError                              (* NotADirectoryError *)
             else FileNotFoundError
         end.

(** opening a file for reading: its content, or the exception *)
Definition open_read (p : string) : IO (exn + string) :=
  fun w =>
    if is_dir w p then (inl OSError, w)                (* IsADirectoryError *)
    else
      match files w !! p with
      | None => (inl FileNotFoundError, w)
      | Some content =>
          if bool_decide (p ∈ unreadable w) then (inl OSError, w) else (inr content, w)
      end.

(** [open(p, 'wb')]: the file is created, or emptied when it exists; the
    result is the exception when there is one *)
Definition open_write (p : string) : IO (option exn) :=
  fun w =>
    match open_error w p with
    | Some e => (Some e, w)
    | None => (None, set_files (insert p EmptyString) w)
    end.

(** [f.write(chunk)] on the file opened at [p] *)
Definition write_chunk (p chunk : string) : IO unit :=
  fun w => (tt, set_files (fun fs => <[p := default EmptyString (fs !! p) +:+ chunk]> fs) w).

(** [os.remove] of a file that exists; the result is the exception when
    there is one *)
Definition os_remove (p : string) : IO (option exn) :=
  fun w =>
    if bool_decide (p ∈ unremovable w) then (Some OSError, w)
    else (None, set_files (delete p) w).

(** ** The header parser *)

Local Open Scope io_scope.

Definition get_obs_date_from_rinex (rinex_rover_file : string) : IO (option datetime) :=
  opened <- open_read rinex_rover_file ;;
  match opened with
  | inl FileNotFoundError =>
      print (MsgRoverNotFound rinex_rover_file) ;;; ret None
  | inl e =>
      print (MsgRoverReadError e) ;;; ret None
  | inr content =>
      w <- get_world ;;
      match (if PyStr.is_ascii content then scan_lines (text_lines content)
             else constructed (scan_of_encoded w content)) with
      | Found dt => ret (Some dt)
      | Unparsable line =>
          print (MsgCouldNotParseDate (PyStr.strip line)) ;;; ret None
      | NoMarker => print MsgMarkerNotFound ;;; ret None
      | Raised FileNotFoundError =>
          print (MsgRoverNotFound rinex_rover_file) ;;; ret None
      | Raised e => print (MsgRoverReadError e) ;;; ret None
      end
  end.

(** ** The decompressor *)
Section Codec.
(** the gzip codec *)
Variable gunzip : string -> gunzip_result.

Definition decompress_gz_file (gz_file_path output_file_path : string) : IO bool :=
  print (MsgDecompressing gz_file_path) ;;;
  opened <- open_read gz_file_path ;;
  match opened with
  | inl FileNotFoundError =>
      print (MsgCompressedNotFound gz_file_path) ;;; ret false
  | inl e =>
      print (MsgDecompressError gz_file_path e) ;;; ret false
  | inr _ =>
      out_opened <- open_write output_file_path ;;
      match out_opened with
      | Some FileNotFoundError =>
          print (MsgCompressedNotFound gz_file_path) ;;; ret false
      | Some e =>
          print (MsgDecompressError gz_file_path e) ;;; ret false
      | None =>
          (* the archive is read after the output has been opened *)
          w <- get_world ;;
          match gunzip (default EmptyString (files w !! gz_file_path)) with
          | Corrupt written =>
              write_chunk output_file_path written ;;;
              print (MsgDecompressError gz_file_path BadGzipFile) ;;; ret false
          | Inflated data =>
              write_chunk output_file_path data ;;;
              print (MsgDecompressed output_file_path) ;;;
              removed <- os_remove gz_file_path ;;
              match removed with
              | Some FileNotFoundError =>
                  print (MsgCompressedNotFound gz_file_path) ;;; ret false
              | Some e =>
                  print (MsgDecompressError gz_file_path e) ;;; ret false
              | None =>
                  print (MsgRemovedCompressed gz_file_path) ;;; ret true
              end
          end
      end
  end.
End Codec.

(** ** Computations that can raise *)

Inductive outcome (A : Type) : Type :=
  | Returned (a : A)
  | Raises (e : exn).
Arguments Returned {A} a.
Arguments Raises {A} e.

Definition Run (A : Type) : Type := world -> outcome A * world.

Definition run_ret {A} (a : A) : Run A := fun w => (Returned a, w).
Definition raise {A} (e : exn) : Run A := fun w => (Raises e, w).
Definition run_bind {A B} (c : Run A) (k : A -> Run B) : Run B :=
  fun w =>
    match c w with
    | (Returned a, w') => k a w'
    | (Raises e, w') => (Raises e, w')
    end.

(** a computation that cannot raise, inside one that can *)
Definition lift {A} (c : IO A) : Run A :=
  fun w => let (a, w') := c w in (Returned a, w').

Declare Scope run_scope.
Delimit Scope run_scope with run.
Notation "x <- c ;; k" := (run_bind c (fun x => k))
  (at level 100, c at next level, right associativity) : run_scope.
Notation "c ;;; k" := (run_bind c (fun _ => k))
  (at level 100, right associativity) : run_scope.

(** *** [os.mkdir] and [os.makedirs] *)

(** the exception of [os.mkdir(name)] when it fails *)
Definition mkdir_error (w : world) (name : string) : option exn :=
  if String.eqb name EmptyString then Some FileNotFoundError
  else
    match unwritable w !! name with
    | Some e => Some e
    | None =>
        if is_file w (OsPath.normdir name) || is_dir w name then Some FileExistsError
        else if parent_there w (OsPath.normdir name) then None
        else if is_file w (fst (OsPath.split (OsPath.normdir name)))
        then Some OSError                              (* NotADirectoryError *)
        else Some FileNotFoundError
    end.

Definition os_mkdir (name : string) : Run unit :=
  fun w =>
    match mkdir_error w name with
    | Some e => (Raises e, w)
    | None => (Returned tt, set_dirs (fun ds => {[OsPath.normdir name]} ∪ ds) w)
    end.

(** [try: c / except FileExistsError: pass] *)
Definition ignoring_file_exists (c : Run unit) : Run unit :=
  fun w =>
    match c w with
    | (Raises FileExistsError, w') => (Returned tt, w')
    | r => r
    end.

(** [os.makedirs(name)], with [exist_ok=False]: the missing parents are
    made first.  The recursion is on the head of the name, which is
    shorter than the name. *)
Fixpoint makedirs_go (fuel : nat) (name : string) : Run unit :=
  let (head0, tail0) := OsPath.split name in
  let (head, tail) := if String.eqb tail0 EmptyString then OsPath.split head0 else (head0, tail0) in
  (head_there <- lift (os_path_exists head) ;;
   if negb (String.eqb head EmptyString) && negb (String.eqb tail EmptyString) && negb head_there then
     match fuel with
     | O => os_mkdir name
     | S fuel' =>
         ignoring_file_exists (makedirs_go fuel' head) ;;;
         (* [xxx/newdir/.] exists if [xxx/newdir] exists *)
         if String.eqb tail "." then run_ret tt else os_mkdir name
     end
   else os_mkdir name)%run.

Definition os_makedirs (name : string) : Run unit :=
  makedirs_go (String.length name) name.

(** ** The fetcher *)
Section External.
(** the answer of the network to the [n]-th request of the run *)
Variable http : nat -> string -> http_outcome.
(** the gzip codec *)
Variable gunzip : string -> gunzip_result.

Definition requests_get (url : string) : IO http_outcome :=
  fun w => (http (length (requests w)) url, requested url w).

(** [for chunk in response.iter_content(...): f.write(chunk)] *)
Fixpoint write_chunks (path : string) (chunks : list string) : IO unit :=
  match chunks with
  | [] => ret tt
  | chunk :: rest => write_chunk path chunk ;;; write_chunks path rest
  end.

(** The [except] clauses catch the [requests] exceptions only: the
    exception of [open] goes up to the caller. *)
Definition download_file (url output_path : string) : Run bool :=
  (lift (print (MsgAttemptDownload url)) ;;;
   outcome <- lift (requests_get url) ;;
   match outcome with
   | GetRaises e => lift (print (MsgRequestFailed e url)) ;;; run_ret false
   | Response status chunks broken =>
       (* [raise_for_status]: 4XX and 5XX *)
       if (400 <=? status) && (status <? 600) then
         lift (print (MsgRequestFailed HTTPError url)) ;;; run_ret false
       else
         opened <- lift (open_write output_path) ;;
         match opened with
         | Some e => raise e
         | None =>
             lift (write_chunks output_path chunks) ;;;
             match broken with
             | Some e => lift (print (MsgRequestFailed e url)) ;;; run_ret false
             | None => lift (print (MsgDownloaded output_path)) ;;; run_ret true
             end
         end
   end)%run.

(** ** [main] *)
Record arguments := {
  rinex_rover_file : string;
  station_id : string;
  output_dir : string;
  rinex_obs_version : string      (* "2" or "3", by [choices] *)
}.

Definition when (b : bool) (c : Run unit) : Run unit := if b then c else run_ret tt.

(** lines 99 to 101: the output directory *)
Definition prepare (args : arguments) : Run unit :=
  (dir_there <- lift (os_path_exists (output_dir args)) ;;
   when (negb dir_there)
     (os_makedirs (output_dir args) ;;;
      lift (print (MsgCreatedOutputDir (output_dir args)))))%run.

(** step 2, after the names have been built: fetch the observation file *)
Definition fetch_obs (args : arguments) (names : obs_names)
    (obs_dl_path_gz obs_dl_path_final : string) : Run unit :=
  (ok <- download_file (obs_url names) obs_dl_path_gz ;;
   if ok then
     if String.eqb (rinex_obs_version args) "3"
        && PyStr.endswith (obs_filename_gz names) ".crx.gz" then
       lift (decompress_gz_file gunzip obs_dl_path_gz obs_dl_path_final) ;;; run_ret tt
     else if String.eqb (rinex_obs_version args) "2"
             && PyStr.endswith (obs_filename_gz names) ".Z" then
       lift (print (MsgDecompressManually obs_dl_path_gz))
     else lift (print (MsgNoAutomatedDecompression obs_dl_path_gz))
   else lift (print MsgObsDownloadFailed))%run.

(** step 3: fetch the navigation file, [DLR] then [GDE]; the result is
    the final value of [nav_dl_path_final] *)
Definition fetch_nav (args : arguments) (year : Z) (doy_str : string) : Run string :=
  let nav_dl_path_gz := OsPath.join (output_dir args) (nav_filename_rnx_gz year doy_str) in
  let nav_dl_path_final :=
    OsPath.join (output_dir args) (nav_filename_stem year doy_str +:+ ".rnx") in
  (ok <- download_file (nav_url year doy_str) nav_dl_path_gz ;;
   if negb ok then
     lift (print MsgNavDlrFailed) ;;;
     let nav_dl_path_gz :=
       OsPath.join (output_dir args) (nav_filename_rnx_gz_gde year doy_str) in
     let nav_dl_path_final :=
       OsPath.join (output_dir args) (nav_filename_stem_gde year doy_str +:+ ".rnx") in
     ok_gde <- download_file (nav_url_gde year doy_str) nav_dl_path_gz ;;
     (if ok_gde then
        lift (decompress_gz_file gunzip nav_dl_path_gz nav_dl_path_final) ;;; run_ret tt
      else lift (print (MsgNavGdeFailed year doy_str))) ;;;
     run_ret nav_dl_path_final
   else
     lift (decompress_gz_file gunzip nav_dl_path_gz nav_dl_path_final) ;;;
     run_ret nav_dl_path_final)%run.

(** lines 186 to 191 *)
Definition summary (args : arguments) (obs_dl_path_final nav_dl_path_final : string)
  : IO unit :=
  print MsgFinished ;;;
  print (MsgCheckDirectory (output_dir args)) ;;;
  print MsgRequiredFiles ;;;
  print (MsgRoverObs (rinex_rover_file args)) ;;;
  obs_there <- os_path_exists obs_dl_path_final ;;
  print (MsgBaseObs (if obs_there then obs_dl_path_final
                     else "Download/Decompress OBS manually if failed")) ;;;
  nav_there <- os_path_exists nav_dl_path_final ;;
  print (MsgNavFile (if nav_there then nav_dl_path_final
                     else "Download/Decompress NAV manually if failed")).

(** steps 2 to 4, once the observation date is known *)
Definition run_from_date (args : arguments) (obs_datetime : datetime) : Run unit :=
  let year := PyDatetime.year obs_datetime in
  let yy := PyStr.last2 (PyStr.str_of_Z year) in
  let doy := get_doy obs_datetime in
  let doy_str := PyStr.format_03d doy in
  let station_id_lower := PyStr.lower (station_id args) in
  (lift (print (MsgRoverStart obs_datetime)) ;;;
   lift (print (MsgYearDoyStation year doy_str station_id_lower)) ;;;
   (* 2. observation file *)
   let names := build_obs year doy_str yy station_id_lower (rinex_obs_version args) in
   when (negb (String.eqb (rinex_obs_version args) "3")
         && String.eqb (rinex_obs_version args) "2")
     (lift (print (MsgWarnManualDecompression
                     (obs_filename_211_gz doy_str yy station_id_lower)))) ;;;
   let obs_dl_path_gz := OsPath.join (output_dir args) (obs_filename_gz names) in
   let obs_dl_path_final := OsPath.join (output_dir args) (obs_final_filename names) in
   fetch_obs args names obs_dl_path_gz obs_dl_path_final ;;;
   (* 3. navigation file *)
   nav_dl_path_final <- fetch_nav args year doy_str ;;
   (* 4. summary *)
   lift (summary args obs_dl_path_final nav_dl_path_final))%run.

(** what [main] does once the output directory is there *)
Definition parse_and_run (args : arguments) : Run unit :=
  ((* 1. observation date *)
   parsed <- lift (get_obs_date_from_rinex (rinex_rover_file args)) ;;
   match parsed with
   | None => run_ret tt
   | Some obs_datetime => run_from_date args obs_datetime
   end)%run.

Definition main (args : arguments) : Run unit :=
  (prepare args ;;; parse_and_run args)%run.

End External.

(** ** Reference definitions used by the statements *)

(** The ordinal day of the year in the Gregorian calendar, in the words
    of the specification: the days of the months that are over, with the
    leap-year rule, and the day of the month. *)
Module Gregorian.

Definition leap_year (y : Z) : bool :=
  if y mod 400 =? 0 then true
  else if y mod 100 =? 0 then false
  else y mod 4 =? 0.

Definition month_length (y m : Z) : Z :=
  if m =? 2 then (if leap_year y then 29 else 28)
  else if (m =? 4) || (m =? 6) || (m =? 9) || (m =? 11) then 30
  else 31.

Fixpoint days_of_months (y : Z) (n : nat) : Z :=
  match n with
  | O => 0
  | S n' => days_of_months y n' + month_length y (Z.of_nat n)
  end.

(** the months before [m] are the first [m - 1] ones *)
Definition ordinal_day (y m d : Z) : Z :=
  days_of_months y (Z.to_nat (m - 1)) + d.

End Gregorian.

(** every character of the string is a decimal digit *)
Fixpoint all_digits (s : string) : bool :=
  match s with
  | EmptyString => true
  | String c s' => PyStr.is_digit c && all_digits s'
  end.

Fixpoint all_in (p : ascii -> bool) (s : string) : bool :=
  match s with
  | EmptyString => true
  | String c s' => p c && all_in p s'
  end.


(** when a GET makes [download_file] return [False] *)
Definition fails (o : http_outcome) : bool :=
  match o with
  | GetRaises _ => true
  | Response status _ broken =>
      (400 <=? status) && (status <? 600) || bool_decide (is_Some broken)
  end.

(** the integers from [lo], [n] of them *)
Definition Zrange (lo : Z) (n : nat) : list Z :=
  map (fun k => lo + Z.of_nat k) (seq 0 n).

(** the sum of the month lengths for a given leap flag *)
Fixpoint days_of_months_with (leap : bool) (n : nat) : Z :=
  match n with
  | O => 0
  | S n' =>
      days_of_months_with leap n'
      + (if Z.of_nat n =? 2 then (if leap then 29 else 28)
         else if (Z.of_nat n =? 4) || (Z.of_nat n =? 6) || (Z.of_nat n =? 9)
                 || (Z.of_nat n =? 11) then 30
         else 31)
  end.

(** the checks made on every day of the year and on every year *)
Definition doy_rendering_ok (doy : Z) : bool :=
  (String.length (PyStr.format_03d doy) =? 3)%nat
  && all_digits (PyStr.format_03d doy)
  && (int_of_digits (PyStr.format_03d doy) =? doy).

Definition yy_rendering_ok (y : Z) : bool :=
  String.eqb (PyStr.last2 (PyStr.str_of_Z y)) (PyStr.last2 (PyStr.zfill 4 (PyStr.str_of_Z y)))
  && (String.length (PyStr.last2 (PyStr.str_of_Z y)) =? 2)%nat
  && (String.length (PyStr.zfill 4 (PyStr.str_of_Z y)) =? 4)%nat.


(** A header line cut at the fields of the pattern: what is before the
    year, the six fields, the blanks between them, and what follows the
    seconds. *)
Record first_obs_line := {
  before_year : string;
  year_field : string;   blanks_1 : string;
  month_field : string;  blanks_2 : string;
  day_field : string;    blanks_3 : string;
  hour_field : string;   blanks_4 : string;
  minute_field : string; blanks_5 : string;
  seconds_field : string;
  after_seconds : string
}.

Definition line_text (l : first_obs_line) : string :=
  before_year l +:+ year_field l +:+ blanks_1 l +:+ month_field l +:+ blanks_2 l
    +:+ day_field l +:+ blanks_3 l +:+ hour_field l +:+ blanks_4 l
    +:+ minute_field l +:+ blanks_5 l +:+ seconds_field l +:+ after_seconds l.

Definition non_empty (s : string) : bool := negb (String.eqb s EmptyString).


Definition one_or_two_digits (s : string) : bool :=
  all_digits s && (1 <=? String.length s)%nat && (String.length s <=? 2)%nat.


(** whole seconds written with seven decimals, as in a RINEX header, are
    read exactly *)
Definition whole_seconds_exact (sec : Z) : bool :=
  match split_seconds (PyStr.zfill 2 (PyStr.str_of_Z sec) +:+ ".0000000") with
  | inr (second, microsecond) => (second =? sec) && (microsecond =? 0)
  | inl _ => false
  end.


(** ** Closed forms of the effects

    What one call of the fetcher or of the decompressor does to the world,
    as a function of the answer of the network and of the state of the
    archive; the proofs below show that the monadic definitions compute
    exactly these. *)

Definition join_chunks (chunks : list string) : string :=
  fold_right String.append EmptyString chunks.

(** the status check of [raise_for_status] *)
Definition is_error_status (status : Z) : bool := (400 <=? status) && (status <? 600).

(** the result of a download, for the answer of the network and the
    exception, if any, of opening the output file *)
Definition download_result (o : http_outcome) (refused : option exn) : outcome bool :=
  match o with
  | GetRaises _ => Returned false
  | Response status _ broken =>
      if is_error_status status then Returned false
      else match refused with
           | Some e => Raises e
           | None => Returned (negb (bool_decide (is_Some broken)))
           end
  end.

Definition download_files (o : http_outcome) (refused : option exn) (output_path : string)
    (fs : gmap string string) : gmap string string :=
  match o with
  | GetRaises _ => fs
  | Response status chunks _ =>
      if is_error_status status then fs
      else match refused with
           | Some _ => fs
           | None => <[output_path := join_chunks chunks]> fs
           end
  end.

Definition download_output (o : http_outcome) (refused : option exn)
    (url output_path : string) : list message :=
  MsgAttemptDownload url ::
  match o with
  | GetRaises e => [MsgRequestFailed e url]
  | Response status _ broken =>
      if is_error_status status then [MsgRequestFailed HTTPError url]
      else match refused with
           | Some _ => []
           | None => [match broken with
                      | Some e => MsgRequestFailed e url
                      | None => MsgDownloaded output_path
                      end]
           end
  end.

(** the ways a call of the decompressor can go *)
Inductive inflate_case :=
  | ArchiveMissing
  | ArchiveUnreadable
  | OutputRefused (e : exn)          (* the output file does not open *)
  | ArchiveCorrupt (written : string)
  | ArchiveKept (data : string)      (* inflated, but the archive is not removed *)
  | ArchiveInflated (data : string).

Definition inflate_case_of (gunzip : string -> gunzip_result) (w : world)
    (gz_file_path output_file_path : string) : inflate_case :=
  if is_dir w gz_file_path then ArchiveUnreadable
  else
    match files w !! gz_file_path with
    | None => ArchiveMissing
    | Some _ =>
        if bool_decide (gz_file_path ∈ unreadable w) then ArchiveUnreadable
        else
          match open_error w output_file_path with
          | Some e => OutputRefused e
          | None =>
              match gunzip (default EmptyString (<[output_file_path := EmptyString]> (files w)
                                          !! gz_file_path)) with
              | Corrupt written => ArchiveCorrupt written
              | Inflated data =>
                  if bool_decide (gz_file_path ∈ unremovable w) then ArchiveKept data
                  else ArchiveInflated data
              end
          end
    end.

Definition inflate_ok (c : inflate_case) : bool :=
  match c with
  | ArchiveInflated _ => true
  | _ => false
  end.

Definition inflate_files (c : inflate_case) (gz_file_path output_file_path : string)
    (fs : gmap string string) : gmap string string :=
  match c with
  | ArchiveMissing | ArchiveUnreadable | OutputRefused _ => fs
  | ArchiveCorrupt written => <[output_file_path := written]> fs
  | ArchiveKept data => <[output_file_path := data]> fs
  | ArchiveInflated data => delete gz_file_path (<[output_file_path := data]> fs)
  end.

Definition inflate_output (c : inflate_case) (gz_file_path output_file_path : string)
  : list message :=
  MsgDecompressing gz_file_path ::
  match c with
  | ArchiveMissing | OutputRefused FileNotFoundError => [MsgCompressedNotFound gz_file_path]
  | ArchiveUnreadable => [MsgDecompressError gz_file_path OSError]
  | OutputRefused e => [MsgDecompressError gz_file_path e]
  | ArchiveCorrupt _ => [MsgDecompressError gz_file_path BadGzipFile]
  | ArchiveKept _ =>
      [MsgDecompressed output_file_path; MsgDecompressError gz_file_path OSError]
  | ArchiveInflated _ =>
      [MsgDecompressed output_file_path; MsgRemovedCompressed gz_file_path]
  end.

(** how the loop of the parser ends on the bytes of a file *)
Definition decoded_scan (w : world) (content : string) : scan_result :=
  if PyStr.is_ascii content then scan_lines (text_lines content)
  else constructed (scan_of_encoded w content).

(** the outcome of the parser on the rover file of a world *)
Definition rover_scan (w : world) (path : string) : exn + scan_result :=
  if is_dir w path then inl OSError
  else
    match files w !! path with
    | None => inl FileNotFoundError
    | Some content =>
        if bool_decide (path ∈ unreadable w) then inl OSError
        else inr (decoded_scan w content)
    end.

Definition parsed_date (r : exn + scan_result) : option datetime :=
  match r with
  | inr (Found dt) => Some dt
  | _ => None
  end.

Definition parser_output (r : exn + scan_result) (path : string) : list message :=
  match r with
  | inl FileNotFoundError | inr (Raised FileNotFoundError) => [MsgRoverNotFound path]
  | inl e | inr (Raised e) => [MsgRoverReadError e]
  | inr (Found _) => []
  | inr (Unparsable line) => [MsgCouldNotParseDate (PyStr.strip line)]
  | inr NoMarker => [MsgMarkerNotFound]
  end.

(** ** The values [main] derives from the arguments and the date *)
Section Derived.
Variables (args : arguments) (dt : datetime).

Definition doy_str_of : string := PyStr.format_03d (get_doy dt).
Definition yy_of : string := PyStr.last2 (PyStr.str_of_Z (year dt)).
Definition station_id_lower_of : string := PyStr.lower (station_id args).

Definition names_of : obs_names :=
  build_obs (year dt) doy_str_of yy_of station_id_lower_of (rinex_obs_version args).

Definition obs_dl_path_gz : string :=
  OsPath.join (output_dir args) (obs_filename_gz names_of).
Definition obs_dl_path_final : string :=
  OsPath.join (output_dir args) (obs_final_filename names_of).

Definition nav_dl_path_gz_for (agency : string) : string :=
  OsPath.join (output_dir args) (nav_filename_rnx_gz_for (year dt) doy_str_of agency).
Definition nav_dl_path_final_for (agency : string) : string :=
  OsPath.join (output_dir args) (nav_filename_stem_for (year dt) doy_str_of agency +:+ ".rnx").
End Derived.

(** what a run has printed: the output of [w'] after that of [w] *)
Definition output_since (w w' : world) : list message :=
  drop (length (stdout w)) (stdout w').

(** the requests a run has made *)
Definition requests_since (w w' : world) : list string :=
  drop (length (requests w)) (requests w').

(** the six lines of the summary, for the paths shown *)
Definition summary_lines (args : arguments) (base_obs nav_file : string) : list message :=
  [ MsgFinished; MsgCheckDirectory (output_dir args); MsgRequiredFiles;
    MsgRoverObs (rinex_rover_file args); MsgBaseObs base_obs; MsgNavFile nav_file ].

Definition OBS_MANUALLY : string := "Download/Decompress OBS manually if failed".
Definition NAV_MANUALLY : string := "Download/Decompress NAV manually if failed".

(** the last character of a string *)
Fixpoint last_char (s : string) : option ascii :=
  match s with
  | EmptyString => None
  | String c EmptyString => Some c
  | String _ s' => last_char s'
  end.
(** the worlds after each stage of [main], without the monad *)
Section Worlds.
Variable http : nat -> string -> http_outcome.
Variable gunzip : string -> gunzip_result.

(** the answer to the next request *)
Definition next_answer (w : world) (url : string) : http_outcome :=
  http (length (requests w)) url.

Definition download_returns (url output_path : string) (w : world) : outcome bool :=
  download_result (next_answer w url) (open_error w output_path).

Definition downloaded (url output_path : string) (w : world) : world :=
  {| files := download_files (next_answer w url) (open_error w output_path)
                output_path (files w);
     dirs := dirs w; unreadable := unreadable w;
     unwritable := unwritable w; unremovable := unremovable w;
     scan_of_encoded := scan_of_encoded w;
     stdout := stdout w ++ download_output (next_answer w url)
                             (open_error w output_path) url output_path;
     requests := requests w ++ [url] |}.

Definition inflated (gz_file_path output_file_path : string) (w : world) : world :=
  let c := inflate_case_of gunzip w gz_file_path output_file_path in
  {| files := inflate_files c gz_file_path output_file_path (files w);
     dirs := dirs w; unreadable := unreadable w;
     unwritable := unwritable w; unremovable := unremovable w;
     scan_of_encoded := scan_of_encoded w;
     stdout := stdout w ++ inflate_output c gz_file_path output_file_path;
     requests := requests w |}.

Definition fetch_obs_world (args : arguments) (names : obs_names)
    (path_gz path_final : string) (w : world) : world :=
  let wd := downloaded (obs_url names) path_gz w in
  match download_returns (obs_url names) path_gz w with
  | Raises _ => wd
  | Returned false => printed [MsgObsDownloadFailed] wd
  | Returned true =>
      if String.eqb (rinex_obs_version args) "3"
         && PyStr.endswith (obs_filename_gz names) ".crx.gz"
      then inflated path_gz path_final wd
      else if String.eqb (rinex_obs_version args) "2"
              && PyStr.endswith (obs_filename_gz names) ".Z"
      then printed [MsgDecompressManually path_gz] wd
      else printed [MsgNoAutomatedDecompression path_gz] wd
  end.

Definition fetch_obs_returns (names : obs_names) (path_gz : string) (w : world)
  : outcome unit :=
  match download_returns (obs_url names) path_gz w with
  | Raises e => Raises e
  | Returned _ => Returned tt
  end.

Definition fetch_nav_world (args : arguments) (dt : datetime) (w : world) : world :=
  let wd := downloaded (nav_url (year dt) (doy_str_of dt)) (nav_dl_path_gz_for args dt "DLR") w in
  match download_returns (nav_url (year dt) (doy_str_of dt))
          (nav_dl_path_gz_for args dt "DLR") w with
  | Raises _ => wd
  | Returned true =>
      inflated (nav_dl_path_gz_for args dt "DLR") (nav_dl_path_final_for args dt "DLR") wd
  | Returned false =>
      let wf := printed [MsgNavDlrFailed] wd in
      let wg := downloaded (nav_url_gde (year dt) (doy_str_of dt))
                  (nav_dl_path_gz_for args dt "GDE") wf in
      match download_returns (nav_url_gde (year dt) (doy_str_of dt))
              (nav_dl_path_gz_for args dt "GDE") wf with
      | Raises _ => wg
      | Returned true =>
          inflated (nav_dl_path_gz_for args dt "GDE") (nav_dl_path_final_for args dt "GDE") wg
      | Returned false => printed [MsgNavGdeFailed (year dt) (doy_str_of dt)] wg
      end
  end.

(** the final value of [nav_dl_path_final], or the exception *)
Definition fetch_nav_returns (args : arguments) (dt : datetime) (w : world)
  : outcome string :=
  match download_returns (nav_url (year dt) (doy_str_of dt))
          (nav_dl_path_gz_for args dt "DLR") w with
  | Raises e => Raises e
  | Returned true => Returned (nav_dl_path_final_for args dt "DLR")
  | Returned false =>
      match download_returns (nav_url_gde (year dt) (doy_str_of dt))
              (nav_dl_path_gz_for args dt "GDE")
              (printed [MsgNavDlrFailed]
                 (downloaded (nav_url (year dt) (doy_str_of dt))
                    (nav_dl_path_gz_for args dt "DLR") w)) with
      | Raises e => Raises e
      | Returned _ => Returned (nav_dl_path_final_for args dt "GDE")
      end
  end.

(** the final value of [nav_dl_path_final] when the fetcher returns *)
Definition nav_dl_path_final (args : arguments) (dt : datetime) (w : world) : string :=
  if fails (next_answer w (nav_url (year dt) (doy_str_of dt)))
  then nav_dl_path_final_for args dt "GDE"
  else nav_dl_path_final_for args dt "DLR".

Definition shown (w : world) (path otherwise : string) : string :=
  if path_exists w path then path else otherwise.

Definition summary_world (args : arguments) (obs_final nav_final : string) (w : world)
  : world :=
  printed (summary_lines args (shown w obs_final OBS_MANUALLY)
             (shown w nav_final NAV_MANUALLY)) w.

(** the world when the download of the observation file starts *)
Definition announced (args : arguments) (dt : datetime) (w : world) : world :=
  printed
    ([ MsgRoverStart dt;
       MsgYearDoyStation (year dt) (doy_str_of dt) (station_id_lower_of args) ]
     ++ (if negb (String.eqb (rinex_obs_version args) "3")
            && String.eqb (rinex_obs_version args) "2"
         then [MsgWarnManualDecompression
                 (obs_filename_211_gz (doy_str_of dt) (yy_of dt) (station_id_lower_of args))]
         else [])) w.

Definition obs_stage_world (args : arguments) (dt : datetime) (w : world) : world :=
  fetch_obs_world args (names_of args dt) (obs_dl_path_gz args dt)
    (obs_dl_path_final args dt) (announced args dt w).

Definition obs_stage_returns (args : arguments) (dt : datetime) (w : world)
  : outcome unit :=
  fetch_obs_returns (names_of args dt) (obs_dl_path_gz args dt) (announced args dt w).

Definition nav_stage_world (args : arguments) (dt : datetime) (w : world) : world :=
  fetch_nav_world args dt (obs_stage_world args dt w).

Definition nav_stage_returns (args : arguments) (dt : datetime) (w : world)
  : outcome string :=
  fetch_nav_returns args dt (obs_stage_world args dt w).

(** the run stops at the first stage that raises *)
Definition run_from_date_world (args : arguments) (dt : datetime) (w : world) : world :=
  match obs_stage_returns args dt w with
  | Raises _ => obs_stage_world args dt w
  | Returned _ =>
      match nav_stage_returns args dt w with
      | Raises _ => nav_stage_world args dt w
      | Returned nav_final =>
          summary_world args (obs_dl_path_final args dt) nav_final
            (nav_stage_world args dt w)
      end
  end.

Definition run_from_date_returns (args : arguments) (dt : datetime) (w : world)
  : outcome unit :=
  match obs_stage_returns args dt w with
  | Raises e => Raises e
  | Returned _ =>
      match nav_stage_returns args dt w with
      | Raises e => Raises e
      | Returned _ => Returned tt
      end
  end.

(** the world when the parser has returned *)
Definition parsed_world (args : arguments) (w : world) : world :=
  printed (parser_output (rover_scan w (rinex_rover_file args)) (rinex_rover_file args)) w.

Definition parse_and_run_world (args : arguments) (w : world) : world :=
  match parsed_date (rover_scan w (rinex_rover_file args)) with
  | None => parsed_world args w
  | Some dt => run_from_date_world args dt (parsed_world args w)
  end.

Definition parse_and_run_returns (args : arguments) (w : world) : outcome unit :=
  match parsed_date (rover_scan w (rinex_rover_file args)) with
  | None => Returned tt
  | Some dt => run_from_date_returns args dt (parsed_world args w)
  end.
End Worlds.

(** both logs of [w'] continue those of [w] *)
Definition grows (w w' : world) : Prop :=
  (exists msgs, stdout w' = stdout w ++ msgs)
  /\ (exists urls, requests w' = requests w ++ urls).

(** [w'] has the directories of [w], and the system refuses and decodes
    in [w'] what it does in [w] *)
Definition same_system (w w' : world) : Prop :=
  dirs w' = dirs w /\ unreadable w' = unreadable w /\ unwritable w' = unwritable w
  /\ unremovable w' = unremovable w /\ scan_of_encoded w' = scan_of_encoded w.

(** the three archives a run may download can be opened for writing *)
Definition archives_can_open (args : arguments) (dt : datetime) (w : world) : bool :=
  can_open w (obs_dl_path_gz args dt)
  && can_open w (nav_dl_path_gz_for args dt "DLR")
  && can_open w (nav_dl_path_gz_for args dt "GDE").

(** [w'] is [w] with more directories, and nothing else has changed *)
Definition made_dirs (w w' : world) : Prop :=
  files w' = files w /\ unreadable w' = unreadable w /\ unwritable w' = unwritable w
  /\ unremovable w' = unremovable w /\ scan_of_encoded w' = scan_of_encoded w
  /\ stdout w' = stdout w /\ requests w' = requests w /\ dirs w ⊆ dirs w'.

(** the last component of a name as [os.makedirs] sees it: the tail of
    the name, or that of its head when the name ends with a slash *)
Definition makedirs_tail (name : string) : string :=
  let (head0, tail0) := OsPath.split name in
  snd (if String.eqb tail0 EmptyString then OsPath.split head0 else (head0, tail0)).

(** ** A sample run *)

Definition newline : string := String "010"%char EmptyString.

(** the header line of the scenario, and a file that holds it *)
Definition sample_line : first_obs_line :=
  {| before_year := "  ";
     year_field := "2023";      blanks_1 := "    ";
     month_field := "01";       blanks_2 := "    ";
     day_field := "15";         blanks_3 := "   ";
     hour_field := "08";        blanks_4 := "   ";
     minute_field := "30";      blanks_5 := "   ";
     seconds_field := "15.0000000";
     after_seconds := "     GPS         TIME OF FIRST OBS" +:+ newline |}.

Definition sample_header : string :=
  "     3.04           OBSERVATION DATA    M                   RINEX VERSION / TYPE"
    +:+ newline +:+ line_text sample_line.

Definition sample_date : datetime :=
  {| year := 2023; month := 1; day := 15; hour := 8; minute := 30;
     second := 15; microsecond := 0; tzinfo := utc |}.

(** a world with these files and directories, where nothing is refused
    and nothing has been printed or requested yet *)
Definition plain_world (fs : gmap string string) (ds : gset string) : world :=
  {| files := fs; dirs := ds; unreadable := ∅; unwritable := ∅; unremovable := ∅;
     scan_of_encoded := fun _ => NoMarker; stdout := []; requests := [] |}.

Definition empty_world : world := plain_world ∅ ∅.

Definition sample_world : world := plain_world {[ "rover.obs" := sample_header ]} ∅.

Definition sample_args (version : string) : arguments :=
  {| rinex_rover_file := "rover.obs"; station_id := "ALGO"; output_dir := "out";
     rinex_obs_version := version |}.

(** the same run for a station identifier of nine characters *)
Definition long_station_args : arguments :=
  {| rinex_rover_file := "rover.obs"; station_id := "Algonquin"; output_dir := "out";
     rinex_obs_version := "3" |}.

(** a world that holds the archive of a content *)
Definition world_with_archive (content : string) : world :=
  plain_world {[ "nav.rnx.gz" := String "G"%char content ]} ∅.

(** a server that has none of the files *)
Definition not_found (n : nat) (url : string) : http_outcome := Response 404 [] None.

(** a server whose connection breaks after the first chunk of the body *)
Definition broken_stream (n : nat) (url : string) : http_outcome :=
  Response 200 ["abc"] (Some ConnectionError).

(** a codec for the samples: the archive of a content is the content after
    one marker character *)
Definition sample_gzip (content : string) : string := String "G"%char content.

Definition sample_gunzip (archive : string) : gunzip_result :=
  match archive with
  | String c content => if Ascii.eqb c "G"%char then Inflated content else Corrupt EmptyString
  | EmptyString => Corrupt EmptyString
  end.

(** header lines on which the parser departs from the specification *)
Definition month_13_line : string :=
  "  2023    13    15   08   30   15.0000000     GPS         TIME OF FIRST OBS".

Definition tenth_of_second_line : string :=
  "  2023    01    15   08   30   15.1000000     GPS         TIME OF FIRST OBS".

Definition almost_59_seconds_line : string :=
  "  2023    01    15   08   30   58.99999999999999999 GPS     TIME OF FIRST OBS".

Definition year_5_line : string :=
  "  0005    01    01   00   00    0.0000000     GPS         TIME OF FIRST OBS".

Definition world_with_rover (content : string) : world :=
  plain_world {[ "rover.obs" := content ]} ∅.

(** ** More sample servers and worlds *)

(** a server that has every file: the body is the archive of a payload,
    sent in two chunks *)
Definition serve_archives (n : nat) (url : string) : http_outcome :=
  Response 200 ["G"; "payload"] None.

(** a server that has every file but the DLR navigation file *)
Definition serve_all_but_dlr (n : nat) (url : string) : http_outcome :=
  if PyStr.contains "DLR" url then Response 404 [] None
  else Response 200 ["G"; "payload"] None.

(** a server whose bodies are not gzip archives *)
Definition serve_garbage (n : nat) (url : string) : http_outcome :=
  Response 200 ["<html>login</html>"] None.

(** the sample world after an earlier run has left a base observation file *)
Definition world_with_old_obs : world :=
  plain_world {[ "rover.obs" := sample_header; "out/algo0150.23o.crx" := "old" ]} {[ "out" ]}.

(** the sample run for a station identifier that starts with a slash *)
Definition slash_station_args : arguments :=
  {| rinex_rover_file := "rover.obs"; station_id := "/tmp/x"; output_dir := "out";
     rinex_obs_version := "3" |}.

(** a codec that fails on every archive after it has written a part *)
Definition failing_gunzip (archive : string) : gunzip_result := Corrupt "part".

(** the sample header with a second marker line *)
Definition two_marker_lines : list string :=
  [ "     3.04           OBSERVATION DATA    M                   RINEX VERSION / TYPE"
      +:+ newline;
    month_13_line +:+ newline;
    line_text sample_line ].

(** a world once the sample output directory has been made *)
Definition made_out (w : world) : world :=
  printed [MsgCreatedOutputDir "out"] (set_dirs (fun ds => {[ "out" ]} ∪ ds) w).

(** a world that has the output directory and nothing else *)
Definition world_with_out_dir : world := plain_world ∅ {[ "out" ]}.

(** a rover file that lies where the observation archive will be stored *)
Definition rover_at_archive_args : arguments :=
  {| rinex_rover_file := "out/algo0150.23o.crx.gz"; station_id := "ALGO";
     output_dir := "out"; rinex_obs_version := "3" |}.

Definition world_with_rover_at_archive : world :=
  plain_world {[ "out/algo0150.23o.crx.gz" := sample_header ]} {[ "out" ]}.

(** the sample run for a station identifier with a slash in it *)
Definition nested_station_args : arguments :=
  {| rinex_rover_file := "rover.obs"; station_id := "a/b"; output_dir := "out";
     rinex_obs_version := "3" |}.

(** a rover file made of these three lines *)
Definition two_marker_header : string :=
  fold_right String.append EmptyString two_marker_lines.

(** the sample run with the empty string as output directory *)
Definition empty_dir_args : arguments :=
  {| rinex_rover_file := "rover.obs"; station_id := "ALGO"; output_dir := EmptyString;
     rinex_obs_version := "3" |}.

(** * Properties *)

(** ** Strings *)

Lemma append_cons (x : ascii) (a b : string) :
  String x a +:+ b = String x (a +:+ b).
Proof. reflexivity. Qed.

Lemma append_nil_l (b : string) : EmptyString +:+ b = b.
Proof. reflexivity. Qed.

Lemma append_assoc (a b c : string) : (a +:+ b) +:+ c = a +:+ (b +:+ c).
Proof.
  induction a as [|x a IH]; [reflexivity |].
  now rewrite !append_cons, IH.
Qed.

Lemma append_nil_r (a : string) : a +:+ EmptyString = a.
Proof.
  induction a as [|x a IH]; [reflexivity |].
  now rewrite append_cons, IH.
Qed.

Lemma length_append (a b : string) :
  String.length (a +:+ b) = (String.length a + String.length b)%nat.
Proof.
  induction a as [|x a IH]; [reflexivity |].
  rewrite append_cons. simpl. now rewrite IH.
Qed.

Lemma length_lower (s : string) : String.length (PyStr.lower s) = String.length s.
Proof. induction s as [|c s IH]; simpl; [reflexivity | now rewrite IH]. Qed.

Lemma lower_append (a b : string) :
  PyStr.lower (a +:+ b) = PyStr.lower a +:+ PyStr.lower b.
Proof.
  induction a as [|x a IH]; [reflexivity |].
  rewrite !append_cons. simpl. now rewrite append_cons, IH.
Qed.

Lemma Zrange_spec (lo : Z) (n : nat) (z : Z) :
  lo <= z < lo + Z.of_nat n -> In z (Zrange lo n).
Proof.
  intros Hz. unfold Zrange. apply in_map_iff.
  exists (Z.to_nat (z - lo)). split; [lia |].
  apply in_seq. lia.
Qed.

Lemma forallb_Zrange (P : Z -> bool) (lo : Z) (n : nat) :
  forallb P (Zrange lo n) = true ->
  forall z, lo <= z < lo + Z.of_nat n -> P z = true.
Proof.
  intros Hall z Hz. rewrite forallb_forall in Hall.
  apply Hall, Zrange_spec, Hz.
Qed.

(** ** The name builder *)

(** C1. For version "3" the observation names are a function of the year,
    the day-of-year string, the two-digit year and the lowercased station:
    on 2023, "015", "23" and "ALGO" they are the stem [algo0150.23o], the
    compressed name [algo0150.23o.crx.gz] and a URL under the archive root
    ending in [/2023/015/23o/algo0150.23o.crx.gz]; in general the URL is
    [<root>/<year>/<doy>/<yy>o/<station><doy>0.<yy>o.crx.gz]. *)
Theorem C1_obs_names_v3 :
  (obs_filename_stem_3 "015" "23" (PyStr.lower "ALGO") = "algo0150.23o"
   /\ obs_filename_gz (build_obs 2023 "015" "23" (PyStr.lower "ALGO") "3")
      = "algo0150.23o.crx.gz"
   /\ obs_url (build_obs 2023 "015" "23" (PyStr.lower "ALGO") "3")
      = CDDIS_BASE_URL +:+ "/2023/015/23o/algo0150.23o.crx.gz")
  /\ forall (year : Z) (doy_str yy station : string),
      obs_url (build_obs year doy_str yy station "3")
      = CDDIS_BASE_URL +:+ "/" +:+ PyStr.str_of_Z year +:+ "/" +:+ doy_str
          +:+ "/" +:+ yy +:+ "o/"
          +:+ station +:+ doy_str +:+ "0." +:+ yy +:+ "o" +:+ ".crx.gz".
Proof.
  split; [repeat split; reflexivity |].
  intros year doy_str yy station.
  unfold build_obs. rewrite String.eqb_refl. cbn [obs_url].
  unfold obs_url_3, obs_filename_crx_gz, obs_filename_stem_3.
  now rewrite !append_assoc.
Qed.

(** ** The monads *)

Lemma bind_run {A B} (c : IO A) (k : A -> IO B) (w : world) :
  bind c k w = k (fst (c w)) (snd (c w)).
Proof. unfold bind. now destruct (c w). Qed.

Lemma run_bind_run {A B} (c : Run A) (k : A -> Run B) (w : world) :
  run_bind c k w
  = match fst (c w) with
    | Returned a => k a (snd (c w))
    | Raises e => (Raises e, snd (c w))
    end.
Proof. unfold run_bind. now destruct (c w) as [[a | e] w']. Qed.

Lemma lift_run {A} (c : IO A) (w : world) :
  lift c w = (Returned (fst (c w)), snd (c w)).
Proof. unfold lift. now destruct (c w). Qed.

Lemma run_bind_lift {A B} (c : IO A) (k : A -> Run B) (w : world) :
  run_bind (lift c) k w = k (fst (c w)) (snd (c w)).
Proof. now rewrite run_bind_run, lift_run. Qed.

Lemma world_eta (w : world) :
  {| files := files w; dirs := dirs w; unreadable := unreadable w;
     unwritable := unwritable w; unremovable := unremovable w;
     scan_of_encoded := scan_of_encoded w;
     stdout := stdout w; requests := requests w |} = w.
Proof. now destruct w. Qed.

Lemma printed_nil (w : world) : printed [] w = w.
Proof. unfold printed. rewrite app_nil_r. apply world_eta. Qed.

Lemma printed_printed (a b : list message) (w : world) :
  printed b (printed a w) = printed (a ++ b) w.
Proof. unfold printed. simpl. now rewrite app_assoc. Qed.

Lemma print_run (m : message) (w : world) : print m w = (tt, printed [m] w).
Proof. reflexivity. Qed.

(** ** The fetcher *)
Section Fetcher.
Variable http : nat -> string -> http_outcome.

Lemma write_chunks_run (path : string) (chunks : list string) (acc : string) (w : world) :
  files w !! path = Some acc ->
  write_chunks path chunks w
  = (tt, set_files (insert path (acc +:+ join_chunks chunks)) w).
Proof.
  revert acc w. induction chunks as [|chunk rest IH]; intros acc w Hacc.
  - simpl. unfold ret, set_files. rewrite append_nil_r.
    rewrite insert_id by exact Hacc. now rewrite world_eta.
  - simpl. rewrite bind_run. unfold write_chunk at 1. simpl.
    rewrite (IH (acc +:+ chunk)).
    + unfold set_files. simpl. rewrite Hacc. simpl.
      rewrite insert_insert_eq. now rewrite append_assoc.
    + unfold set_files. simpl. rewrite Hacc. simpl. apply lookup_insert_eq.
Qed.

Lemma download_file_run (url output_path : string) (w : world) :
  download_file http url output_path w
  = (download_returns http url output_path w, downloaded http url output_path w).
Proof.
  unfold download_file, download_returns, downloaded, next_answer.
  rewrite run_bind_lift, print_run. cbn [fst snd].
  rewrite run_bind_lift. unfold requests_get. cbn [fst snd printed requests].
  unfold download_output, download_files, download_result, is_error_status.
  destruct (http (length (requests w)) url) as [e | status chunks broken].
  - rewrite run_bind_lift, print_run. unfold run_ret, printed, requested. cbn.
    now rewrite <- app_assoc.
  - destruct ((400 <=? status) && (status <? 600)) eqn:Hst.
    + rewrite run_bind_lift, print_run. unfold run_ret, printed, requested. cbn.
      now rewrite <- app_assoc.
    + rewrite run_bind_lift. unfold open_write.
      change (open_error (requested url (printed [MsgAttemptDownload url] w)) output_path)
        with (open_error w output_path).
      destruct (open_error w output_path) as [e|]; cbn [fst snd].
      * unfold raise, requested, printed. cbn. reflexivity.
      * rewrite run_bind_lift.
        rewrite (write_chunks_run output_path chunks EmptyString) by apply lookup_insert_eq.
        cbn [fst snd]. unfold set_files, requested.
        cbn [files dirs unreadable unwritable unremovable scan_of_encoded stdout requests].
        rewrite insert_insert_eq, append_nil_l.
        destruct broken as [e|]; rewrite run_bind_lift, print_run; unfold run_ret, printed;
          cbn; now rewrite <- app_assoc.
Qed.
End Fetcher.

(** ** The decompressor *)
Section Decompressor.
Variable gunzip : string -> gunzip_result.

Lemma decompress_gz_file_run (gz_file_path output_file_path : string) (w : world) :
  decompress_gz_file gunzip gz_file_path output_file_path w
  = (inflate_ok (inflate_case_of gunzip w gz_file_path output_file_path),
     inflated gunzip gz_file_path output_file_path w).
Proof.
  unfold inflated, decompress_gz_file, inflate_case_of.
  rewrite bind_run, print_run. cbn [fst snd].
  rewrite bind_run. unfold open_read.
  change (is_dir (printed [MsgDecompressing gz_file_path] w) gz_file_path)
    with (is_dir w gz_file_path).
  cbn [files printed unreadable].
  destruct (is_dir w gz_file_path).
  { cbn [fst snd]. rewrite bind_run, print_run. unfold ret, printed. cbn.
    now rewrite <- app_assoc. }
  destruct (files w !! gz_file_path) as [content|] eqn:Hgz.
  - destruct (bool_decide (gz_file_path ∈ unreadable w)) eqn:Hun.
    + cbn [fst snd]. rewrite bind_run, print_run. unfold ret, printed. cbn.
      now rewrite <- app_assoc.
    + cbn [fst snd]. rewrite bind_run. unfold open_write.
      match goal with
      | |- context [open_error ?w0 output_file_path] =>
          change (open_error w0 output_file_path) with (open_error w output_file_path)
      end.
      destruct (open_error w output_file_path) as [e|]; cbn [fst snd].
      * destruct e; rewrite bind_run, print_run; unfold ret, printed; cbn;
          now rewrite <- app_assoc.
      * rewrite bind_run. unfold get_world. cbn [fst snd].
        unfold set_files at 1. cbn [files].
        destruct (gunzip _) as [data | written].
        -- rewrite bind_run. unfold write_chunk. cbn [fst snd].
           rewrite bind_run, print_run. cbn [fst snd].
           rewrite bind_run. unfold os_remove.
           cbn [unremovable printed set_files].
           destruct (bool_decide (gz_file_path ∈ unremovable w)); cbn [fst snd];
             rewrite bind_run, print_run; unfold ret, printed, set_files; cbn;
             rewrite lookup_insert_eq; cbn; rewrite insert_insert_eq;
             now rewrite <- !app_assoc.
        -- rewrite bind_run. unfold write_chunk. cbn [fst snd].
           rewrite bind_run, print_run. unfold ret, printed. cbn.
           rewrite lookup_insert_eq. cbn. rewrite insert_insert_eq.
           now rewrite <- !app_assoc.
  - cbn [fst snd]. rewrite bind_run, print_run. unfold ret, printed. cbn.
    now rewrite <- app_assoc.
Qed.
End Decompressor.

(** ** The parser *)

Lemma get_obs_date_from_rinex_run (path : string) (w : world) :
  get_obs_date_from_rinex path w
  = (parsed_date (rover_scan w path), printed (parser_output (rover_scan w path) path) w).
Proof.
  unfold get_obs_date_from_rinex, rover_scan.
  rewrite bind_run. unfold open_read.
  destruct (is_dir w path); cbn [fst snd].
  { now rewrite bind_run, print_run. }
  destruct (files w !! path) as [content|].
  - destruct (bool_decide (path ∈ unreadable w)); cbn [fst snd].
    + now rewrite bind_run, print_run.
    + rewrite bind_run. unfold get_world. cbn [fst snd]. fold (decoded_scan w content).
      destruct (decoded_scan w content) as [dt | line | | e];
        cbn [parsed_date parser_output].
      * unfold ret. now rewrite printed_nil.
      * now rewrite bind_run, print_run.
      * now rewrite bind_run, print_run.
      * destruct e; now rewrite bind_run, print_run.
  - cbn [fst snd]. now rewrite bind_run, print_run.
Qed.
(** ** The stages of [main] *)
Section Stages.
Variable http : nat -> string -> http_outcome.
Variable gunzip : string -> gunzip_result.

Lemma download_file_eq (url output_path : string) (w : world) :
  download_file http url output_path w
  = (download_returns http url output_path w, downloaded http url output_path w).
Proof. apply download_file_run. Qed.

Lemma decompress_gz_file_eq (gz out : string) (w : world) :
  decompress_gz_file gunzip gz out w
  = (inflate_ok (inflate_case_of gunzip w gz out), inflated gunzip gz out w).
Proof. apply decompress_gz_file_run. Qed.

(** a download that returns, returns whether the answer was complete *)
Lemma download_result_returned (o : http_outcome) (refused : option exn) (b : bool) :
  download_result o refused = Returned b -> b = negb (fails o).
Proof.
  unfold download_result, fails, is_error_status.
  destruct o as [e | status chunks broken]; [now intros [= <-] |].
  destruct ((400 <=? status) && (status <? 600)); [now intros [= <-] |].
  destruct refused; [discriminate |]. now intros [= <-].
Qed.

Lemma download_returns_returned (url path : string) (w : world) (b : bool) :
  download_returns http url path w = Returned b ->
  b = negb (fails (next_answer http w url)).
Proof. apply download_result_returned. Qed.

Lemma open_error_can_open (w : world) (p : string) :
  can_open w p = true -> open_error w p = None.
Proof. unfold open_error. now intros ->. Qed.

Lemma download_result_open (o : http_outcome) :
  download_result o None = Returned (negb (fails o)).
Proof.
  unfold download_result, fails, is_error_status.
  destruct o as [e | status chunks broken]; [reflexivity |].
  now destruct ((400 <=? status) && (status <? 600)).
Qed.

(** when the output file can be opened, a download returns *)
Lemma download_returns_open (url path : string) (w : world) :
  can_open w path = true ->
  download_returns http url path w = Returned (negb (fails (next_answer http w url))).
Proof.
  intros Hopen. unfold download_returns.
  rewrite open_error_can_open by exact Hopen. apply download_result_open.
Qed.

Lemma fetch_obs_eq args names path_gz path_final w :
  fetch_obs http gunzip args names path_gz path_final w
  = (fetch_obs_returns http names path_gz w,
     fetch_obs_world http gunzip args names path_gz path_final w).
Proof.
  unfold fetch_obs, fetch_obs_world, fetch_obs_returns.
  rewrite run_bind_run, download_file_eq. cbn [fst snd].
  destruct (download_returns http (obs_url names) path_gz w) as [[|] | e].
  - destruct (String.eqb (rinex_obs_version args) "3"
              && PyStr.endswith (obs_filename_gz names) ".crx.gz").
    + rewrite run_bind_run, lift_run, decompress_gz_file_eq. reflexivity.
    + destruct (String.eqb (rinex_obs_version args) "2"
                && PyStr.endswith (obs_filename_gz names) ".Z");
        now rewrite lift_run, print_run.
  - now rewrite lift_run, print_run.
  - reflexivity.
Qed.

Lemma fetch_nav_eq args dt w :
  fetch_nav http gunzip args (year dt) (doy_str_of dt) w
  = (fetch_nav_returns http args dt w, fetch_nav_world http gunzip args dt w).
Proof.
  unfold fetch_nav, fetch_nav_world, fetch_nav_returns.
  rewrite run_bind_run, download_file_eq. cbn [fst snd].
  unfold nav_dl_path_gz_for, nav_dl_path_final_for, nav_filename_rnx_gz,
    nav_filename_rnx_gz_gde, nav_filename_stem, nav_filename_stem_gde.
  destruct (download_returns http (nav_url (year dt) (doy_str_of dt)) _ w)
    as [[|] | e]; cbn [negb].
  - rewrite run_bind_run, lift_run, decompress_gz_file_eq. reflexivity.
  - rewrite run_bind_run, lift_run, print_run. cbn [fst snd].
    rewrite run_bind_run, download_file_eq. cbn [fst snd].
    destruct (download_returns http (nav_url_gde (year dt) (doy_str_of dt)) _ _)
      as [[|] | e].
    + rewrite run_bind_run, run_bind_run, lift_run, decompress_gz_file_eq. reflexivity.
    + rewrite run_bind_run, lift_run, print_run. reflexivity.
    + reflexivity.
  - reflexivity.
Qed.

Lemma summary_eq args obs_final nav_final w :
  summary args obs_final nav_final w = (tt, summary_world args obs_final nav_final w).
Proof.
  unfold summary, summary_world, summary_lines, shown.
  repeat (rewrite bind_run, print_run; cbn [fst snd]).
  rewrite bind_run. unfold os_path_exists. cbn [fst snd].
  rewrite bind_run, print_run. cbn [fst snd].
  rewrite bind_run. cbn [fst snd]. rewrite print_run.
  rewrite !printed_printed. reflexivity.
Qed.

Lemma run_from_date_eq args dt w :
  run_from_date http gunzip args dt w
  = (run_from_date_returns http gunzip args dt w, run_from_date_world http gunzip args dt w).
Proof.
  unfold run_from_date, run_from_date_world, run_from_date_returns,
    nav_stage_world, nav_stage_returns, obs_stage_world, obs_stage_returns, announced.
  repeat (rewrite run_bind_lift, print_run; cbn [fst snd]).
  fold (doy_str_of dt) (yy_of dt) (station_id_lower_of args).
  fold (names_of args dt). fold (obs_dl_path_gz args dt) (obs_dl_path_final args dt).
  assert (Hwarn : forall b m w0,
             when b (lift (print m)) w0 = (Returned tt, printed (if b then [m] else []) w0)).
  { intros [] m w0; [reflexivity | unfold when, run_ret; now rewrite printed_nil]. }
  rewrite run_bind_run, Hwarn. cbn [fst snd]. rewrite !printed_printed. cbn [app].
  rewrite run_bind_run, fetch_obs_eq. cbn [fst snd].
  destruct (fetch_obs_returns http (names_of args dt) (obs_dl_path_gz args dt) _) as [[] | e];
    [| reflexivity].
  rewrite run_bind_run, fetch_nav_eq. cbn [fst snd].
  destruct (fetch_nav_returns http args dt _) as [nav_final | e]; [| reflexivity].
  now rewrite lift_run, summary_eq.
Qed.

Lemma parse_and_run_eq args w :
  parse_and_run http gunzip args w
  = (parse_and_run_returns http gunzip args w, parse_and_run_world http gunzip args w).
Proof.
  unfold parse_and_run, parse_and_run_world, parse_and_run_returns, parsed_world.
  rewrite run_bind_lift, get_obs_date_from_rinex_run. cbn [fst snd].
  destruct (parsed_date (rover_scan w (rinex_rover_file args))) as [dt|].
  - apply run_from_date_eq.
  - reflexivity.
Qed.

(** [main] once the output directory is there *)
Lemma main_prepared args w0 w :
  prepare args w0 = (Returned tt, w) ->
  main http gunzip args w0 = parse_and_run http gunzip args w.
Proof. intros Hprep. unfold main. now rewrite run_bind_run, Hprep. Qed.

(** [main] when the output directory cannot be made *)
Lemma main_not_prepared args w0 w e :
  prepare args w0 = (Raises e, w) ->
  main http gunzip args w0 = (Raises e, w).
Proof. intros Hprep. unfold main. now rewrite run_bind_run, Hprep. Qed.

(** the final navigation path of a fetch that returns *)
Lemma fetch_nav_returned args dt w nav_final :
  fetch_nav_returns http args dt w = Returned nav_final ->
  nav_final = nav_dl_path_final http args dt w.
Proof.
  unfold fetch_nav_returns, nav_dl_path_final.
  destruct (download_returns http (nav_url (year dt) (doy_str_of dt)) _ w)
    as [b | e] eqn:Hdlr; [| discriminate].
  apply download_returns_returned in Hdlr. subst b.
  destruct (fails (next_answer http w (nav_url (year dt) (doy_str_of dt)))); cbn [negb].
  - destruct (download_returns http _ _ _); [| discriminate]. now intros [= <-].
  - now intros [= <-].
Qed.
End Stages.

(** ** The two logs only grow *)

Lemma grows_refl (w : world) : grows w w.
Proof. split; exists []; now rewrite app_nil_r. Qed.

Lemma grows_trans (w1 w2 w3 : world) : grows w1 w2 -> grows w2 w3 -> grows w1 w3.
Proof.
  intros [[m1 H1] [u1 G1]] [[m2 H2] [u2 G2]]. split.
  - exists (m1 ++ m2). now rewrite H2, H1, app_assoc.
  - exists (u1 ++ u2). now rewrite G2, G1, app_assoc.
Qed.

Lemma grows_intro (w w' : world) (msgs : list message) (urls : list string) :
  stdout w' = stdout w ++ msgs -> requests w' = requests w ++ urls -> grows w w'.
Proof. intros H G. split; eauto. Qed.

Lemma output_since_eq (w w' : world) (msgs : list message) :
  stdout w' = stdout w ++ msgs -> output_since w w' = msgs.
Proof. intros H. unfold output_since. rewrite H. apply drop_app_length. Qed.

Lemma requests_since_eq (w w' : world) (urls : list string) :
  requests w' = requests w ++ urls -> requests_since w w' = urls.
Proof. intros H. unfold requests_since. rewrite H. apply drop_app_length. Qed.

Lemma grows_stdout (w w' : world) :
  grows w w' -> stdout w' = stdout w ++ output_since w w'.
Proof. intros [[m H] _]. now rewrite (output_since_eq _ _ _ H). Qed.

Lemma grows_requests (w w' : world) :
  grows w w' -> requests w' = requests w ++ requests_since w w'.
Proof. intros [_ [u H]]. now rewrite (requests_since_eq _ _ _ H). Qed.

Lemma output_since_trans (w1 w2 w3 : world) :
  grows w1 w2 -> grows w2 w3 ->
  output_since w1 w3 = output_since w1 w2 ++ output_since w2 w3.
Proof.
  intros H12 H23. apply output_since_eq.
  rewrite (grows_stdout _ _ H23), (grows_stdout _ _ H12). now rewrite app_assoc.
Qed.

Lemma requests_since_trans (w1 w2 w3 : world) :
  grows w1 w2 -> grows w2 w3 ->
  requests_since w1 w3 = requests_since w1 w2 ++ requests_since w2 w3.
Proof.
  intros H12 H23. apply requests_since_eq.
  rewrite (grows_requests _ _ H23), (grows_requests _ _ H12). now rewrite app_assoc.
Qed.

Lemma grows_printed (msgs : list message) (w : world) : grows w (printed msgs w).
Proof. apply (grows_intro _ _ msgs []); simpl; [reflexivity | now rewrite app_nil_r]. Qed.

Lemma output_printed (msgs : list message) (w : world) :
  output_since w (printed msgs w) = msgs.
Proof. now apply output_since_eq. Qed.

Lemma requests_printed (msgs : list message) (w : world) :
  requests_since w (printed msgs w) = [].
Proof. apply requests_since_eq. simpl. now rewrite app_nil_r. Qed.


(** ** What the stages leave alone *)

Lemma same_system_refl (w : world) : same_system w w.
Proof. now repeat split. Qed.

Lemma same_system_trans (w1 w2 w3 : world) :
  same_system w1 w2 -> same_system w2 w3 -> same_system w1 w3.
Proof.
  intros (a1 & b1 & c1 & d1 & e1) (a2 & b2 & c2 & d2 & e2).
  repeat split; congruence.
Qed.

Lemma same_system_printed (msgs : list message) (w : world) : same_system w (printed msgs w).
Proof. now repeat split. Qed.

Lemma is_dir_same (w w' : world) (p : string) :
  same_system w w' -> is_dir w' p = is_dir w p.
Proof. intros (Hd & _). unfold is_dir. now rewrite Hd. Qed.

Lemma can_open_same (w w' : world) (p : string) :
  same_system w w' -> can_open w' p = can_open w p.
Proof.
  intros Hsame. pose proof Hsame as (Hd & _ & Hw & _).
  unfold can_open, parent_there. now rewrite Hw, !(is_dir_same _ _ _ Hsame).
Qed.

Lemma archives_can_open_same (args : arguments) (dt : datetime) (w w' : world) :
  same_system w w' -> archives_can_open args dt w' = archives_can_open args dt w.
Proof. intros Hsame. unfold archives_can_open. now rewrite !(can_open_same _ _ _ Hsame). Qed.

Section Logs.
Variable http : nat -> string -> http_outcome.
Variable gunzip : string -> gunzip_result.

Lemma grows_downloaded url path w : grows w (downloaded http url path w).
Proof.
  now apply (grows_intro _ _ (download_output (next_answer http w url)
                                (open_error w path) url path) [url]).
Qed.

Lemma output_downloaded url path w :
  output_since w (downloaded http url path w)
  = download_output (next_answer http w url) (open_error w path) url path.
Proof. now apply output_since_eq. Qed.

Lemma requests_downloaded url path w :
  requests_since w (downloaded http url path w) = [url].
Proof. now apply requests_since_eq. Qed.

Lemma same_system_downloaded url path w : same_system w (downloaded http url path w).
Proof. now repeat split. Qed.

Lemma grows_inflated gz out w : grows w (inflated gunzip gz out w).
Proof.
  apply (grows_intro _ _ (inflate_output (inflate_case_of gunzip w gz out) gz out) []);
    simpl; [reflexivity | now rewrite app_nil_r].
Qed.

Lemma output_inflated gz out w :
  output_since w (inflated gunzip gz out w)
  = inflate_output (inflate_case_of gunzip w gz out) gz out.
Proof. now apply output_since_eq. Qed.

Lemma requests_inflated gz out w : requests_since w (inflated gunzip gz out w) = [].
Proof. apply requests_since_eq. simpl. now rewrite app_nil_r. Qed.

Lemma same_system_inflated gz out w : same_system w (inflated gunzip gz out w).
Proof. now repeat split. Qed.

(** the world of the observation stage is the world of the download,
    then that of one more step that makes no request *)
Lemma fetch_obs_world_steps args names gz final w :
  let wd := downloaded http (obs_url names) gz w in
  fetch_obs_world http gunzip args names gz final w = wd
  \/ (exists msgs, fetch_obs_world http gunzip args names gz final w = printed msgs wd)
  \/ fetch_obs_world http gunzip args names gz final w = inflated gunzip gz final wd.
Proof.
  intros wd. unfold fetch_obs_world. fold wd.
  destruct (download_returns http (obs_url names) gz w) as [[|] | e]; [| eauto | eauto].
  repeat match goal with |- context [if ?b then _ else _] => destruct b end; eauto.
Qed.

Lemma grows_fetch_obs args names gz final w :
  grows w (fetch_obs_world http gunzip args names gz final w).
Proof.
  eapply grows_trans; [apply (grows_downloaded (obs_url names) gz) |].
  destruct (fetch_obs_world_steps args names gz final w) as [-> | [[msgs ->] | ->]];
    [apply grows_refl | apply grows_printed | apply grows_inflated].
Qed.

Lemma requests_fetch_obs args names gz final w :
  requests_since w (fetch_obs_world http gunzip args names gz final w) = [obs_url names].
Proof.
  destruct (fetch_obs_world_steps args names gz final w) as [-> | [[msgs ->] | ->]].
  - apply requests_downloaded.
  - rewrite (requests_since_trans w (downloaded http (obs_url names) gz w))
      by (apply grows_downloaded || apply grows_printed).
    now rewrite requests_downloaded, requests_printed.
  - rewrite (requests_since_trans w (downloaded http (obs_url names) gz w))
      by (apply grows_downloaded || apply grows_inflated).
    now rewrite requests_downloaded, requests_inflated.
Qed.

Lemma same_system_fetch_obs args names gz final w :
  same_system w (fetch_obs_world http gunzip args names gz final w).
Proof.
  eapply same_system_trans; [apply (same_system_downloaded (obs_url names) gz) |].
  destruct (fetch_obs_world_steps args names gz final w) as [-> | [[msgs ->] | ->]];
    [apply same_system_refl | apply same_system_printed | apply same_system_inflated].
Qed.

Lemma grows_fetch_nav args dt w : grows w (fetch_nav_world http gunzip args dt w).
Proof.
  unfold fetch_nav_world.
  repeat match goal with
         | |- context [match ?r with Returned _ => _ | Raises _ => _ end] =>
             destruct r as [[|] | ?]
         end;
    repeat first [ apply grows_printed | apply grows_inflated | apply grows_downloaded
                 | eapply grows_trans; [| first [apply grows_printed | apply grows_inflated
                                                | apply grows_downloaded]] ].
Qed.

Lemma same_system_fetch_nav args dt w :
  same_system w (fetch_nav_world http gunzip args dt w).
Proof.
  unfold fetch_nav_world.
  repeat match goal with
         | |- context [match ?r with Returned _ => _ | Raises _ => _ end] =>
             destruct r as [[|] | ?]
         end; now repeat split.
Qed.

(** the navigation stage asks for the DLR file, and for the GDE file
    when the first download has returned [False] *)
Lemma requests_fetch_nav args dt w :
  requests_since w (fetch_nav_world http gunzip args dt w)
  = nav_url (year dt) (doy_str_of dt)
    :: match download_returns http (nav_url (year dt) (doy_str_of dt))
               (nav_dl_path_gz_for args dt "DLR") w with
       | Returned false => [nav_url_gde (year dt) (doy_str_of dt)]
       | _ => []
       end.
Proof.
  unfold fetch_nav_world.
  destruct (download_returns http (nav_url (year dt) (doy_str_of dt)) _ w) as [[|] | e].
  - apply requests_since_eq; simpl; rewrite ?app_nil_r, <- ?app_assoc; reflexivity.
  - match goal with
    | |- context [match ?r with Returned _ => _ | Raises _ => _ end] =>
        destruct r as [[|] | ?]
    end; apply requests_since_eq; simpl; rewrite ?app_nil_r, <- ?app_assoc; reflexivity.
  - apply requests_since_eq; simpl; rewrite ?app_nil_r, <- ?app_assoc; reflexivity.
Qed.

Lemma grows_summary args a b w : grows w (summary_world args a b w).
Proof. apply grows_printed. Qed.

Lemma grows_announced args dt w : grows w (announced args dt w).
Proof. apply grows_printed. Qed.

Lemma same_system_announced args dt w : same_system w (announced args dt w).
Proof. apply same_system_printed. Qed.

Lemma grows_obs_stage args dt w : grows w (obs_stage_world http gunzip args dt w).
Proof.
  unfold obs_stage_world.
  eapply grows_trans; [apply grows_announced | apply grows_fetch_obs].
Qed.

Lemma same_system_obs_stage args dt w :
  same_system w (obs_stage_world http gunzip args dt w).
Proof.
  unfold obs_stage_world.
  eapply same_system_trans; [apply same_system_announced | apply same_system_fetch_obs].
Qed.

Lemma grows_nav_stage args dt w : grows w (nav_stage_world http gunzip args dt w).
Proof.
  unfold nav_stage_world.
  eapply grows_trans; [apply grows_obs_stage | apply grows_fetch_nav].
Qed.

Lemma same_system_nav_stage args dt w :
  same_system w (nav_stage_world http gunzip args dt w).
Proof.
  unfold nav_stage_world.
  eapply same_system_trans; [apply same_system_obs_stage | apply same_system_fetch_nav].
Qed.

Lemma grows_run_from_date args dt w : grows w (run_from_date_world http gunzip args dt w).
Proof.
  unfold run_from_date_world.
  destruct (obs_stage_returns http args dt w); [| apply grows_obs_stage].
  destruct (nav_stage_returns http gunzip args dt w); [| apply grows_nav_stage].
  eapply grows_trans; [apply grows_nav_stage | apply grows_summary].
Qed.

Lemma same_system_run_from_date args dt w :
  same_system w (run_from_date_world http gunzip args dt w).
Proof.
  unfold run_from_date_world.
  destruct (obs_stage_returns http args dt w); [| apply same_system_obs_stage].
  destruct (nav_stage_returns http gunzip args dt w); [| apply same_system_nav_stage].
  eapply same_system_trans; [apply same_system_nav_stage | apply same_system_printed].
Qed.

Lemma grows_parsed args w : grows w (parsed_world args w).
Proof. apply grows_printed. Qed.

Lemma same_system_parsed args w : same_system w (parsed_world args w).
Proof. apply same_system_printed. Qed.

Lemma requests_parsed args w : requests (parsed_world args w) = requests w.
Proof. reflexivity. Qed.

Lemma files_parsed args w : files (parsed_world args w) = files w.
Proof. reflexivity. Qed.

Lemma grows_parse_and_run args w : grows w (parse_and_run_world http gunzip args w).
Proof.
  unfold parse_and_run_world.
  destruct (parsed_date _); [| apply grows_parsed].
  eapply grows_trans; [apply grows_parsed | apply grows_run_from_date].
Qed.

Lemma same_system_parse_and_run args w :
  same_system w (parse_and_run_world http gunzip args w).
Proof.
  unfold parse_and_run_world.
  destruct (parsed_date _); [| apply same_system_parsed].
  eapply same_system_trans; [apply same_system_parsed | apply same_system_run_from_date].
Qed.

(** the number of requests when the navigation stage starts *)
Lemma requests_obs_stage_length args dt w :
  length (requests (obs_stage_world http gunzip args dt w)) = S (length (requests w)).
Proof.
  rewrite (grows_requests _ _ (grows_obs_stage args dt w)).
  unfold obs_stage_world.
  rewrite (requests_since_trans w (announced args dt w))
    by (apply grows_announced || apply grows_fetch_obs).
  unfold announced at 1. rewrite requests_printed, requests_fetch_obs.
  rewrite length_app. simpl. lia.
Qed.

(** *** When the archives can be opened *)

Lemma obs_stage_returns_open args dt w :
  can_open w (obs_dl_path_gz args dt) = true ->
  obs_stage_returns http args dt w = Returned tt.
Proof.
  intros Hopen. unfold obs_stage_returns, fetch_obs_returns.
  rewrite download_returns_open; [reflexivity |].
  now rewrite (can_open_same _ _ _ (same_system_announced args dt w)).
Qed.

Lemma fetch_obs_world_open args names gz final w :
  can_open w gz = true ->
  fetch_obs_world http gunzip args names gz final w
  = let wd := downloaded http (obs_url names) gz w in
    if fails (next_answer http w (obs_url names)) then printed [MsgObsDownloadFailed] wd
    else if String.eqb (rinex_obs_version args) "3"
            && PyStr.endswith (obs_filename_gz names) ".crx.gz"
    then inflated gunzip gz final wd
    else if String.eqb (rinex_obs_version args) "2"
            && PyStr.endswith (obs_filename_gz names) ".Z"
    then printed [MsgDecompressManually gz] wd
    else printed [MsgNoAutomatedDecompression gz] wd.
Proof.
  intros Hopen. unfold fetch_obs_world. rewrite download_returns_open by exact Hopen.
  now destruct (fails (next_answer http w (obs_url names))).
Qed.

Lemma fetch_nav_world_open args dt w :
  can_open w (nav_dl_path_gz_for args dt "DLR") = true ->
  can_open w (nav_dl_path_gz_for args dt "GDE") = true ->
  fetch_nav_world http gunzip args dt w
  = let wd := downloaded http (nav_url (year dt) (doy_str_of dt))
                (nav_dl_path_gz_for args dt "DLR") w in
    if fails (next_answer http w (nav_url (year dt) (doy_str_of dt))) then
      let wf := printed [MsgNavDlrFailed] wd in
      let wg := downloaded http (nav_url_gde (year dt) (doy_str_of dt))
                  (nav_dl_path_gz_for args dt "GDE") wf in
      if fails (next_answer http wf (nav_url_gde (year dt) (doy_str_of dt))) then
        printed [MsgNavGdeFailed (year dt) (doy_str_of dt)] wg
      else inflated gunzip (nav_dl_path_gz_for args dt "GDE")
             (nav_dl_path_final_for args dt "GDE") wg
    else inflated gunzip (nav_dl_path_gz_for args dt "DLR")
           (nav_dl_path_final_for args dt "DLR") wd.
Proof.
  intros Hdlr Hgde. unfold fetch_nav_world.
  rewrite download_returns_open by exact Hdlr.
  destruct (fails (next_answer http w (nav_url (year dt) (doy_str_of dt)))); cbn [negb];
    [| reflexivity].
  rewrite download_returns_open.
  - now destruct (fails _).
  - erewrite can_open_same; [exact Hgde |].
    eapply same_system_trans; [apply same_system_downloaded | apply same_system_printed].
Qed.

Lemma fetch_nav_returns_open args dt w :
  can_open w (nav_dl_path_gz_for args dt "DLR") = true ->
  can_open w (nav_dl_path_gz_for args dt "GDE") = true ->
  fetch_nav_returns http args dt w = Returned (nav_dl_path_final http args dt w).
Proof.
  intros Hdlr Hgde. unfold fetch_nav_returns, nav_dl_path_final.
  rewrite download_returns_open by exact Hdlr.
  destruct (fails (next_answer http w (nav_url (year dt) (doy_str_of dt)))); cbn [negb];
    [| reflexivity].
  rewrite download_returns_open; [reflexivity |].
  erewrite can_open_same; [exact Hgde |].
  eapply same_system_trans; [apply same_system_downloaded | apply same_system_printed].
Qed.

Lemma archives_can_open_split args dt w :
  archives_can_open args dt w = true ->
  can_open w (obs_dl_path_gz args dt) = true
  /\ can_open w (nav_dl_path_gz_for args dt "DLR") = true
  /\ can_open w (nav_dl_path_gz_for args dt "GDE") = true.
Proof.
  unfold archives_can_open. intros H.
  apply andb_true_iff in H as [H Hgde]. apply andb_true_iff in H as [Hobs Hdlr].
  auto.
Qed.

Lemma nav_stage_returns_open args dt w :
  archives_can_open args dt w = true ->
  nav_stage_returns http gunzip args dt w
  = Returned (nav_dl_path_final http args dt (obs_stage_world http gunzip args dt w)).
Proof.
  intros Hopen. unfold nav_stage_returns.
  rewrite <- (archives_can_open_same args dt _ _ (same_system_obs_stage args dt w)) in Hopen.
  apply archives_can_open_split in Hopen as (_ & Hdlr & Hgde).
  now apply fetch_nav_returns_open.
Qed.

(** a run whose archives can be opened goes through the three stages *)
Lemma run_from_date_world_open args dt w :
  archives_can_open args dt w = true ->
  run_from_date_world http gunzip args dt w
  = summary_world args (obs_dl_path_final args dt)
      (nav_dl_path_final http args dt (obs_stage_world http gunzip args dt w))
      (nav_stage_world http gunzip args dt w).
Proof.
  intros Hopen. unfold run_from_date_world.
  rewrite obs_stage_returns_open by now apply archives_can_open_split in Hopen.
  now rewrite nav_stage_returns_open.
Qed.

Lemma run_from_date_returns_open args dt w :
  archives_can_open args dt w = true ->
  run_from_date_returns http gunzip args dt w = Returned tt.
Proof.
  intros Hopen. unfold run_from_date_returns.
  rewrite obs_stage_returns_open by now apply archives_can_open_split in Hopen.
  now rewrite nav_stage_returns_open.
Qed.

Lemma obs_stage_world_open args dt w :
  can_open w (obs_dl_path_gz args dt) = true ->
  obs_stage_world http gunzip args dt w
  = let wa := announced args dt w in
    let wd := downloaded http (obs_url (names_of args dt)) (obs_dl_path_gz args dt) wa in
    if fails (next_answer http wa (obs_url (names_of args dt)))
    then printed [MsgObsDownloadFailed] wd
    else if String.eqb (rinex_obs_version args) "3"
            && PyStr.endswith (obs_filename_gz (names_of args dt)) ".crx.gz"
    then inflated gunzip (obs_dl_path_gz args dt) (obs_dl_path_final args dt) wd
    else if String.eqb (rinex_obs_version args) "2"
            && PyStr.endswith (obs_filename_gz (names_of args dt)) ".Z"
    then printed [MsgDecompressManually (obs_dl_path_gz args dt)] wd
    else printed [MsgNoAutomatedDecompression (obs_dl_path_gz args dt)] wd.
Proof.
  intros Hopen. unfold obs_stage_world. apply fetch_obs_world_open.
  now rewrite (can_open_same _ _ _ (same_system_announced args dt w)).
Qed.

Lemma nav_stage_world_open args dt w :
  archives_can_open args dt w = true ->
  nav_stage_world http gunzip args dt w
  = let wo := obs_stage_world http gunzip args dt w in
    let wd := downloaded http (nav_url (year dt) (doy_str_of dt))
                (nav_dl_path_gz_for args dt "DLR") wo in
    if fails (next_answer http wo (nav_url (year dt) (doy_str_of dt))) then
      let wf := printed [MsgNavDlrFailed] wd in
      let wg := downloaded http (nav_url_gde (year dt) (doy_str_of dt))
                  (nav_dl_path_gz_for args dt "GDE") wf in
      if fails (next_answer http wf (nav_url_gde (year dt) (doy_str_of dt))) then
        printed [MsgNavGdeFailed (year dt) (doy_str_of dt)] wg
      else inflated gunzip (nav_dl_path_gz_for args dt "GDE")
             (nav_dl_path_final_for args dt "GDE") wg
    else inflated gunzip (nav_dl_path_gz_for args dt "DLR")
           (nav_dl_path_final_for args dt "DLR") wd.
Proof.
  intros Hopen. unfold nav_stage_world.
  rewrite <- (archives_can_open_same args dt _ _ (same_system_obs_stage args dt w)) in Hopen.
  apply archives_can_open_split in Hopen as (_ & Hdlr & Hgde).
  now apply fetch_nav_world_open.
Qed.

(** the requests of a whole run that has a date *)
Lemma requests_run_from_date args dt w :
  archives_can_open args dt w = true ->
  requests_since w (run_from_date_world http gunzip args dt w)
  = obs_url (names_of args dt)
    :: nav_url (year dt) (doy_str_of dt)
    :: (if fails (http (S (length (requests w))) (nav_url (year dt) (doy_str_of dt)))
        then [nav_url_gde (year dt) (doy_str_of dt)] else []).
Proof.
  intros Hopen. rewrite run_from_date_world_open by exact Hopen.
  rewrite (requests_since_trans w (nav_stage_world http gunzip args dt w))
    by (apply grows_nav_stage || apply grows_summary).
  unfold summary_world at 1. rewrite requests_printed, app_nil_r.
  unfold nav_stage_world.
  rewrite (requests_since_trans w (obs_stage_world http gunzip args dt w))
    by (apply grows_obs_stage || apply grows_fetch_nav).
  rewrite requests_fetch_nav.
  rewrite <- (archives_can_open_same args dt _ _ (same_system_obs_stage args dt w)) in Hopen.
  apply archives_can_open_split in Hopen as (_ & Hdlr & _).
  rewrite download_returns_open by exact Hdlr.
  unfold obs_stage_world at 1.
  rewrite (requests_since_trans w (announced args dt w))
    by (apply grows_announced || apply grows_fetch_obs).
  unfold announced at 1. rewrite requests_printed, requests_fetch_obs.
  unfold next_answer. rewrite requests_obs_stage_length.
  now destruct (fails _).
Qed.
End Logs.

(** ** Paths *)

Lemma substring_all (b : string) : substring 0 (String.length b) b = b.
Proof. induction b as [|c b IH]; simpl; [reflexivity | now rewrite IH]. Qed.

Lemma substring_append_skip (a b : string) :
  substring (String.length a) (String.length b) (a +:+ b) = b.
Proof.
  induction a as [|c a IH]; [apply substring_all |].
  rewrite append_cons. simpl. exact IH.
Qed.

Lemma endswith_append (a b : string) : PyStr.endswith (a +:+ b) b = true.
Proof.
  unfold PyStr.endswith. rewrite length_append.
  replace (String.length a + String.length b - String.length b)%nat
    with (String.length a) by lia.
  rewrite substring_append_skip, String.eqb_refl.
  apply andb_true_iff. split; [apply Nat.leb_le; lia | reflexivity].
Qed.

Lemma last_char_append (a b : string) : b <> EmptyString -> last_char (a +:+ b) = last_char b.
Proof.
  intros Hb. induction a as [|c a IH]; [reflexivity |].
  rewrite append_cons. simpl. rewrite IH.
  destruct (a +:+ b) eqn:Hab; [| reflexivity].
  destruct a; [now rewrite append_nil_l in Hab | discriminate Hab].
Qed.

Lemma last_char_join (d b : string) : b <> EmptyString -> last_char (OsPath.join d b) = last_char b.
Proof.
  intros Hb. unfold OsPath.join.
  destruct (PyStr.startswith b "/"); [reflexivity |].
  destruct (String.eqb d EmptyString || PyStr.endswith d "/").
  - now apply last_char_append.
  - rewrite last_char_append; [now apply last_char_append |].
    destruct b; [contradiction | discriminate].
Qed.

Lemma append_not_nil_r (a b : string) : b <> EmptyString -> a +:+ b <> EmptyString.
Proof. intros Hb. destruct a; [exact Hb | discriminate]. Qed.

Lemma obs_filename_gz_v2 (year : Z) (doy_str yy station : string) :
  obs_filename_gz (build_obs year doy_str yy station "2")
  = obs_filename_stem_2 doy_str yy station +:+ ".Z".
Proof. reflexivity. Qed.

Lemma last_char_obs_gz_v2 args dt :
  rinex_obs_version args = "2" ->
  last_char (obs_dl_path_gz args dt) = Some "Z"%char.
Proof.
  intros Hv. unfold obs_dl_path_gz, names_of. rewrite Hv, obs_filename_gz_v2.
  rewrite last_char_join by (apply append_not_nil_r; discriminate).
  now rewrite last_char_append by discriminate.
Qed.

Lemma last_char_nav_gz args dt agency :
  last_char (nav_dl_path_gz_for args dt agency) = Some "z"%char.
Proof.
  unfold nav_dl_path_gz_for, nav_filename_rnx_gz_for.
  rewrite last_char_join by (apply append_not_nil_r; discriminate).
  now rewrite last_char_append by discriminate.
Qed.

Lemma obs_gz_not_nav_gz args dt agency :
  rinex_obs_version args = "2" ->
  obs_dl_path_gz args dt <> nav_dl_path_gz_for args dt agency.
Proof.
  intros Hv Heq. apply (f_equal last_char) in Heq.
  rewrite (last_char_obs_gz_v2 _ _ Hv), last_char_nav_gz in Heq. discriminate Heq.
Qed.

(** ** The output directory *)

Lemma made_dirs_refl (w : world) : made_dirs w w.
Proof. now repeat split. Qed.

Lemma made_dirs_trans (w1 w2 w3 : world) :
  made_dirs w1 w2 -> made_dirs w2 w3 -> made_dirs w1 w3.
Proof.
  intros (a1 & b1 & c1 & d1 & e1 & f1 & g1 & h1) (a2 & b2 & c2 & d2 & e2 & f2 & g2 & h2).
  repeat split; try congruence. now transitivity (dirs w2).
Qed.

Lemma os_mkdir_made (name : string) (w : world) : made_dirs w (snd (os_mkdir name w)).
Proof.
  unfold os_mkdir. destruct (mkdir_error w name); cbn [snd]; [apply made_dirs_refl |].
  repeat split. cbn. apply union_subseteq_r.
Qed.

Lemma ignoring_file_exists_world (c : Run unit) (w : world) :
  snd (ignoring_file_exists c w) = snd (c w).
Proof. unfold ignoring_file_exists. now destruct (c w) as [[[] | []] w']. Qed.

Lemma makedirs_go_made (fuel : nat) (name : string) (w : world) :
  made_dirs w (snd (makedirs_go fuel name w)).
Proof.
  revert name w. induction fuel as [|fuel IH]; intros name w; cbn [makedirs_go];
    destruct (OsPath.split name) as [head0 tail0];
    destruct (if String.eqb tail0 EmptyString then OsPath.split head0 else (head0, tail0))
      as [head tail];
    rewrite run_bind_lift; unfold os_path_exists; cbn [fst snd];
    destruct (negb (String.eqb head EmptyString) && negb (String.eqb tail EmptyString)
              && negb (path_exists w head));
    try apply os_mkdir_made.
  rewrite run_bind_run.
  pose proof (IH head w) as Hhead. rewrite <- ignoring_file_exists_world in Hhead.
  destruct (ignoring_file_exists (makedirs_go fuel head) w) as [[[] | e] w1];
    cbn [fst snd] in *; [| exact Hhead].
  destruct (String.eqb tail "."); [exact Hhead |].
  eapply made_dirs_trans; [exact Hhead | apply os_mkdir_made].
Qed.

Section Prepare.
Variable args : arguments.

(** the three ways the first lines of [main] can go *)
Lemma prepare_cases (w0 : world) :
  (path_exists w0 (output_dir args) = true /\ prepare args w0 = (Returned tt, w0))
  \/ (path_exists w0 (output_dir args) = false
      /\ exists wm, made_dirs w0 wm
         /\ ((exists e, prepare args w0 = (Raises e, wm))
             \/ prepare args w0
                = (Returned tt, printed [MsgCreatedOutputDir (output_dir args)] wm))).
Proof.
  unfold prepare. rewrite run_bind_lift. unfold os_path_exists. cbn [fst snd].
  destruct (path_exists w0 (output_dir args)); [now left | right].
  split; [reflexivity |]. cbn [negb when].
  exists (snd (os_makedirs (output_dir args) w0)).
  split; [apply makedirs_go_made |].
  rewrite run_bind_run.
  destruct (os_makedirs (output_dir args) w0) as [[[] | e] wm]; cbn [fst snd].
  - right. now rewrite lift_run, print_run.
  - left. now exists e.
Qed.

Lemma grows_made_dirs (w w' : world) : made_dirs w w' -> grows w w'.
Proof.
  intros (_ & _ & _ & _ & _ & Hout & Hreq & _).
  apply (grows_intro _ _ [] []); now rewrite app_nil_r.
Qed.

(** whatever the first lines do, they print at most the notice of the
    directory, make no request and touch no file *)
Lemma prepare_effects (w0 w : world) (r : outcome unit) :
  prepare args w0 = (r, w) ->
  grows w0 w /\ files w = files w0 /\ requests w = requests w0
  /\ (output_since w0 w = []
      \/ r = Returned tt /\ path_exists w0 (output_dir args) = false
         /\ output_since w0 w = [MsgCreatedOutputDir (output_dir args)]).
Proof.
  intros Hprep.
  destruct (prepare_cases w0) as [[_ H] | (Hnew & wm & Hmade & [[e H] | H])];
    rewrite H in Hprep; injection Hprep as <- <-.
  - split; [apply grows_refl |]. repeat split. left.
    apply output_since_eq. now rewrite app_nil_r.
  - pose proof Hmade as (Hf & _ & _ & _ & _ & Hout & Hreq & _).
    split; [now apply grows_made_dirs |]. repeat split; try assumption.
    left. apply output_since_eq. now rewrite app_nil_r.
  - pose proof Hmade as (Hf & _ & _ & _ & _ & Hout & Hreq & _).
    split; [| split; [exact Hf | split; [exact Hreq |]]].
    + eapply grows_trans; [apply (grows_made_dirs _ _ Hmade) | apply grows_printed].
    + right. repeat split; try assumption.
      apply output_since_eq. cbn [stdout printed]. now rewrite Hout.
Qed.
Lemma prepare_dirs (w0 w : world) (r : outcome unit) :
  prepare args w0 = (r, w) -> dirs w0 ⊆ dirs w.
Proof.
  intros Hprep.
  destruct (prepare_cases w0) as [[_ H] | (_ & wm & Hmade & [[e H] | H])].
  - assert (w = w0) as -> by congruence. reflexivity.
  - assert (w = wm) as -> by congruence. apply Hmade.
  - assert (w = printed [MsgCreatedOutputDir (output_dir args)] wm) as -> by congruence.
    apply Hmade.
Qed.
End Prepare.

(** ** What a run prints *)
Section Output.
Variable http : nat -> string -> http_outcome.
Variable gunzip : string -> gunzip_result.

(** the decompressor announces itself, and only it prints that line *)
Lemma decompressing_in_download o refused url path p :
  MsgDecompressing p ∈ download_output o refused url path -> False.
Proof.
  unfold download_output. intros H.
  apply elem_of_cons in H as [H | H]; [discriminate H |].
  destruct o as [e | status chunks broken].
  - apply list_elem_of_singleton in H. discriminate H.
  - destruct (is_error_status status).
    + apply list_elem_of_singleton in H. discriminate H.
    + destruct refused; [now apply elem_of_nil in H |].
      apply list_elem_of_singleton in H. destruct broken; discriminate H.
Qed.

Lemma decompressing_in_inflate c gz out p :
  MsgDecompressing p ∈ inflate_output c gz out -> p = gz.
Proof.
  unfold inflate_output. intros H.
  apply elem_of_cons in H as [H | H]; [now injection H |].
  destruct c as [| | [] | | |];
    repeat (apply elem_of_cons in H as [H | H]; [discriminate H |]);
    now apply elem_of_nil in H.
Qed.

Lemma output_run_from_date args dt w :
  archives_can_open args dt w = true ->
  output_since w (run_from_date_world http gunzip args dt w)
  = output_since w (announced args dt w)
    ++ output_since (announced args dt w) (obs_stage_world http gunzip args dt w)
    ++ output_since (obs_stage_world http gunzip args dt w)
         (nav_stage_world http gunzip args dt w)
    ++ summary_lines args
         (shown (nav_stage_world http gunzip args dt w)
            (obs_dl_path_final args dt) OBS_MANUALLY)
         (shown (nav_stage_world http gunzip args dt w)
            (nav_dl_path_final http args dt (obs_stage_world http gunzip args dt w))
            NAV_MANUALLY).
Proof.
  intros Hopen. rewrite run_from_date_world_open by exact Hopen.
  rewrite (output_since_trans w (nav_stage_world http gunzip args dt w))
    by (apply grows_nav_stage || apply grows_summary).
  unfold summary_world at 1. rewrite output_printed.
  rewrite (output_since_trans w (obs_stage_world http gunzip args dt w)
             (nav_stage_world http gunzip args dt w))
    by (apply grows_obs_stage || apply grows_fetch_nav).
  rewrite (output_since_trans w (announced args dt w)
             (obs_stage_world http gunzip args dt w))
    by (apply grows_announced || apply grows_fetch_obs).
  now rewrite <- !app_assoc.
Qed.

Lemma path_exists_printed msgs w p : path_exists (printed msgs w) p = path_exists w p.
Proof. reflexivity. Qed.

Lemma shown_cases w path otherwise :
  (shown w path otherwise = path /\ path_exists w path = true)
  \/ (shown w path otherwise = otherwise /\ path_exists w path = false).
Proof. unfold shown. destruct (path_exists w path); [left | right]; now split. Qed.

(** the parser leaves the world as it is when it finds a date *)
Lemma parsed_world_date args w dt :
  parsed_date (rover_scan w (rinex_rover_file args)) = Some dt ->
  parsed_world args w = w.
Proof.
  intros Hdt. unfold parsed_world.
  destruct (rover_scan w (rinex_rover_file args)) as [e | [d | l | | e]];
    try discriminate Hdt.
  apply printed_nil.
Qed.

(** a run whose parser has found a date *)
Lemma main_with_date args w0 w dt :
  prepare args w0 = (Returned tt, w) ->
  parsed_date (rover_scan w (rinex_rover_file args)) = Some dt ->
  main http gunzip args w0
  = (run_from_date_returns http gunzip args dt w, run_from_date_world http gunzip args dt w).
Proof.
  intros Hprep Hdt. rewrite (main_prepared _ _ _ _ _ Hprep), parse_and_run_eq.
  unfold parse_and_run_returns, parse_and_run_world.
  now rewrite Hdt, (parsed_world_date _ _ _ Hdt).
Qed.

Lemma main_without_date args w0 w :
  prepare args w0 = (Returned tt, w) ->
  parsed_date (rover_scan w (rinex_rover_file args)) = None ->
  main http gunzip args w0 = (Returned tt, parsed_world args w).
Proof.
  intros Hprep Hdt. rewrite (main_prepared _ _ _ _ _ Hprep), parse_and_run_eq.
  unfold parse_and_run_returns, parse_and_run_world. now rewrite Hdt.
Qed.

(** a run is the first lines, then the rest, or the first lines alone
    when they raise *)
Lemma main_cases args w0 :
  (exists w, prepare args w0 = (Returned tt, w)
             /\ main http gunzip args w0
                = (parse_and_run_returns http gunzip args w,
                   parse_and_run_world http gunzip args w))
  \/ (exists e w, prepare args w0 = (Raises e, w)
                  /\ main http gunzip args w0 = (Raises e, w)).
Proof.
  destruct (prepare args w0) as [[[] | e] w] eqn:Hprep.
  - left. exists w. split; [reflexivity |].
    now rewrite (main_prepared _ _ _ _ _ Hprep), parse_and_run_eq.
  - right. exists e, w. split; [reflexivity |].
    now apply main_not_prepared.
Qed.

Lemma grows_main args w0 : grows w0 (snd (main http gunzip args w0)).
Proof.
  destruct (main_cases args w0) as [(w & Hprep & ->) | (e & w & Hprep & ->)]; cbn [snd].
  - eapply grows_trans; [apply (prepare_effects _ _ _ _ Hprep) | apply grows_parse_and_run].
  - apply (prepare_effects _ _ _ _ Hprep).
Qed.

Lemma requests_main_with_date args w0 w dt :
  prepare args w0 = (Returned tt, w) ->
  parsed_date (rover_scan w (rinex_rover_file args)) = Some dt ->
  archives_can_open args dt w = true ->
  requests_since w0 (snd (main http gunzip args w0))
  = obs_url (names_of args dt)
    :: nav_url (year dt) (doy_str_of dt)
    :: (if fails (http (S (length (requests w0))) (nav_url (year dt) (doy_str_of dt)))
        then [nav_url_gde (year dt) (doy_str_of dt)] else []).
Proof.
  intros Hprep Hdt Hopen. rewrite (main_with_date _ _ _ _ Hprep Hdt). cbn [snd].
  destruct (prepare_effects _ _ _ _ Hprep) as (_ & _ & Hreq & _).
  transitivity (requests_since w (run_from_date_world http gunzip args dt w)).
  - unfold requests_since. now rewrite Hreq.
  - rewrite requests_run_from_date by exact Hopen. now rewrite Hreq.
Qed.

Lemma output_main_with_date args w0 w dt :
  prepare args w0 = (Returned tt, w) ->
  parsed_date (rover_scan w (rinex_rover_file args)) = Some dt ->
  output_since w0 (snd (main http gunzip args w0))
  = output_since w0 w
    ++ output_since w (run_from_date_world http gunzip args dt w).
Proof.
  intros Hprep Hdt. rewrite (main_with_date _ _ _ _ Hprep Hdt). cbn [snd].
  apply output_since_trans;
    [apply (prepare_effects _ _ _ _ Hprep) | apply grows_run_from_date].
Qed.

(** the navigation stage when both agencies fail *)
Lemma output_fetch_nav_both_fail args dt w :
  can_open w (nav_dl_path_gz_for args dt "DLR") = true ->
  can_open w (nav_dl_path_gz_for args dt "GDE") = true ->
  fails (http (length (requests w)) (nav_url (year dt) (doy_str_of dt))) = true ->
  fails (http (S (length (requests w))) (nav_url_gde (year dt) (doy_str_of dt))) = true ->
  MsgNavGdeFailed (year dt) (doy_str_of dt)
    ∈ output_since w (fetch_nav_world http gunzip args dt w).
Proof.
  intros Hdlr Hgde H1 H2. rewrite fetch_nav_world_open by assumption.
  cbv zeta. unfold next_answer. rewrite H1.
  cbn [requests downloaded printed]. rewrite length_app. cbn [length].
  replace (length (requests w) + 1)%nat with (S (length (requests w))) by lia.
  rewrite H2.
  erewrite output_since_eq.
  2: { cbn [stdout printed downloaded]. rewrite <- !app_assoc. reflexivity. }
  rewrite !elem_of_app. do 3 right. apply list_elem_of_singleton. reflexivity.
Qed.
End Output.
(** ** The parser on a file *)

Lemma scan_lines_no_marker (lines : list string) :
  Forall (fun line => PyStr.contains TIME_OF_FIRST_OBS line = false) lines ->
  scan_lines lines = NoMarker.
Proof.
  induction 1 as [|line rest Hline _ IH]; [reflexivity |].
  simpl. now rewrite Hline.
Qed.

Lemma scan_lines_skip (before rest : list string) :
  Forall (fun line => PyStr.contains TIME_OF_FIRST_OBS line = false) before ->
  scan_lines (before ++ rest) = scan_lines rest.
Proof.
  induction 1 as [|line before' Hline _ IH]; [reflexivity |].
  simpl. now rewrite Hline.
Qed.

Lemma scan_lines_unmatched (before after : list string) (line : string) :
  Forall (fun l => PyStr.contains TIME_OF_FIRST_OBS l = false) before ->
  PyStr.contains TIME_OF_FIRST_OBS line = true ->
  PyRe.search PyRe.TIME_OF_FIRST_OBS_RE line = None ->
  scan_lines (before ++ line :: after) = Unparsable line.
Proof.
  intros Hbefore Hmark Hre. rewrite (scan_lines_skip _ _ Hbefore).
  simpl. now rewrite Hmark, Hre.
Qed.

Lemma parser_result (path : string) (w : world) :
  fst (get_obs_date_from_rinex path w) = parsed_date (rover_scan w path).
Proof. now rewrite get_obs_date_from_rinex_run. Qed.

(** a date comes from a file that is there and can be read *)
Lemma parsed_date_file (path : string) (w : world) (dt : datetime) :
  parsed_date (rover_scan w path) = Some dt ->
  exists content,
    files w !! path = Some content /\ (path ∉ unreadable w)
    /\ decoded_scan w content = Found dt.
Proof.
  unfold rover_scan. destruct (is_dir w path); [discriminate |].
  destruct (files w !! path) as [content|]; [| discriminate].
  destruct (bool_decide (path ∈ unreadable w)) eqn:Hun; [discriminate |].
  apply bool_decide_eq_false in Hun.
  destruct (decoded_scan w content) eqn:Hscan; try discriminate.
  intros [= ->]. now exists content.
Qed.

(** the parser on a file that opens *)
Lemma rover_scan_opened (path content : string) (w : world) :
  fst (open_read path w) = inr content ->
  rover_scan w path = inr (decoded_scan w content).
Proof.
  unfold open_read, rover_scan. destruct (is_dir w path); [discriminate |].
  destruct (files w !! path) as [c|]; [| discriminate].
  destruct (bool_decide (path ∈ unreadable w)); [discriminate |].
  now intros [= ->].
Qed.

(** ** Properties of the workflow *)
Section Workflow.
Variable http : nat -> string -> http_outcome.
Variable gunzip : string -> gunzip_result.

(** C2. Take a run whose output directory is there or has been made,
    whose parser returns a date, and whose three archives can be opened
    for writing, so that every download returns.  When the fetch of the
    navigation file with the agency code DLR fails, the run makes exactly
    one more navigation request, to the GDE file of the MGEX layout
    [<mgex-root>/<year>/<doy>/BRDM00GDE_S_<year><doy>0000_01D_MN.rnx.gz];
    the requests of the whole run are the observation file, the DLR file
    and the GDE file and nothing else.  When that request fails too the
    failure is printed, and the run still returns and ends with the six
    lines of the summary. *)
Theorem C2_nav_fallback_once (args : arguments) (w0 w : world) (dt : datetime) :
  prepare args w0 = (Returned tt, w) ->
  fst (get_obs_date_from_rinex (rinex_rover_file args) w) = Some dt ->
  archives_can_open args dt w = true ->
  fails (http (S (length (requests w0))) (nav_url (year dt) (doy_str_of dt))) = true ->
  requests_since w0 (snd (main http gunzip args w0))
  = [ obs_url (names_of args dt);
      nav_url (year dt) (doy_str_of dt);
      nav_url_gde (year dt) (doy_str_of dt) ]
  /\ nav_url_gde (year dt) (doy_str_of dt)
     = MGEX_NAV_BASE_URL +:+ "/" +:+ PyStr.str_of_Z (year dt) +:+ "/" +:+ doy_str_of dt
         +:+ "/" +:+ "BRDM00" +:+ "GDE" +:+ "_S_" +:+ PyStr.str_of_Z (year dt)
         +:+ doy_str_of dt +:+ "0000_01D_MN" +:+ ".rnx.gz"
  /\ (fails (http (S (S (length (requests w0)))) (nav_url_gde (year dt) (doy_str_of dt)))
      = true ->
      MsgNavGdeFailed (year dt) (doy_str_of dt)
        ∈ output_since w0 (snd (main http gunzip args w0))
      /\ fst (main http gunzip args w0) = Returned tt
      /\ exists earlier base_obs nav_file,
          output_since w0 (snd (main http gunzip args w0))
          = earlier ++ summary_lines args base_obs nav_file).
Proof.
  intros Hprep Hdt Hopen Hdlr. rewrite parser_result in Hdt.
  destruct (prepare_effects _ _ _ _ Hprep) as (_ & _ & Hreq & _).
  split; [| split].
  - rewrite (requests_main_with_date _ _ _ _ _ _ Hprep Hdt Hopen). now rewrite Hdlr.
  - unfold nav_url_gde, nav_url_for, nav_filename_rnx_gz_for, nav_filename_stem_for.
    now rewrite !append_assoc.
  - intros Hgde.
    rewrite (output_main_with_date _ _ _ _ _ _ Hprep Hdt),
      (output_run_from_date _ _ _ _ _ Hopen).
    rewrite (main_with_date _ _ _ _ _ _ Hprep Hdt). cbn [fst].
    split; [| split].
    + rewrite !elem_of_app. right. right. right. left.
      unfold nav_stage_world.
      pose proof Hopen as Hopen'.
      rewrite <- (archives_can_open_same args dt _ _
                    (same_system_obs_stage http gunzip args dt w)) in Hopen'.
      apply archives_can_open_split in Hopen' as (_ & Hodlr & Hogde).
      apply output_fetch_nav_both_fail; try assumption;
        now rewrite requests_obs_stage_length, Hreq.
    + now apply run_from_date_returns_open.
    + eexists _, _, _. rewrite !app_assoc. reflexivity.
Qed.

(** C6. Take a run whose output directory is there or has been made.
    When the parser fails, whatever the reason (the rover file is
    missing, it cannot be read, no line of its ASCII text has the marker,
    the first line with the marker does not match the pattern, or
    anything else that makes it return nothing), it returns no timestamp
    and the run returns there: no request is made, no file is touched,
    and the only lines printed are the notice of the created directory,
    if any, and the diagnostic of the parser. *)
Theorem C6_parser_failure_aborts (args : arguments) (w0 w : world) :
  prepare args w0 = (Returned tt, w) ->
  files w !! rinex_rover_file args = None
  \/ rinex_rover_file args ∈ unreadable w
  \/ (exists content,
        files w !! rinex_rover_file args = Some content
        /\ PyStr.is_ascii content = true
        /\ Forall (fun line => PyStr.contains TIME_OF_FIRST_OBS line = false)
             (text_lines content))
  \/ (exists content before line after,
        files w !! rinex_rover_file args = Some content
        /\ PyStr.is_ascii content = true
        /\ text_lines content = before ++ line :: after
        /\ Forall (fun l => PyStr.contains TIME_OF_FIRST_OBS l = false) before
        /\ PyStr.contains TIME_OF_FIRST_OBS line = true
        /\ PyRe.search PyRe.TIME_OF_FIRST_OBS_RE line = None)
  \/ fst (get_obs_date_from_rinex (rinex_rover_file args) w) = None ->
  fst (get_obs_date_from_rinex (rinex_rover_file args) w) = None
  /\ fst (main http gunzip args w0) = Returned tt
  /\ requests (snd (main http gunzip args w0)) = requests w0
  /\ files (snd (main http gunzip args w0)) = files w0
  /\ (output_since w0 w = []
      \/ output_since w0 w = [MsgCreatedOutputDir (output_dir args)])
  /\ exists diagnostic,
      output_since w (snd (get_obs_date_from_rinex (rinex_rover_file args) w))
      = [diagnostic]
      /\ output_since w0 (snd (main http gunzip args w0))
         = output_since w0 w ++ [diagnostic].
Proof.
  intros Hprep Hcause.
  assert (Hnone : parsed_date (rover_scan w (rinex_rover_file args)) = None).
  { destruct Hcause as [Hmiss | [Hun | [Hnomark | [Hunmatched | Hret]]]].
    - unfold rover_scan. destruct (is_dir w _); [reflexivity |]. now rewrite Hmiss.
    - unfold rover_scan. destruct (is_dir w _); [reflexivity |].
      destruct (files w !! rinex_rover_file args); [| reflexivity].
      now rewrite bool_decide_eq_true_2.
    - destruct Hnomark as (content & Hfile & Hascii & Hall). unfold rover_scan.
      destruct (is_dir w _); [reflexivity |]. rewrite Hfile.
      destruct (bool_decide _); [reflexivity |].
      unfold decoded_scan. now rewrite Hascii, (scan_lines_no_marker _ Hall).
    - destruct Hunmatched
        as (content & before & line & after & Hfile & Hascii & Hlines & Hb & Hm & Hre).
      unfold rover_scan. destruct (is_dir w _); [reflexivity |]. rewrite Hfile.
      destruct (bool_decide _); [reflexivity |].
      unfold decoded_scan.
      now rewrite Hascii, Hlines, (scan_lines_unmatched _ _ _ Hb Hm Hre).
    - now rewrite <- parser_result. }
  destruct (prepare_effects _ _ _ _ Hprep) as (Hgrows & Hfiles & Hreq & Hout).
  rewrite parser_result, (main_without_date _ _ _ _ _ Hprep Hnone). cbn [fst snd].
  split; [exact Hnone | split; [reflexivity | split; [exact Hreq | split; [exact Hfiles |]]]].
  split; [destruct Hout as [Hout | (_ & _ & Hout)]; auto |].
  rewrite get_obs_date_from_rinex_run. cbn [snd]. fold (parsed_world args w).
  assert (Hdiag : exists diagnostic,
             parser_output (rover_scan w (rinex_rover_file args)) (rinex_rover_file args)
             = [diagnostic]).
  { destruct (rover_scan w (rinex_rover_file args)) as [e | [d | l | | e]];
      try discriminate Hnone; try destruct e; cbn; eauto. }
  destruct Hdiag as [diagnostic Hdiag]. exists diagnostic.
  unfold parsed_world. rewrite Hdiag. split; [apply output_printed |].
  rewrite (output_since_trans w0 w) by (exact Hgrows || apply grows_printed).
  now rewrite output_printed.
Qed.

(** C7. Take a run whose output directory is there or has been made,
    whose parser returns a date, and whose three archives can be opened
    for writing.  The run returns and ends with the summary, whatever the
    network answers and whatever the codec does.  The line of the base
    observation file shows the path only if that path exists when the run
    ends, and the manual instruction otherwise; the same holds for the
    navigation file; the line of the rover file shows the path given on
    the command line, which is the file the parser has read. *)
Theorem C7_summary_always (args : arguments) (w0 w : world) (dt : datetime) :
  prepare args w0 = (Returned tt, w) ->
  fst (get_obs_date_from_rinex (rinex_rover_file args) w) = Some dt ->
  archives_can_open args dt w = true ->
  fst (main http gunzip args w0) = Returned tt
  /\ exists earlier base_obs nav_file nav_final,
    output_since w0 (snd (main http gunzip args w0))
    = earlier
      ++ [ MsgFinished; MsgCheckDirectory (output_dir args); MsgRequiredFiles;
           MsgRoverObs (rinex_rover_file args); MsgBaseObs base_obs; MsgNavFile nav_file ]
    /\ (base_obs = obs_dl_path_final args dt
        /\ path_exists (snd (main http gunzip args w0)) (obs_dl_path_final args dt) = true
        \/ base_obs = OBS_MANUALLY
           /\ path_exists (snd (main http gunzip args w0)) (obs_dl_path_final args dt) = false)
    /\ (nav_final = nav_dl_path_final_for args dt "DLR"
        \/ nav_final = nav_dl_path_final_for args dt "GDE")
    /\ (nav_file = nav_final
        /\ path_exists (snd (main http gunzip args w0)) nav_final = true
        \/ nav_file = NAV_MANUALLY
           /\ path_exists (snd (main http gunzip args w0)) nav_final = false)
    /\ is_Some (files w !! rinex_rover_file args).
Proof.
  intros Hprep Hdt Hopen. rewrite parser_result in Hdt.
  rewrite (output_main_with_date _ _ _ _ _ _ Hprep Hdt),
    (output_run_from_date _ _ _ _ _ Hopen).
  rewrite (main_with_date _ _ _ _ _ _ Hprep Hdt). cbn [fst snd].
  split; [now apply run_from_date_returns_open |].
  set (wn := nav_stage_world http gunzip args dt w).
  exists (output_since w0 w ++ output_since w (announced args dt w)
          ++ output_since (announced args dt w) (obs_stage_world http gunzip args dt w)
          ++ output_since (obs_stage_world http gunzip args dt w) wn),
    (shown wn (obs_dl_path_final args dt) OBS_MANUALLY),
    (shown wn (nav_dl_path_final http args dt (obs_stage_world http gunzip args dt w))
       NAV_MANUALLY),
    (nav_dl_path_final http args dt (obs_stage_world http gunzip args dt w)).
  assert (Hexists : forall p, path_exists (run_from_date_world http gunzip args dt w) p
                              = path_exists wn p).
  { intros p. now rewrite (run_from_date_world_open _ _ _ _ _ Hopen). }
  rewrite !Hexists.
  split; [| split; [| split; [| split]]].
  - unfold summary_lines. now rewrite <- !app_assoc.
  - apply shown_cases.
  - unfold nav_dl_path_final. destruct (fails _); [now right | now left].
  - apply shown_cases.
  - destruct (parsed_date_file _ _ _ Hdt) as (content & Hfile & _). now rewrite Hfile.
Qed.
End Workflow.
Section Version2.
Variable http : nat -> string -> http_outcome.
Variable gunzip : string -> gunzip_result.

Lemma decompressing_in_fetch_nav args dt w p :
  MsgDecompressing p ∈ output_since w (fetch_nav_world http gunzip args dt w) ->
  p = nav_dl_path_gz_for args dt "DLR" \/ p = nav_dl_path_gz_for args dt "GDE".
Proof.
  unfold fetch_nav_world.
  destruct (download_returns http (nav_url (year dt) (doy_str_of dt)) _ w) as [[|] | e].
  - erewrite output_since_eq
      by (cbn [stdout printed downloaded inflated]; rewrite <- ?app_assoc; reflexivity).
    rewrite !elem_of_app. intros [H | H].
    + now apply decompressing_in_download in H.
    + left. now apply decompressing_in_inflate in H.
  - match goal with
    | |- context [match ?r with Returned _ => _ | Raises _ => _ end] =>
        destruct r as [[|] | ?]
    end;
      (erewrite output_since_eq
         by (cbn [stdout printed downloaded inflated]; rewrite <- ?app_assoc; reflexivity));
      rewrite !elem_of_app.
    + intros [H | [H | [H | H]]].
      * now apply decompressing_in_download in H.
      * apply list_elem_of_singleton in H. discriminate H.
      * now apply decompressing_in_download in H.
      * right. now apply decompressing_in_inflate in H.
    + intros [H | [H | [H | H]]].
      * now apply decompressing_in_download in H.
      * apply list_elem_of_singleton in H. discriminate H.
      * now apply decompressing_in_download in H.
      * apply list_elem_of_singleton in H. discriminate H.
    + intros [H | [H | H]].
      * now apply decompressing_in_download in H.
      * apply list_elem_of_singleton in H. discriminate H.
      * now apply decompressing_in_download in H.
  - rewrite output_downloaded. intros H. now apply decompressing_in_download in H.
Qed.

(** what a run with a date prints, stage by stage: the stages that
    follow a stage that raises print nothing *)
Lemma output_run_from_date_stages args dt w :
  exists rest,
    output_since w (run_from_date_world http gunzip args dt w)
    = output_since w (announced args dt w)
      ++ output_since (announced args dt w) (obs_stage_world http gunzip args dt w)
      ++ rest
    /\ (rest = []
        \/ rest = output_since (obs_stage_world http gunzip args dt w)
                    (nav_stage_world http gunzip args dt w)
        \/ exists base_obs nav_file,
            rest = output_since (obs_stage_world http gunzip args dt w)
                     (nav_stage_world http gunzip args dt w)
                   ++ summary_lines args base_obs nav_file).
Proof.
  unfold run_from_date_world.
  destruct (obs_stage_returns http args dt w).
  - destruct (nav_stage_returns http gunzip args dt w) as [nav_final | e].
    + eexists. split; [| right; right; eexists _, _; reflexivity].
      rewrite (output_since_trans w (nav_stage_world http gunzip args dt w))
        by (apply grows_nav_stage || apply grows_summary).
      unfold summary_world at 1. rewrite output_printed.
      rewrite (output_since_trans w (obs_stage_world http gunzip args dt w)
                 (nav_stage_world http gunzip args dt w))
        by (apply grows_obs_stage || apply grows_fetch_nav).
      rewrite (output_since_trans w (announced args dt w)
                 (obs_stage_world http gunzip args dt w))
        by (apply grows_announced || apply grows_fetch_obs).
      now rewrite <- !app_assoc.
    + eexists. split; [| right; left; reflexivity].
      rewrite (output_since_trans w (obs_stage_world http gunzip args dt w)
                 (nav_stage_world http gunzip args dt w))
        by (apply grows_obs_stage || apply grows_fetch_nav).
      rewrite (output_since_trans w (announced args dt w)
                 (obs_stage_world http gunzip args dt w))
        by (apply grows_announced || apply grows_fetch_obs).
      now rewrite <- !app_assoc.
  - exists []. split; [| now left]. rewrite app_nil_r.
    apply output_since_trans; [apply grows_announced | apply grows_fetch_obs].
Qed.

Lemma version_2_tests args :
  rinex_obs_version args = "2" ->
  String.eqb (rinex_obs_version args) "3" = false
  /\ String.eqb (rinex_obs_version args) "2" = true.
Proof. intros ->. now split. Qed.

(** the observation stage of version "2" *)
Lemma output_obs_stage_v2 args dt w :
  rinex_obs_version args = "2" ->
  output_since (announced args dt w) (obs_stage_world http gunzip args dt w)
  = download_output (next_answer http w (obs_url (names_of args dt)))
      (open_error w (obs_dl_path_gz args dt))
      (obs_url (names_of args dt)) (obs_dl_path_gz args dt)
    ++ match download_returns http (obs_url (names_of args dt))
               (obs_dl_path_gz args dt) w with
       | Raises _ => []
       | Returned false => [MsgObsDownloadFailed]
       | Returned true => [MsgDecompressManually (obs_dl_path_gz args dt)]
       end.
Proof.
  intros Hv. destruct (version_2_tests _ Hv) as [H3 H2].
  unfold obs_stage_world, fetch_obs_world. rewrite H3, H2. cbn [andb].
  assert (Hz : PyStr.endswith (obs_filename_gz (names_of args dt)) ".Z" = true).
  { unfold names_of. rewrite Hv, obs_filename_gz_v2. apply endswith_append. }
  rewrite Hz.
  assert (Hret : forall url path, download_returns http url path (announced args dt w)
                                  = download_returns http url path w) by reflexivity.
  assert (Hout : forall url path,
             output_since (announced args dt w)
               (downloaded http url path (announced args dt w))
             = download_output (next_answer http w url) (open_error w path) url path).
  { intros url path. now rewrite output_downloaded. }
  rewrite Hret.
  destruct (download_returns http (obs_url (names_of args dt)) (obs_dl_path_gz args dt) w)
    as [[|] | e].
  - rewrite (output_since_trans _ (downloaded http (obs_url (names_of args dt))
                                     (obs_dl_path_gz args dt) (announced args dt w)))
      by (apply grows_downloaded || apply grows_printed).
    now rewrite Hout, output_printed.
  - rewrite (output_since_trans _ (downloaded http (obs_url (names_of args dt))
                                     (obs_dl_path_gz args dt) (announced args dt w)))
      by (apply grows_downloaded || apply grows_printed).
    now rewrite Hout, output_printed.
  - now rewrite Hout, app_nil_r.
Qed.

Lemma output_announced_v2 args dt w :
  rinex_obs_version args = "2" ->
  output_since w (announced args dt w)
  = [ MsgRoverStart dt;
      MsgYearDoyStation (year dt) (doy_str_of dt) (station_id_lower_of args);
      MsgWarnManualDecompression
        (obs_filename_211_gz (doy_str_of dt) (yy_of dt) (station_id_lower_of args)) ].
Proof.
  intros Hv. destruct (version_2_tests _ Hv) as [H3 H2].
  unfold announced. rewrite output_printed, H3, H2. reflexivity.
Qed.

Lemma decompressing_in_prepared args w0 w r p :
  prepare args w0 = (r, w) ->
  MsgDecompressing p ∈ output_since w0 w -> False.
Proof.
  intros Hprep H.
  destruct (prepare_effects _ _ _ _ Hprep) as (_ & _ & _ & [Hout | (_ & _ & Hout)]);
    rewrite Hout in H.
  - now apply elem_of_nil in H.
  - apply list_elem_of_singleton in H. discriminate H.
Qed.

(** C8. Take a run for version "2" whose output directory is there or
    has been made and whose parser returns a date.  The decompressor is
    never run on the observation file, whether the download succeeds,
    fails or raises: every call of the decompressor in the run is on one
    of the two navigation archives, and the downloaded observation
    archive is none of them.  The run always prints the warning that the
    archive has to be decompressed by hand, before the download, and
    after a successful download, for which the archive must open for
    writing, it prints the request to decompress it manually. *)
Theorem C8_version_2_no_decompression (args : arguments) (w0 w : world) (dt : datetime) :
  rinex_obs_version args = "2" ->
  prepare args w0 = (Returned tt, w) ->
  fst (get_obs_date_from_rinex (rinex_rover_file args) w) = Some dt ->
  (MsgDecompressing (obs_dl_path_gz args dt)
     ∉ output_since w0 (snd (main http gunzip args w0)))
  /\ (forall p, MsgDecompressing p ∈ output_since w0 (snd (main http gunzip args w0)) ->
                p = nav_dl_path_gz_for args dt "DLR" \/ p = nav_dl_path_gz_for args dt "GDE")
  /\ MsgWarnManualDecompression
       (obs_filename_211_gz (doy_str_of dt) (yy_of dt) (station_id_lower_of args))
       ∈ output_since w0 (snd (main http gunzip args w0))
  /\ (can_open w (obs_dl_path_gz args dt) = true ->
      fails (http (length (requests w0)) (obs_url (names_of args dt))) = false ->
      MsgDecompressManually (obs_dl_path_gz args dt)
        ∈ output_since w0 (snd (main http gunzip args w0))).
Proof.
  intros Hv Hprep Hdt. rewrite parser_result in Hdt.
  rewrite (output_main_with_date _ _ _ _ _ _ Hprep Hdt).
  destruct (output_run_from_date_stages args dt w) as (rest & -> & Hrest).
  rewrite (output_announced_v2 _ _ _ Hv), (output_obs_stage_v2 _ _ _ Hv).
  assert (Hnav : forall p,
    MsgDecompressing p
      ∈ output_since w0 w
        ++ [ MsgRoverStart dt;
             MsgYearDoyStation (year dt) (doy_str_of dt) (station_id_lower_of args);
             MsgWarnManualDecompression
               (obs_filename_211_gz (doy_str_of dt) (yy_of dt) (station_id_lower_of args)) ]
        ++ (download_output (next_answer http w (obs_url (names_of args dt)))
              (open_error w (obs_dl_path_gz args dt))
              (obs_url (names_of args dt)) (obs_dl_path_gz args dt)
            ++ match download_returns http (obs_url (names_of args dt))
                       (obs_dl_path_gz args dt) w with
               | Raises _ => []
               | Returned false => [MsgObsDownloadFailed]
               | Returned true => [MsgDecompressManually (obs_dl_path_gz args dt)]
               end)
        ++ rest ->
    p = nav_dl_path_gz_for args dt "DLR" \/ p = nav_dl_path_gz_for args dt "GDE").
  { intros p. rewrite !elem_of_app. intros [H | [H | [[H | H] | H]]].
    - now apply (decompressing_in_prepared _ _ _ _ _ Hprep) in H.
    - repeat (apply elem_of_cons in H as [H | H]; [discriminate H |]).
      now apply elem_of_nil in H.
    - now apply decompressing_in_download in H.
    - destruct (download_returns http _ _ w) as [[|] | e];
        try (apply list_elem_of_singleton in H; discriminate H).
      now apply elem_of_nil in H.
    - destruct Hrest as [-> | [-> | (base_obs & nav_file & ->)]].
      + now apply elem_of_nil in H.
      + now apply decompressing_in_fetch_nav in H.
      + apply elem_of_app in H as [H | H];
          [now apply decompressing_in_fetch_nav in H |].
        unfold summary_lines in H.
        repeat (apply elem_of_cons in H as [H | H]; [discriminate H |]).
        now apply elem_of_nil in H. }
  split; [| split; [| split]].
  - intros H. apply Hnav in H as [H | H]; now apply (obs_gz_not_nav_gz _ _ _ Hv) in H.
  - exact Hnav.
  - rewrite !elem_of_app. right. left. do 2 apply list_elem_of_further.
    apply list_elem_of_here.
  - intros Hopen Hok. rewrite !elem_of_app. right. right. left. right.
    destruct (prepare_effects _ _ _ _ Hprep) as (_ & _ & Hreq & _).
    rewrite download_returns_open by exact Hopen.
    unfold next_answer. rewrite Hreq, Hok. apply list_elem_of_here.
Qed.
End Version2.

(** ** Properties of the fetcher and of the decompressor *)

Lemma can_open_error (w : world) (p : string) :
  can_open w p = true <-> open_error w p = None.
Proof.
  unfold open_error. destruct (can_open w p); split; try reflexivity; discriminate.
Qed.


(** C9, as the code has it.  A fetch that reports a failure has left every
    file alone when the failure came before the body: the request raised, or
    the status was 4XX or 5XX.  Otherwise the failure came while the body
    was streamed, and the destination has been created or emptied and holds
    the chunks received until then. *)
Theorem C9_failed_fetch_files (http : nat -> string -> http_outcome)
    (url output_path : string) (w : world) :
  fst (download_file http url output_path w) = Returned false ->
  match http (length (requests w)) url with
  | GetRaises _ => files (snd (download_file http url output_path w)) = files w
  | Response status chunks broken =>
      if (400 <=? status) && (status <? 600)
      then files (snd (download_file http url output_path w)) = files w
      else is_Some broken
           /\ files (snd (download_file http url output_path w))
              = <[output_path := join_chunks chunks]> (files w)
  end.
Proof.
  rewrite download_file_run. cbn [fst snd files downloaded].
  unfold download_returns, download_result, download_files, next_answer, is_error_status.
  destruct (http (length (requests w)) url) as [e | status chunks broken]; [reflexivity |].
  destruct ((400 <=? status) && (status <? 600)); [reflexivity |].
  destruct (open_error w output_path); [discriminate |].
  intros [= Hfail]. apply negb_false_iff, bool_decide_eq_true in Hfail.
  now split.
Qed.
(** ** The station identifier *)

Lemma get_lower (s : string) (i : nat) :
  String.get i (PyStr.lower s) = option_map PyStr.lower_char (String.get i s).
Proof.
  revert i. induction s as [|c s IH]; intros i; [reflexivity |].
  destruct i as [|i]; simpl; [reflexivity | apply IH].
Qed.

Section FirstRequest.
Variable http : nat -> string -> http_outcome.
Variable gunzip : string -> gunzip_result.

Lemma grows_obs_stage_run args dt w :
  grows (obs_stage_world http gunzip args dt w) (run_from_date_world http gunzip args dt w).
Proof.
  unfold run_from_date_world.
  destruct (obs_stage_returns http args dt w); [| apply grows_refl].
  destruct (nav_stage_returns http gunzip args dt w).
  - eapply grows_trans; [apply grows_fetch_nav | apply grows_summary].
  - apply grows_fetch_nav.
Qed.

(** the first request of a run that has a date is for the observation
    file, whatever happens next *)
Lemma first_request_main args w0 w dt :
  prepare args w0 = (Returned tt, w) ->
  parsed_date (rover_scan w (rinex_rover_file args)) = Some dt ->
  exists later,
    requests_since w0 (snd (main http gunzip args w0)) = obs_url (names_of args dt) :: later.
Proof.
  intros Hprep Hdt. rewrite (main_with_date _ _ _ _ _ _ Hprep Hdt). cbn [snd].
  destruct (prepare_effects _ _ _ _ Hprep) as (_ & _ & Hreq & _).
  exists (requests_since (obs_stage_world http gunzip args dt w)
            (run_from_date_world http gunzip args dt w)).
  transitivity (requests_since w (run_from_date_world http gunzip args dt w)).
  { unfold requests_since. now rewrite Hreq. }
  rewrite (requests_since_trans w (obs_stage_world http gunzip args dt w))
    by (apply grows_obs_stage || apply grows_obs_stage_run).
  unfold obs_stage_world at 1.
  rewrite (requests_since_trans w (announced args dt w))
    by (apply grows_announced || apply grows_fetch_obs).
  unfold announced at 1. now rewrite requests_printed, requests_fetch_obs.
Qed.
End FirstRequest.

(** C10. The station identifier is neither checked nor cut to four
    characters.  Whatever string it is, a run whose output directory is
    there or has been made and whose parser returns a date puts its
    lowercase form, which has as many characters and is the identifier
    lowercased character by character, in front of the file name, and its
    first request is the URL built with that name:
    [...o/<station><doy>0.<yy>o.crx.gz] for version "3" and
    [...d/<station><doy>0.<yy>d.Z] for version "2". *)
Theorem C10_station_id_unchecked (http : nat -> string -> http_outcome)
    (gunzip : string -> gunzip_result) (args : arguments) (w0 w : world) (dt : datetime) :
  prepare args w0 = (Returned tt, w) ->
  fst (get_obs_date_from_rinex (rinex_rover_file args) w) = Some dt ->
  String.length (station_id_lower_of args) = String.length (station_id args)
  /\ (forall i, String.get i (station_id_lower_of args)
                = option_map PyStr.lower_char (String.get i (station_id args)))
  /\ String.length (obs_filename_stem_3 (doy_str_of dt) (yy_of dt) (station_id_lower_of args))
     = (String.length (station_id args) + String.length (doy_str_of dt)
        + String.length (yy_of dt) + 3)%nat
  /\ (rinex_obs_version args = "3" ->
      exists later,
        requests_since w0 (snd (main http gunzip args w0))
        = (CDDIS_BASE_URL +:+ "/" +:+ PyStr.str_of_Z (year dt) +:+ "/" +:+ doy_str_of dt
             +:+ "/" +:+ yy_of dt +:+ "o/"
             +:+ PyStr.lower (station_id args) +:+ doy_str_of dt +:+ "0." +:+ yy_of dt
             +:+ "o" +:+ ".crx.gz") :: later)
  /\ (rinex_obs_version args = "2" ->
      exists later,
        requests_since w0 (snd (main http gunzip args w0))
        = (CDDIS_BASE_URL +:+ "/" +:+ PyStr.str_of_Z (year dt) +:+ "/" +:+ doy_str_of dt
             +:+ "/" +:+ yy_of dt +:+ "d/"
             +:+ PyStr.lower (station_id args) +:+ doy_str_of dt +:+ "0." +:+ yy_of dt
             +:+ "d" +:+ ".Z") :: later).
Proof.
  intros Hprep Hdt. rewrite parser_result in Hdt.
  destruct (first_request_main http gunzip _ _ _ _ Hprep Hdt) as [later Hfirst].
  split; [| split; [| split; [| split]]].
  - apply length_lower.
  - intros i. apply get_lower.
  - unfold obs_filename_stem_3, station_id_lower_of.
    rewrite !length_append, length_lower. simpl. lia.
  - intros Hv. exists later. rewrite Hfirst.
    f_equal. unfold names_of. rewrite Hv. cbn [build_obs String.eqb obs_url].
    unfold build_obs. rewrite String.eqb_refl. cbn [obs_url].
    unfold obs_url_3, obs_filename_crx_gz, obs_filename_stem_3, station_id_lower_of.
    now rewrite !append_assoc.
  - intros Hv. exists later. rewrite Hfirst.
    f_equal. unfold names_of. rewrite Hv.
    unfold build_obs.
    change (String.eqb "2" "3") with false. rewrite String.eqb_refl. cbn [obs_url].
    unfold obs_url_2, obs_filename_211_gz, obs_filename_stem_2, station_id_lower_of.
    now rewrite !append_assoc.
Qed.

(** ** The calendar *)

Lemma is_leap_leap_year (y : Z) : PyDatetime.is_leap y = Gregorian.leap_year y.
Proof.
  unfold PyDatetime.is_leap, Gregorian.leap_year.
  destruct (y mod 400 =? 0) eqn:H400; destruct (y mod 100 =? 0) eqn:H100;
    destruct (y mod 4 =? 0) eqn:H4; try reflexivity; exfalso;
    rewrite ?Z.eqb_eq, ?Z.eqb_neq in *; Z.div_mod_to_equations; lia.
Qed.

Lemma make_fields (y mo d h mi s us : Z) (dt : datetime) :
  PyDatetime.make y mo d h mi s us = Some dt ->
  dt = {| year := y; month := mo; day := d; hour := h; minute := mi;
          second := s; microsecond := us; tzinfo := utc |}
  /\ PyDatetime.valid y mo d h mi s us = true.
Proof.
  unfold PyDatetime.make. destruct (PyDatetime.valid y mo d h mi s us); [| discriminate].
  intros [= <-]. now split.
Qed.

Lemma valid_ranges (y mo d h mi s us : Z) :
  PyDatetime.valid y mo d h mi s us = true ->
  1 <= y <= 9999 /\ 1 <= mo <= 12 /\ 1 <= d <= PyDatetime.days_in_month y mo
  /\ 0 <= h <= 23 /\ 0 <= mi <= 59 /\ 0 <= s <= 59 /\ 0 <= us <= 999999.
Proof.
  unfold PyDatetime.valid, PyDatetime.between, PyDatetime.MINYEAR, PyDatetime.MAXYEAR.
  rewrite !andb_true_iff, !Z.leb_le. lia.
Qed.

Lemma month_cases (mo : Z) :
  1 <= mo <= 12 ->
  mo = 1 \/ mo = 2 \/ mo = 3 \/ mo = 4 \/ mo = 5 \/ mo = 6
  \/ mo = 7 \/ mo = 8 \/ mo = 9 \/ mo = 10 \/ mo = 11 \/ mo = 12.
Proof. lia. Qed.

Lemma days_of_months_leap (y : Z) (n : nat) :
  Gregorian.days_of_months y n = days_of_months_with (Gregorian.leap_year y) n.
Proof. induction n as [|n IH]; [reflexivity |]. simpl. now rewrite IH. Qed.

Lemma days_before_month_ordinal (y mo : Z) :
  1 <= mo <= 12 ->
  PyDatetime.days_before_month y mo = Gregorian.days_of_months y (Z.to_nat (mo - 1)).
Proof.
  intros Hmo. unfold PyDatetime.days_before_month.
  rewrite is_leap_leap_year, days_of_months_leap.
  destruct (month_cases mo Hmo) as
    [-> | [-> | [-> | [-> | [-> | [-> | [-> | [-> | [-> | [-> | [-> | ->]]]]]]]]]]];
    destruct (Gregorian.leap_year y); vm_compute; reflexivity.
Qed.

Lemma days_in_month_bound (y mo : Z) :
  1 <= mo <= 12 ->
  PyDatetime.days_before_month y mo + PyDatetime.days_in_month y mo <= 366
  /\ 0 <= PyDatetime.days_before_month y mo.
Proof.
  intros Hmo. unfold PyDatetime.days_before_month, PyDatetime.days_in_month.
  destruct (month_cases mo Hmo) as
    [-> | [-> | [-> | [-> | [-> | [-> | [-> | [-> | [-> | [-> | [-> | ->]]]]]]]]]]];
    destruct (PyDatetime.is_leap y); vm_compute; split; discriminate.
Qed.

Lemma doy_rendering (doy : Z) :
  1 <= doy <= 366 ->
  String.length (PyStr.format_03d doy) = 3%nat
  /\ all_digits (PyStr.format_03d doy) = true
  /\ int_of_digits (PyStr.format_03d doy) = doy.
Proof.
  intros Hdoy.
  assert (Hall : forallb doy_rendering_ok (Zrange 1 (Z.to_nat 366)) = true) by (vm_compute; reflexivity).
  pose proof (forallb_Zrange _ _ _ Hall doy ltac:(lia)) as H.
  unfold doy_rendering_ok in H. rewrite !andb_true_iff in H.
  destruct H as [[Hlen Hdig] Hint].
  apply Nat.eqb_eq in Hlen. apply Z.eqb_eq in Hint. now repeat split.
Qed.

Lemma yy_rendering (y : Z) :
  10 <= y <= 9999 ->
  PyStr.last2 (PyStr.str_of_Z y) = PyStr.last2 (PyStr.zfill 4 (PyStr.str_of_Z y))
  /\ String.length (PyStr.last2 (PyStr.str_of_Z y)) = 2%nat
  /\ String.length (PyStr.zfill 4 (PyStr.str_of_Z y)) = 4%nat.
Proof.
  intros Hy.
  assert (Hall : forallb yy_rendering_ok (Zrange 10 (Z.to_nat 9990)) = true) by (vm_compute; reflexivity).
  pose proof (forallb_Zrange _ _ _ Hall y ltac:(lia)) as H.
  unfold yy_rendering_ok in H. rewrite !andb_true_iff in H.
  destruct H as [[Heq Hlen] Hlen4].
  apply String.eqb_eq in Heq. apply Nat.eqb_eq in Hlen. apply Nat.eqb_eq in Hlen4.
  now repeat split.
Qed.

Lemma scan_found_valid (lines : list string) (dt : datetime) :
  scan_lines lines = Found dt ->
  PyDatetime.make (year dt) (month dt) (day dt) (hour dt) (minute dt)
    (second dt) (microsecond dt) = Some dt.
Proof.
  induction lines as [|line rest IH]; [discriminate |].
  cbn [scan_lines]. destruct (PyStr.contains TIME_OF_FIRST_OBS line); [| exact IH].
  destruct (PyRe.search PyRe.TIME_OF_FIRST_OBS_RE line)
    as [[|y [|mo [|d [|h [|mi [|s [|extra more]]]]]]]|]; try discriminate.
  unfold datetime_of_groups.
  destruct (split_seconds s) as [e | [sec us]]; [discriminate |].
  destruct (PyDatetime.make _ _ _ _ _ sec us) as [dt'|] eqn:Hmake; [| discriminate].
  intros [= <-]. destruct (make_fields _ _ _ _ _ _ _ _ Hmake) as [-> Hvalid].
  cbn [year month day hour minute second microsecond].
  unfold PyDatetime.make. now rewrite Hvalid.
Qed.

Lemma constructed_found_valid (r : scan_result) (dt : datetime) :
  constructed r = Found dt ->
  PyDatetime.make (year dt) (month dt) (day dt) (hour dt) (minute dt)
    (second dt) (microsecond dt) = Some dt.
Proof.
  destruct r as [d | l | | e]; try discriminate. cbn [constructed].
  destruct (PyDatetime.make _ _ _ _ _ _ _) as [dt'|] eqn:Hmake; [| discriminate].
  intros [= <-]. destruct (make_fields _ _ _ _ _ _ _ _ Hmake) as [-> Hvalid].
  cbn [year month day hour minute second microsecond].
  unfold PyDatetime.make. now rewrite Hvalid.
Qed.

(** every timestamp the parser returns has passed the checks of the
    constructor *)
Lemma parsed_timestamp_valid (path : string) (w : world) (dt : datetime) :
  fst (get_obs_date_from_rinex path w) = Some dt ->
  PyDatetime.make (year dt) (month dt) (day dt) (hour dt) (minute dt)
    (second dt) (microsecond dt) = Some dt.
Proof.
  rewrite parser_result. intros Hdt.
  destruct (parsed_date_file _ _ _ Hdt) as (content & _ & _ & Hscan).
  unfold decoded_scan in Hscan. destruct (PyStr.is_ascii content).
  - exact (scan_found_valid _ _ Hscan).
  - exact (constructed_found_valid _ _ Hscan).
Qed.

(** X18. For every timestamp the parser returns, the
    day of the year is the ordinal day of the Gregorian calendar, leap
    years included, between 1 and 366 (60 on 2024-02-29, 59 on
    2023-02-28); its rendering has exactly three decimal digits, padded
    with zeros, and reads back as the same number.  When the year is at
    least 10 the two-digit year has two characters, the last two of the
    year written with four digits. *)
Theorem X18_day_of_year_and_yy (path : string) (w : world) (dt : datetime) :
  fst (get_obs_date_from_rinex path w) = Some dt ->
  get_doy dt = Gregorian.ordinal_day (year dt) (month dt) (day dt)
  /\ 1 <= get_doy dt <= 366
  /\ Gregorian.ordinal_day 2024 2 29 = 60
  /\ Gregorian.ordinal_day 2023 2 28 = 59
  /\ String.length (doy_str_of dt) = 3%nat
  /\ all_digits (doy_str_of dt) = true
  /\ int_of_digits (doy_str_of dt) = get_doy dt
  /\ (10 <= year dt ->
      yy_of dt = PyStr.last2 (PyStr.zfill 4 (PyStr.str_of_Z (year dt)))
      /\ String.length (yy_of dt) = 2%nat
      /\ String.length (PyStr.zfill 4 (PyStr.str_of_Z (year dt))) = 4%nat).
Proof.
  intros Hparsed. apply parsed_timestamp_valid in Hparsed.
  destruct (make_fields _ _ _ _ _ _ _ _ Hparsed) as [_ Hvalid].
  destruct (valid_ranges _ _ _ _ _ _ _ Hvalid) as (Hy & Hmo & Hd & _).
  assert (Hdoy : 1 <= get_doy dt <= 366).
  { unfold get_doy, tm_yday.
    pose proof (days_in_month_bound (year dt) (month dt) Hmo). lia. }
  split; [| split; [exact Hdoy | split; [reflexivity | split; [reflexivity |]]]].
  - unfold get_doy, tm_yday, Gregorian.ordinal_day.
    now rewrite days_before_month_ordinal.
  - destruct (doy_rendering _ Hdoy) as (Hlen & Hdig & Hint).
    repeat split; try assumption.
    all: unfold yy_of; apply yy_rendering; lia.
Qed.

(** ** The pattern on a header line *)













Lemma all_digits_all_in (s : string) : all_digits s = all_in PyStr.is_digit s.
Proof. induction s as [|c s IH]; simpl; [reflexivity | now rewrite IH]. Qed.






(** ** [int] of a float truncates *)




(** ** Samples *)

Example sample_parse :
  fst (get_obs_date_from_rinex "rover.obs" sample_world) = Some sample_date.
Proof. vm_compute. reflexivity. Qed.

Example sample_doy : doy_str_of sample_date = "015" /\ yy_of sample_date = "23".
Proof. split; reflexivity. Qed.

Example leap_day_2024 : Gregorian.ordinal_day 2024 2 29 = 60.
Proof. reflexivity. Qed.

Example last_of_february_2023 : Gregorian.ordinal_day 2023 2 28 = 59.
Proof. reflexivity. Qed.

Lemma whole_seconds (sec : Z) :
  0 <= sec <= 59 ->
  split_seconds (PyStr.zfill 2 (PyStr.str_of_Z sec) +:+ ".0000000") = inr (sec, 0).
Proof.
  intros Hsec.
  assert (Hall : forallb whole_seconds_exact (Zrange 0 60) = true) by (vm_compute; reflexivity).
  pose proof (forallb_Zrange _ _ _ Hall sec ltac:(lia)) as H.
  unfold whole_seconds_exact in H.
  destruct (split_seconds _) as [e | [second microsecond]]; [discriminate H |].
  apply andb_true_iff in H as [H1 H2].
  apply Z.eqb_eq in H1, H2. now subst.
Qed.

(** ** Where the code departs from the specification *)


(** the binary64 arithmetic of lines 27 and 28 on two seconds fields:
    15.1000000 gives 99999 microseconds, since the product of the
    remainder by 1000000 is just below 100000, and 58.99999999999999999 is
    read as the float 59.0 *)
Example seconds_in_binary64 :
  split_seconds "15.1000000" = inr (15, 99999)
  /\ split_seconds "58.99999999999999999" = inr (59, 0).
Proof. split; vm_compute; reflexivity. Qed.

(** C4 on the year field 0005.  The parser returns a timestamp of year 5,
    and [str(year)[-2:]] is the single character "5": the line that the
    source comments as the 2-digit year gives one digit, not the last two
    characters "05" of the four-digit year. *)
Lemma C4_year_5_two_digit_year :
  exists dt,
    fst (get_obs_date_from_rinex "rover.obs" (world_with_rover year_5_line)) = Some dt
    /\ year dt = 5
    /\ yy_of dt = "5"
    /\ PyStr.last2 "0005" = "05"
    /\ yy_of dt <> PyStr.last2 "0005".
Proof.
  exists {| year := 5; month := 1; day := 1; hour := 0; minute := 0;
            second := 0; microsecond := 0; tzinfo := utc |}.
  repeat split; try (vm_compute; reflexivity). vm_compute. discriminate.
Qed.

(** C7 as stated fails.  The summary shows the path of the rover file as
    it was given, without looking at the disk.  Here the rover file lies
    where the observation archive is stored: the download overwrites it,
    the decompressor removes it, and the summary still shows its path,
    which does not exist any more. *)
Lemma C7_counterexample :
  fst (get_obs_date_from_rinex (rinex_rover_file rover_at_archive_args)
         world_with_rover_at_archive) = Some sample_date
  /\ fst (main serve_archives sample_gunzip rover_at_archive_args world_with_rover_at_archive)
     = Returned tt
  /\ drop 12 (output_since world_with_rover_at_archive
                (snd (main serve_archives sample_gunzip rover_at_archive_args
                        world_with_rover_at_archive)))
     = [ MsgFinished; MsgCheckDirectory "out"; MsgRequiredFiles;
         MsgRoverObs "out/algo0150.23o.crx.gz";
         MsgBaseObs "out/algo0150.23o.crx";
         MsgNavFile "out/BRDM00DLR_S_20230150000_01D_MN.rnx" ]
  /\ path_exists (snd (main serve_archives sample_gunzip rover_at_archive_args
                         world_with_rover_at_archive))
       "out/algo0150.23o.crx.gz" = false.
Proof. repeat split; vm_compute; reflexivity. Qed.

(** the exception of [open] in the fetcher is not caught: for a station
    identifier with a slash the archive would lie in a directory that is
    not there, and the run ends in the first download, before the
    navigation stage and the summary *)
Example unopened_archive_ends_the_run :
  fst (main serve_archives sample_gunzip nested_station_args sample_world)
  = Raises FileNotFoundError
  /\ output_since sample_world
       (snd (main serve_archives sample_gunzip nested_station_args sample_world))
     = [ MsgCreatedOutputDir "out"; MsgRoverStart sample_date;
         MsgYearDoyStation 2023 "015" "a/b";
         MsgAttemptDownload
           "https://cddis.nasa.gov/archive/gnss/data/daily/2023/015/23o/a/b0150.23o.crx.gz" ].
Proof. split; vm_compute; reflexivity. Qed.

(** C9 as stated fails.  When the connection breaks while the body is
    streamed, the fetch reports a failure and the destination, which was
    not there, has been created with the chunk received; a destination
    that was there has been overwritten. *)
Lemma C9_counterexample :
  fst (download_file broken_stream "https://host/nav.rnx.gz" "out/nav.rnx.gz"
         world_with_out_dir)
  = Returned false
  /\ files world_with_out_dir !! "out/nav.rnx.gz" = None
  /\ files (snd (download_file broken_stream "https://host/nav.rnx.gz" "out/nav.rnx.gz"
                   world_with_out_dir)) !! "out/nav.rnx.gz" = Some "abc"
  /\ files (world_with_archive "old") !! "nav.rnx.gz" = Some (sample_gzip "old")
  /\ fst (download_file broken_stream "https://host/nav.rnx.gz" "nav.rnx.gz"
            (world_with_archive "old")) = Returned false
  /\ files (snd (download_file broken_stream "https://host/nav.rnx.gz" "nav.rnx.gz"
                   (world_with_archive "old"))) !! "nav.rnx.gz" = Some "abc".
Proof. repeat split; vm_compute; reflexivity. Qed.

(** ** The properties on the sample run *)

Lemma sample_parsed (version : string) :
  fst (get_obs_date_from_rinex (rinex_rover_file (sample_args version)) sample_world)
  = Some sample_date.
Proof. vm_compute. reflexivity. Qed.

(** the sample run: the output directory is made, the parser finds the
    date, and the archives can be opened *)
Lemma sample_prepared (version : string) :
  prepare (sample_args version) sample_world = (Returned tt, made_out sample_world).
Proof. vm_compute. reflexivity. Qed.

Lemma sample_parsed_prepared (version : string) :
  fst (get_obs_date_from_rinex (rinex_rover_file (sample_args version))
         (made_out sample_world))
  = Some sample_date.
Proof. vm_compute. reflexivity. Qed.

Lemma sample_archives_can_open (version : string) :
  version = "2" \/ version = "3" ->
  archives_can_open (sample_args version) sample_date (made_out sample_world) = true.
Proof. intros [-> | ->]; vm_compute; reflexivity. Qed.

Lemma C2_nav_fallback_once_witness :
  fails (not_found 1 (nav_url 2023 "015")) = true
  /\ requests_since sample_world
       (snd (main not_found sample_gunzip (sample_args "3") sample_world))
     = [ "https://cddis.nasa.gov/archive/gnss/data/daily/2023/015/23o/algo0150.23o.crx.gz";
         "https://cddis.nasa.gov/archive/gnss/data/campaign/mgex/daily/rinex3/2023/015/BRDM00DLR_S_20230150000_01D_MN.rnx.gz";
         "https://cddis.nasa.gov/archive/gnss/data/campaign/mgex/daily/rinex3/2023/015/BRDM00GDE_S_20230150000_01D_MN.rnx.gz" ]
  /\ MsgNavGdeFailed 2023 "015"
       ∈ output_since sample_world
           (snd (main not_found sample_gunzip (sample_args "3") sample_world))
  /\ fst (main not_found sample_gunzip (sample_args "3") sample_world) = Returned tt.
Proof.
  destruct (C2_nav_fallback_once not_found sample_gunzip (sample_args "3") sample_world
              (made_out sample_world) sample_date (sample_prepared "3")
              (sample_parsed_prepared "3") eq_refl eq_refl) as (Hreq & _ & Hboth).
  split; [reflexivity |]. split; [exact Hreq |].
  destruct (Hboth eq_refl) as (Hfailed & Hret & _). split; assumption.
Defined.



Lemma C6_parser_failure_aborts_witness :
  prepare (sample_args "3") empty_world = (Returned tt, made_out empty_world)
  /\ files (made_out empty_world) !! rinex_rover_file (sample_args "3") = None
  /\ fst (get_obs_date_from_rinex "rover.obs" (made_out empty_world)) = None
  /\ fst (main not_found sample_gunzip (sample_args "3") empty_world) = Returned tt
  /\ requests (snd (main not_found sample_gunzip (sample_args "3") empty_world)) = []
  /\ files (snd (main not_found sample_gunzip (sample_args "3") empty_world)) = ∅.
Proof.
  assert (Hprep : prepare (sample_args "3") empty_world = (Returned tt, made_out empty_world))
    by (vm_compute; reflexivity).
  assert (Hmissing : files (made_out empty_world) !! rinex_rover_file (sample_args "3") = None)
    by (vm_compute; reflexivity).
  destruct (C6_parser_failure_aborts not_found sample_gunzip (sample_args "3") empty_world
              (made_out empty_world) Hprep (or_introl Hmissing))
    as (Hnone & Hret & Hreq & Hfiles & _).
  repeat split; assumption.
Defined.

Lemma C7_summary_always_witness :
  fst (main not_found sample_gunzip (sample_args "3") sample_world) = Returned tt
  /\ exists earlier base_obs nav_file,
      output_since sample_world
        (snd (main not_found sample_gunzip (sample_args "3") sample_world))
      = earlier
        ++ [ MsgFinished; MsgCheckDirectory "out"; MsgRequiredFiles;
             MsgRoverObs "rover.obs"; MsgBaseObs base_obs; MsgNavFile nav_file ].
Proof.
  destruct (C7_summary_always not_found sample_gunzip (sample_args "3") sample_world
              (made_out sample_world) sample_date (sample_prepared "3")
              (sample_parsed_prepared "3") eq_refl)
    as (Hret & earlier & base_obs & nav_file & nav_final & Hout & _).
  split; [exact Hret |]. exists earlier, base_obs, nav_file. exact Hout.
Defined.

Lemma C8_version_2_no_decompression_witness :
  rinex_obs_version (sample_args "2") = "2"
  /\ (MsgDecompressing "out/algo0150.23d.Z"
        ∉ output_since sample_world
            (snd (main serve_archives sample_gunzip (sample_args "2") sample_world)))
  /\ MsgWarnManualDecompression "algo0150.23d.Z"
       ∈ output_since sample_world
           (snd (main serve_archives sample_gunzip (sample_args "2") sample_world))
  /\ MsgDecompressManually "out/algo0150.23d.Z"
       ∈ output_since sample_world
           (snd (main serve_archives sample_gunzip (sample_args "2") sample_world)).
Proof.
  destruct (C8_version_2_no_decompression serve_archives sample_gunzip (sample_args "2")
              sample_world (made_out sample_world) sample_date eq_refl
              (sample_prepared "2") (sample_parsed_prepared "2"))
    as (Hnot & _ & Hwarn & Hmanual).
  split; [reflexivity |]. split; [exact Hnot |]. split; [exact Hwarn |].
  apply Hmanual; reflexivity.
Defined.

Lemma C9_failed_fetch_files_witness :
  fst (download_file not_found "https://host/obs.crx.gz" "out/obs.crx.gz" sample_world)
  = Returned false
  /\ files (snd (download_file not_found "https://host/obs.crx.gz" "out/obs.crx.gz"
                   sample_world))
     = files sample_world.
Proof.
  assert (Hfalse : fst (download_file not_found "https://host/obs.crx.gz"
                          "out/obs.crx.gz" sample_world) = Returned false)
    by (vm_compute; reflexivity).
  split; [exact Hfalse |].
  exact (C9_failed_fetch_files not_found "https://host/obs.crx.gz" "out/obs.crx.gz"
           sample_world Hfalse).
Defined.

Lemma C10_station_id_unchecked_witness :
  String.length (station_id long_station_args) = 9%nat
  /\ exists later,
      requests_since sample_world
        (snd (main not_found sample_gunzip long_station_args sample_world))
      = "https://cddis.nasa.gov/archive/gnss/data/daily/2023/015/23o/algonquin0150.23o.crx.gz"
        :: later.
Proof.
  assert (Hprep : prepare long_station_args sample_world = (Returned tt, made_out sample_world))
    by (vm_compute; reflexivity).
  destruct (C10_station_id_unchecked not_found sample_gunzip long_station_args sample_world
              (made_out sample_world) sample_date Hprep (sample_parsed_prepared "3"))
    as (_ & _ & _ & Hv3 & _).
  split; [reflexivity |]. destruct (Hv3 eq_refl) as [later Hreq].
  exists later. exact Hreq.
Defined.
(** * Further properties of the code *)

(** ** The fetcher: what a call does to the files *)
Section FetcherFiles.
Variable http : nat -> string -> http_outcome.

(** X1. A fetch returns [True] exactly when the response has a status
    outside 400..599, the destination opens for writing and the body
    arrives whole; statuses such as 304 count as success.  The destination
    then holds the chunks of the body, in order, whatever it held before.
    With such a status and a destination that does not open, the fetch
    does not return: the exception of [open] goes up to the caller. *)
Theorem X1_download_success (url output_path : string) (w : world) :
  (fst (download_file http url output_path w) = Returned true
   <-> can_open w output_path = true
       /\ exists status chunks,
          http (length (requests w)) url = Response status chunks None
          /\ (status < 400 \/ 600 <= status))
  /\ (forall status chunks,
        http (length (requests w)) url = Response status chunks None ->
        status < 400 \/ 600 <= status ->
        can_open w output_path = true ->
        files (snd (download_file http url output_path w))
        = <[output_path := join_chunks chunks]> (files w))
  /\ (forall status chunks broken e,
        http (length (requests w)) url = Response status chunks broken ->
        status < 400 \/ 600 <= status ->
        open_error w output_path = Some e ->
        fst (download_file http url output_path w) = Raises e).
Proof.
  rewrite download_file_run. cbn [fst snd files downloaded].
  unfold download_returns, download_result, download_files, next_answer, is_error_status.
  assert (Hst : forall status, status < 400 \/ 600 <= status ->
                               (400 <=? status) && (status <? 600) = false).
  { intros status Hs. apply andb_false_iff.
    destruct Hs; [left; apply Z.leb_gt | right; apply Z.ltb_ge]; lia. }
  split; [| split].
  - destruct (http (length (requests w)) url) as [e | status chunks broken].
    + split; [discriminate | intros (_ & s & c & H & _); discriminate H].
    + destruct ((400 <=? status) && (status <? 600)) eqn:Hstatus.
      * split; [discriminate |]. intros (_ & s & c & [= -> _ _] & Hs).
        rewrite (Hst _ Hs) in Hstatus. discriminate Hstatus.
      * apply andb_false_iff in Hstatus.
        destruct (open_error w output_path) as [e|] eqn:Herr.
        { split; [discriminate |]. intros (Hopen & _).
          apply can_open_error in Hopen. congruence. }
        apply can_open_error in Herr.
        destruct broken as [e|]; cbn.
        -- split; [discriminate | intros (_ & s & c & H & _); discriminate H].
        -- split; [| reflexivity]. intros _. split; [exact Herr |].
           exists status, chunks. split; [reflexivity |].
           destruct Hstatus as [H | H]; [apply Z.leb_gt in H | apply Z.ltb_ge in H]; lia.
  - intros status chunks -> Hs Hopen. rewrite (Hst _ Hs).
    apply can_open_error in Hopen. now rewrite Hopen.
  - intros status chunks broken e -> Hs ->. now rewrite (Hst _ Hs).
Qed.

(** X2. Whatever the network answers, a fetch changes no file but its
    destination and removes nothing; it makes exactly one request, to the
    URL it was given, and leaves the directories alone.  It prints exactly
    two lines when it returns, and only the first of them when it raises. *)
Theorem X2_download_frame (url output_path : string) (w : world) :
  (forall p, p <> output_path ->
             files (snd (download_file http url output_path w)) !! p = files w !! p)
  /\ (forall p, is_Some (files w !! p) ->
                is_Some (files (snd (download_file http url output_path w)) !! p))
  /\ requests (snd (download_file http url output_path w)) = requests w ++ [url]
  /\ match fst (download_file http url output_path w) with
     | Returned _ =>
         length (output_since w (snd (download_file http url output_path w))) = 2%nat
     | Raises _ =>
         output_since w (snd (download_file http url output_path w))
         = [MsgAttemptDownload url]
     end
  /\ dirs (snd (download_file http url output_path w)) = dirs w.
Proof.
  rewrite download_file_run. cbn [fst snd files requests dirs downloaded].
  assert (Hother : forall p, p <> output_path ->
            download_files (next_answer http w url) (open_error w output_path)
              output_path (files w) !! p
            = files w !! p).
  { intros p Hp. unfold download_files.
    destruct (next_answer http w url) as [e | status chunks broken]; [reflexivity |].
    destruct (is_error_status status); [reflexivity |].
    destruct (open_error w output_path); [reflexivity |].
    now rewrite lookup_insert_ne by now apply not_eq_sym. }
  split; [exact Hother | split; [| split; [reflexivity | split; [| reflexivity]]]].
  - intros p Hp. destruct (decide (p = output_path)) as [-> | Hne].
    + unfold download_files.
      destruct (next_answer http w url) as [e | status chunks broken]; [exact Hp |].
      destruct (is_error_status status); [exact Hp |].
      destruct (open_error w output_path); [exact Hp |].
      rewrite lookup_insert_eq. eauto.
    + now rewrite Hother.
  - erewrite output_since_eq by (cbn [stdout]; reflexivity).
    unfold download_returns, download_result, download_output.
    destruct (next_answer http w url) as [e | status chunks broken]; [reflexivity |].
    destruct (is_error_status status); [reflexivity |].
    now destruct (open_error w output_path).
Qed.
End FetcherFiles.

(** ** The decompressor: what a call does to the files *)
Section DecompressorFiles.
Variable gunzip : string -> gunzip_result.

(** X3. The decompressor changes no file but the archive and the output
    and makes no request.  When the archive opens for reading and the
    output for writing but the codec fails on the archive, the call returns
    [False] and the output file has nevertheless been created: it holds
    what was written before the failure. *)
Theorem X3_decompress_frame (gz_file_path output_file_path : string) (w : world) :
  (forall p, p <> gz_file_path -> p <> output_file_path ->
             files (snd (decompress_gz_file gunzip gz_file_path output_file_path w)) !! p
             = files w !! p)
  /\ requests (snd (decompress_gz_file gunzip gz_file_path output_file_path w)) = requests w
  /\ dirs (snd (decompress_gz_file gunzip gz_file_path output_file_path w)) = dirs w
  /\ (forall content written,
        fst (open_read gz_file_path w) = inr content ->
        can_open w output_file_path = true ->
        gz_file_path <> output_file_path ->
        gunzip content = Corrupt written ->
        fst (decompress_gz_file gunzip gz_file_path output_file_path w) = false
        /\ files (snd (decompress_gz_file gunzip gz_file_path output_file_path w))
             !! output_file_path = Some written
        /\ files (snd (decompress_gz_file gunzip gz_file_path output_file_path w))
             !! gz_file_path = Some content).
Proof.
  rewrite decompress_gz_file_run. cbn [fst snd files requests dirs inflated].
  split; [| split; [reflexivity | split; [reflexivity |]]].
  - intros p Hgz Hout.
    destruct (inflate_case_of gunzip w gz_file_path output_file_path); cbn;
      rewrite ?lookup_delete_ne, ?lookup_insert_ne by (now apply not_eq_sym); reflexivity.
  - intros content written Hread Hopen Hne Hcodec. unfold inflate_case_of.
    unfold open_read in Hread.
    destruct (is_dir w gz_file_path); [discriminate Hread |].
    destruct (files w !! gz_file_path) as [c|] eqn:Hfile; [| discriminate Hread].
    destruct (bool_decide (gz_file_path ∈ unreadable w)); [discriminate Hread |].
    injection Hread as ->. apply can_open_error in Hopen. rewrite Hopen.
    rewrite lookup_insert_ne, Hfile by now apply not_eq_sym.
    change (default EmptyString (Some content)) with content. rewrite Hcodec. cbn.
    split; [reflexivity | split].
    + apply lookup_insert_eq.
    + now rewrite lookup_insert_ne by now apply not_eq_sym.
Qed.

(** X4. Decompressing twice: after a call that succeeded, a second call on
    the same paths finds no archive, returns [False], says so, and leaves
    every file, the output included, as the first call left it. *)
Theorem X4_decompress_twice (gz_file_path output_file_path : string) (w : world) :
  fst (decompress_gz_file gunzip gz_file_path output_file_path w) = true ->
  fst (decompress_gz_file gunzip gz_file_path output_file_path
         (snd (decompress_gz_file gunzip gz_file_path output_file_path w))) = false
  /\ files (snd (decompress_gz_file gunzip gz_file_path output_file_path
                   (snd (decompress_gz_file gunzip gz_file_path output_file_path w))))
     = files (snd (decompress_gz_file gunzip gz_file_path output_file_path w))
  /\ MsgCompressedNotFound gz_file_path
       ∈ output_since (snd (decompress_gz_file gunzip gz_file_path output_file_path w))
           (snd (decompress_gz_file gunzip gz_file_path output_file_path
                   (snd (decompress_gz_file gunzip gz_file_path output_file_path w)))).
Proof.
  intros Hok.
  assert (Hfirst : files (snd (decompress_gz_file gunzip gz_file_path output_file_path w))
                     !! gz_file_path = None
                   /\ is_dir w gz_file_path = false).
  { revert Hok. rewrite decompress_gz_file_run. cbn [fst snd files inflated].
    unfold inflate_case_of. destruct (is_dir w gz_file_path); [discriminate |].
    destruct (files w !! gz_file_path); [| discriminate].
    destruct (bool_decide (gz_file_path ∈ unreadable w)); [discriminate |].
    destruct (open_error w output_file_path); [discriminate |].
    destruct (gunzip _); [| discriminate].
    destruct (bool_decide (gz_file_path ∈ unremovable w)); [discriminate |].
    cbn. intros _. split; [apply lookup_delete_eq | reflexivity]. }
  destruct Hfirst as [Hgone Hnodir].
  assert (Hdir1 : is_dir (snd (decompress_gz_file gunzip gz_file_path output_file_path w))
                    gz_file_path = false).
  { rewrite decompress_gz_file_run. exact Hnodir. }
  set (w1 := snd (decompress_gz_file gunzip gz_file_path output_file_path w)) in *.
  rewrite decompress_gz_file_run. cbn [fst snd].
  assert (Hcase : inflate_case_of gunzip w1 gz_file_path output_file_path = ArchiveMissing).
  { unfold inflate_case_of. now rewrite Hdir1, Hgone. }
  rewrite output_inflated. cbn [files inflated]. rewrite Hcase.
  cbn [inflate_ok inflate_files inflate_output].
  split; [reflexivity | split; [reflexivity |]].
  apply list_elem_of_further, list_elem_of_here.
Qed.
End DecompressorFiles.
(** ** The parser: which line decides, and what the pattern captures *)

(** X5. In a file that opens and holds ASCII text, the first line that
    contains the marker decides the result: the lines before it and the
    lines after it are never used, so a second, well-formed marker line
    cannot repair a first one that does not parse.  What the parser
    returns and prints is what it would on that line alone. *)
Theorem X5_first_marker_line_decides (w : world) (path content : string)
    (before after : list string) (line : string) :
  fst (open_read path w) = inr content ->
  PyStr.is_ascii content = true ->
  text_lines content = before ++ line :: after ->
  Forall (fun l => PyStr.contains TIME_OF_FIRST_OBS l = false) before ->
  PyStr.contains TIME_OF_FIRST_OBS line = true ->
  scan_lines (before ++ line :: after) = scan_lines [line]
  /\ scan_lines [line] <> NoMarker
  /\ fst (get_obs_date_from_rinex path w) = parsed_date (inr (scan_lines [line]))
  /\ output_since w (snd (get_obs_date_from_rinex path w))
     = parser_output (inr (scan_lines [line])) path.
Proof.
  intros Hopen Hascii Hlines Hbefore Hmarker.
  assert (Heq : scan_lines (before ++ line :: after) = scan_lines [line]).
  { rewrite (scan_lines_skip _ _ Hbefore). cbn [scan_lines]. now rewrite Hmarker. }
  split; [exact Heq | split].
  - cbn [scan_lines]. rewrite Hmarker.
    destruct (PyRe.search PyRe.TIME_OF_FIRST_OBS_RE line)
      as [[|y [|mo [|d [|h [|mi [|s [|extra more]]]]]]]|]; try discriminate.
    destruct (datetime_of_groups y mo d h mi s); discriminate.
  - rewrite get_obs_date_from_rinex_run. cbn [fst snd].
    rewrite output_printed, (rover_scan_opened _ _ _ Hopen). unfold decoded_scan.
    now rewrite Hascii, Hlines, Heq.
Qed.

Lemma all_in_take_run (p : ascii -> bool) (s : string) (j : nat) :
  (j <= PyRe.run p s)%nat ->
  all_in p (PyRe.take j s) = true /\ String.length (PyRe.take j s) = j.
Proof.
  revert s. induction j as [|j IH]; intros s Hj.
  - destruct s; now split.
  - destruct s as [|c s]; [simpl in Hj; lia |].
    simpl in Hj. destruct (p c) eqn:Hc; [| lia].
    destruct (IH s ltac:(lia)) as [Hall Hlen].
    simpl. rewrite Hc, Hall, Hlen. now split.
Qed.

Lemma most_bounds (it : PyRe.item) (s : string) :
  (PyRe.most it s <= PyRe.run (PyRe.cls it) s)%nat
  /\ (forall m, PyRe.rmax it = Some m -> (PyRe.most it s <= m)%nat).
Proof.
  unfold PyRe.most. destruct (PyRe.rmax it) as [m|].
  - split; [lia |]. intros m' [= <-]. lia.
  - split; [lia | discriminate].
Qed.

Lemma give_back_sound (it : PyRe.item) (s : string)
    (rest_match : string -> option (list string)) (k : nat) (groups : list string) :
  PyRe.give_back it s rest_match k = Some groups ->
  exists j rest_groups,
    (PyRe.rmin it <= j <= k)%nat
    /\ rest_match (PyRe.drop j s) = Some rest_groups
    /\ groups = if PyRe.captured it then PyRe.take j s :: rest_groups else rest_groups.
Proof.
  induction k as [|k IH]; cbn [PyRe.give_back].
  - destruct (PyRe.rmin it <=? 0)%nat eqn:Hmin; [| discriminate].
    destruct (rest_match (PyRe.drop 0 s)) as [g|] eqn:Hrest; [| discriminate].
    intros [= <-]. apply Nat.leb_le in Hmin. exists 0%nat, g. repeat split; [lia | lia | exact Hrest].
  - destruct (PyRe.rmin it <=? S k)%nat eqn:Hmin.
    + destruct (rest_match (PyRe.drop (S k) s)) as [g|] eqn:Hrest.
      * intros [= <-]. apply Nat.leb_le in Hmin.
        exists (S k), g. repeat split; [lia | lia | exact Hrest].
      * intros H. destruct (IH H) as (j & g & Hj & Hr & Hg).
        exists j, g. repeat split; [lia | lia | exact Hr | exact Hg].
    + intros H. destruct (IH H) as (j & g & Hj & Hr & Hg).
      exists j, g. repeat split; [lia | lia | exact Hr | exact Hg].
Qed.

(** what one repetition of a match has taken *)
Lemma match_items_cons_sound (it : PyRe.item) (items : list PyRe.item) (s : string)
    (groups : list string) :
  PyRe.match_items (it :: items) s = Some groups ->
  exists j rest_groups,
    (PyRe.rmin it <= j)%nat
    /\ (forall m, PyRe.rmax it = Some m -> (j <= m)%nat)
    /\ all_in (PyRe.cls it) (PyRe.take j s) = true
    /\ String.length (PyRe.take j s) = j
    /\ PyRe.match_items items (PyRe.drop j s) = Some rest_groups
    /\ groups = if PyRe.captured it then PyRe.take j s :: rest_groups else rest_groups.
Proof.
  cbn [PyRe.match_items]. intros H.
  destruct (give_back_sound _ _ _ _ _ H) as (j & g & Hj & Hrest & Hg).
  destruct (most_bounds it s) as [Hrun Hmax].
  destruct (all_in_take_run (PyRe.cls it) s j ltac:(lia)) as [Hall Hlen].
  exists j, g. repeat split; try assumption; try lia.
  intros m Hm. specialize (Hmax m Hm). lia.
Qed.

Lemma search_sound (items : list PyRe.item) (s : string) (groups : list string) :
  PyRe.search items s = Some groups ->
  exists s', PyRe.match_items items s' = Some groups.
Proof.
  induction s as [|c s IH]; cbn [PyRe.search].
  - destruct (PyRe.match_items items EmptyString) eqn:H; [| discriminate].
    intros [= <-]. now exists EmptyString.
  - destruct (PyRe.match_items items (String c s)) eqn:H.
    + intros [= <-]. now exists (String c s).
    + exact IH.
Qed.

Lemma int_go_bounds (s : string) (acc : Z) :
  all_digits s = true -> 0 <= acc ->
  10 ^ Z.of_nat (String.length s) * acc <= int_go s acc
  < 10 ^ Z.of_nat (String.length s) * (acc + 1).
Proof.
  revert acc. induction s as [|c s IH]; intros acc Hd Hacc.
  - simpl. lia.
  - simpl in Hd. apply andb_true_iff in Hd as [Hc Hd].
    cbn [int_go String.length]. rewrite Nat2Z.inj_succ, Z.pow_succ_r by lia.
    unfold PyStr.is_digit in Hc. apply andb_true_iff in Hc as [H48 H57].
    apply Nat.leb_le in H48, H57.
    specialize (IH (10 * acc + Z.of_nat (PyStr.code c - 48)) Hd ltac:(lia)).
    assert (0 < 10 ^ Z.of_nat (String.length s)) by (apply Z.pow_pos_nonneg; lia).
    nia.
Qed.

Lemma int_of_digits_bounds (s : string) :
  all_digits s = true ->
  0 <= int_of_digits s < 10 ^ Z.of_nat (String.length s).
Proof.
  intros Hd. unfold int_of_digits.
  pose proof (int_go_bounds s 0 Hd ltac:(lia)). lia.
Qed.

(** one step of the decomposition of a match of the pattern *)
Ltac pattern_step H j g Hmin Hmax Hall Hlen Hg :=
  apply match_items_cons_sound in H;
  destruct H as (j & g & Hmin & Hmax & Hall & Hlen & H & Hg);
  cbn in Hmin, Hmax, Hall, Hg.

(** X6. Whenever the pattern matches a line, it gives exactly six groups: a
    year of four digits, a month, a day, an hour and a minute of one or two
    digits each, and a non-empty seconds field of digits and dots.  So
    [int] cannot fail on the first five, whose values are below 10000 and
    below 100. *)
Theorem X6_pattern_groups (line : string) (groups : list string) :
  PyRe.search PyRe.TIME_OF_FIRST_OBS_RE line = Some groups ->
  exists year month day hour minute second_full,
    groups = [year; month; day; hour; minute; second_full]
    /\ all_digits year = true /\ String.length year = 4%nat
    /\ one_or_two_digits month = true /\ one_or_two_digits day = true
    /\ one_or_two_digits hour = true /\ one_or_two_digits minute = true
    /\ non_empty second_full = true /\ all_in PyRe.digit_or_dot second_full = true
    /\ 0 <= int_of_digits year < 10000
    /\ 0 <= int_of_digits month < 100 /\ 0 <= int_of_digits day < 100
    /\ 0 <= int_of_digits hour < 100 /\ 0 <= int_of_digits minute < 100.
Proof.
  intros Hsearch. apply search_sound in Hsearch as [s H].
  unfold PyRe.TIME_OF_FIRST_OBS_RE in H.
  pattern_step H j1 g1 Hmin1 Hmax1 Hall1 Hlen1 Hg1.
  pattern_step H j2 g2 Hmin2 Hmax2 Hall2 Hlen2 Hg2.
  pattern_step H j3 g3 Hmin3 Hmax3 Hall3 Hlen3 Hg3.
  pattern_step H j4 g4 Hmin4 Hmax4 Hall4 Hlen4 Hg4.
  pattern_step H j5 g5 Hmin5 Hmax5 Hall5 Hlen5 Hg5.
  pattern_step H j6 g6 Hmin6 Hmax6 Hall6 Hlen6 Hg6.
  pattern_step H j7 g7 Hmin7 Hmax7 Hall7 Hlen7 Hg7.
  pattern_step H j8 g8 Hmin8 Hmax8 Hall8 Hlen8 Hg8.
  pattern_step H j9 g9 Hmin9 Hmax9 Hall9 Hlen9 Hg9.
  pattern_step H j10 g10 Hmin10 Hmax10 Hall10 Hlen10 Hg10.
  pattern_step H j11 g11 Hmin11 Hmax11 Hall11 Hlen11 Hg11.
  cbn in H. injection H as <-.
  subst g10 g9 g8 g7 g6 g5 g4 g3 g2 g1 groups.
  specialize (Hmax1 _ eq_refl). specialize (Hmax3 _ eq_refl).
  specialize (Hmax5 _ eq_refl). specialize (Hmax7 _ eq_refl).
  specialize (Hmax9 _ eq_refl).
  rewrite <- all_digits_all_in in Hall1, Hall3, Hall5, Hall7, Hall9.
  assert (Hfield : forall f, all_digits f = true -> (1 <= String.length f <= 2)%nat ->
                             one_or_two_digits f = true /\ 0 <= int_of_digits f < 100).
  { intros f Hd Hl. split.
    - unfold one_or_two_digits. rewrite Hd. cbn [andb].
      apply andb_true_iff. split; apply Nat.leb_le; lia.
    - pose proof (int_of_digits_bounds f Hd) as Hb.
      assert (10 ^ Z.of_nat (String.length f) <= 10 ^ 2)
        by (apply Z.pow_le_mono_r; lia).
      lia. }
  destruct (Hfield _ Hall3 ltac:(lia)) as [Hf3 Hb3].
  destruct (Hfield _ Hall5 ltac:(lia)) as [Hf5 Hb5].
  destruct (Hfield _ Hall7 ltac:(lia)) as [Hf7 Hb7].
  destruct (Hfield _ Hall9 ltac:(lia)) as [Hf9 Hb9].
  eexists _, _, _, _, _, _. split; [reflexivity |].
  repeat split; try assumption; try lia.
  - destruct (PyRe.take j11 _) as [|c rest]; [simpl in Hlen11; lia | reflexivity].
  - pose proof (int_of_digits_bounds _ Hall1) as Hb. lia.
  - pose proof (int_of_digits_bounds _ Hall1) as Hb.
    replace (String.length (PyRe.take j1 s)) with 4%nat in Hb by lia.
    change (10 ^ Z.of_nat 4) with 10000 in Hb. lia.
Qed.

(** X7. The parser only reads: it changes no file and no directory and
    makes no request.  It prints nothing when it returns a date, and
    exactly one diagnostic when it returns none. *)
Theorem X7_parser_effects (path : string) (w : world) :
  files (snd (get_obs_date_from_rinex path w)) = files w
  /\ dirs (snd (get_obs_date_from_rinex path w)) = dirs w
  /\ requests (snd (get_obs_date_from_rinex path w)) = requests w
  /\ (forall dt, fst (get_obs_date_from_rinex path w) = Some dt ->
                 output_since w (snd (get_obs_date_from_rinex path w)) = [])
  /\ (fst (get_obs_date_from_rinex path w) = None ->
      exists diagnostic,
        output_since w (snd (get_obs_date_from_rinex path w)) = [diagnostic]).
Proof.
  rewrite get_obs_date_from_rinex_run. cbn [fst snd].
  rewrite output_printed.
  split; [reflexivity | split; [reflexivity | split; [reflexivity | split]]].
  - intros dt.
    destruct (rover_scan w path) as [e | [d | l | | e]]; try discriminate. reflexivity.
  - destruct (rover_scan w path) as [e | [d | l | | e]]; try discriminate; intros _;
      try destruct e; cbn; eauto.
Qed.

(** ** The day of the year names the day *)

Lemma days_in_month_range (y mo : Z) :
  1 <= mo <= 12 -> 28 <= PyDatetime.days_in_month y mo <= 31.
Proof.
  intros Hmo. unfold PyDatetime.days_in_month.
  destruct (month_cases mo Hmo) as
    [-> | [-> | [-> | [-> | [-> | [-> | [-> | [-> | [-> | [-> | [-> | ->]]]]]]]]]]];
    destruct (PyDatetime.is_leap y); vm_compute; split; discriminate.
Qed.

Lemma days_before_month_succ (y mo : Z) :
  1 <= mo < 12 ->
  PyDatetime.days_before_month y (mo + 1)
  = PyDatetime.days_before_month y mo + PyDatetime.days_in_month y mo.
Proof.
  intros Hmo. unfold PyDatetime.days_before_month, PyDatetime.days_in_month.
  assert (Hcases : mo = 1 \/ mo = 2 \/ mo = 3 \/ mo = 4 \/ mo = 5 \/ mo = 6
                   \/ mo = 7 \/ mo = 8 \/ mo = 9 \/ mo = 10 \/ mo = 11) by lia.
  destruct Hcases as
    [-> | [-> | [-> | [-> | [-> | [-> | [-> | [-> | [-> | [-> | ->]]]]]]]]]];
    destruct (PyDatetime.is_leap y); vm_compute; reflexivity.
Qed.

Lemma days_before_later_month (y a : Z) (n : nat) :
  1 <= a -> a + Z.of_nat n + 1 <= 12 ->
  PyDatetime.days_before_month y a + PyDatetime.days_in_month y a
  <= PyDatetime.days_before_month y (a + Z.of_nat n + 1).
Proof.
  intros Ha. induction n as [|n IH]; intros Hb.
  - replace (a + Z.of_nat 0 + 1) with (a + 1) by lia.
    rewrite days_before_month_succ by lia. lia.
  - replace (a + Z.of_nat (S n) + 1) with ((a + Z.of_nat n + 1) + 1) by lia.
    rewrite days_before_month_succ by lia.
    pose proof (days_in_month_range y (a + Z.of_nat n + 1) ltac:(lia)).
    specialize (IH ltac:(lia)). lia.
Qed.

Lemma doy_of_earlier_month (y mo1 d1 mo2 d2 : Z) :
  1 <= mo1 -> mo1 < mo2 -> mo2 <= 12 ->
  d1 <= PyDatetime.days_in_month y mo1 -> 1 <= d2 ->
  PyDatetime.days_before_month y mo1 + d1 < PyDatetime.days_before_month y mo2 + d2.
Proof.
  intros H1 Hlt H12 Hd1 Hd2.
  pose proof (days_before_later_month y mo1 (Z.to_nat (mo2 - mo1 - 1)) H1 ltac:(lia)) as H.
  replace (mo1 + Z.of_nat (Z.to_nat (mo2 - mo1 - 1)) + 1) with mo2 in H by lia.
  lia.
Qed.

(** the rendering of the day of the year of a parsed timestamp reads back *)
Lemma parsed_doy_reads_back (path : string) (w : world) (dt : datetime) :
  fst (get_obs_date_from_rinex path w) = Some dt ->
  1 <= get_doy dt <= 366 /\ int_of_digits (doy_str_of dt) = get_doy dt.
Proof.
  intros Hparsed. apply parsed_timestamp_valid in Hparsed.
  destruct (make_fields _ _ _ _ _ _ _ _ Hparsed) as [_ Hvalid].
  destruct (valid_ranges _ _ _ _ _ _ _ Hvalid) as (Hy & Hmo & Hd & _).
  assert (Hdoy : 1 <= get_doy dt <= 366).
  { unfold get_doy, tm_yday.
    pose proof (days_in_month_bound (year dt) (month dt) Hmo). lia. }
  split; [exact Hdoy |]. now destruct (doy_rendering _ Hdoy) as (_ & _ & Hint).
Qed.

(** X8. Within one year the day of the year names the day: two timestamps
    the parser has returned, of the same year and with the same
    day-of-year string, have the same month and the same day.  The day of
    the year is 1 exactly on the first of January. *)
Theorem X8_doy_names_the_day (path1 path2 : string) (w1 w2 : world) (dt1 dt2 : datetime) :
  fst (get_obs_date_from_rinex path1 w1) = Some dt1 ->
  fst (get_obs_date_from_rinex path2 w2) = Some dt2 ->
  year dt1 = year dt2 ->
  doy_str_of dt1 = doy_str_of dt2 ->
  (month dt1 = month dt2 /\ day dt1 = day dt2)
  /\ (get_doy dt1 = 1 <-> month dt1 = 1 /\ day dt1 = 1).
Proof.
  intros Hp1 Hp2 Hyear Hstr.
  destruct (parsed_doy_reads_back _ _ _ Hp1) as (Hr1 & Hint1).
  destruct (parsed_doy_reads_back _ _ _ Hp2) as (Hr2 & Hint2).
  apply parsed_timestamp_valid in Hp1, Hp2.
  destruct (make_fields _ _ _ _ _ _ _ _ Hp1) as [_ Hv1].
  destruct (make_fields _ _ _ _ _ _ _ _ Hp2) as [_ Hv2].
  destruct (valid_ranges _ _ _ _ _ _ _ Hv1) as (_ & Hmo1 & Hd1 & _).
  destruct (valid_ranges _ _ _ _ _ _ _ Hv2) as (_ & Hmo2 & Hd2 & _).
  assert (Hdoy : get_doy dt1 = get_doy dt2) by (rewrite <- Hint1, <- Hint2; now rewrite Hstr).
  unfold get_doy, tm_yday in *. rewrite <- Hyear in *.
  split.
  - destruct (Z.lt_trichotomy (month dt1) (month dt2)) as [Hlt | [Heq | Hgt]].
    + pose proof (doy_of_earlier_month (year dt1) (month dt1) (day dt1) (month dt2) (day dt2)
                    ltac:(lia) Hlt ltac:(lia) ltac:(lia) ltac:(lia)). lia.
    + split; [exact Heq |]. rewrite Heq in Hdoy. lia.
    + pose proof (doy_of_earlier_month (year dt1) (month dt2) (day dt2) (month dt1) (day dt1)
                    ltac:(lia) Hgt ltac:(lia) ltac:(lia) ltac:(lia)). lia.
  - split.
    + intros Hone. destruct (Z.eq_dec (month dt1) 1) as [Hm | Hm].
      * rewrite Hm in *. change (PyDatetime.days_before_month (year dt1) 1)
          with (0 + (if (2 <? 1) && PyDatetime.is_leap (year dt1) then 1 else 0)) in Hone.
        cbn in Hone. lia.
      * pose proof (doy_of_earlier_month (year dt1) 1 1 (month dt1) (day dt1)
                      ltac:(lia) ltac:(lia) ltac:(lia)
                      ltac:(pose proof (days_in_month_range (year dt1) 1 ltac:(lia)); lia)
                      ltac:(lia)) as H.
        change (PyDatetime.days_before_month (year dt1) 1)
          with (0 + (if (2 <? 1) && PyDatetime.is_leap (year dt1) then 1 else 0)) in H.
        cbn in H. lia.
    + intros [-> ->]. reflexivity.
Qed.

(** ** The output directory, the requests and the local paths *)

Lemma os_mkdir_returns (name : string) (w w' : world) :
  os_mkdir name w = (Returned tt, w') -> is_dir w' name = true.
Proof.
  unfold os_mkdir. destruct (mkdir_error w name); [discriminate |].
  intros [= <-]. unfold is_dir. cbn [dirs set_dirs].
  apply bool_decide_eq_true. apply elem_of_union. left. now apply elem_of_singleton.
Qed.

(** when [os.makedirs] returns, the directory is there, unless its last
    component is [.] *)
Lemma makedirs_go_returns (fuel : nat) (name : string) (w w' : world) :
  makedirs_go fuel name w = (Returned tt, w') ->
  makedirs_tail name <> "." ->
  is_dir w' name = true.
Proof.
  unfold makedirs_tail.
  destruct fuel as [|fuel]; cbn [makedirs_go];
    destruct (OsPath.split name) as [head0 tail0];
    destruct (if String.eqb tail0 EmptyString then OsPath.split head0 else (head0, tail0))
      as [head tail];
    rewrite run_bind_lift; unfold os_path_exists; cbn [fst snd];
    destruct (negb (String.eqb head EmptyString) && negb (String.eqb tail EmptyString)
              && negb (path_exists w head));
    try (intros H _; exact (os_mkdir_returns _ _ _ H)).
  rewrite run_bind_run.
  destruct (ignoring_file_exists (makedirs_go fuel head) w) as [[[] | e] w1];
    cbn [fst snd]; [| discriminate].
  intros H Htail. destruct (String.eqb tail ".") eqn:Hdot.
  - apply String.eqb_eq in Hdot. contradiction.
  - exact (os_mkdir_returns _ _ _ H).
Qed.

Section RunFacts.
Variable http : nat -> string -> http_outcome.
Variable gunzip : string -> gunzip_result.

Lemma dirs_parse_and_run args w :
  dirs (parse_and_run_world http gunzip args w) = dirs w.
Proof. apply (same_system_parse_and_run http gunzip args w). Qed.

(** X9. Every run makes sure the output directory is there before it
    reads the rover file, and removes no directory.  When the path exists
    the set of directories is not changed.  When it does not exist,
    [os.makedirs] is called: if it returns, the first line printed says
    that the directory has been created, even if the parser then fails,
    and the path exists when the run ends (unless its last component is
    [.]); if it raises, the run ends there with that exception, having
    printed nothing, asked for nothing and written nothing.  It raises
    [FileNotFoundError] when the output directory is the empty string. *)
Theorem X9_output_directory (args : arguments) (w0 : world) :
  dirs w0 ⊆ dirs (snd (main http gunzip args w0))
  /\ (path_exists w0 (output_dir args) = true ->
      dirs (snd (main http gunzip args w0)) = dirs w0)
  /\ (path_exists w0 (output_dir args) = false ->
      forall w, prepare args w0 = (Returned tt, w) ->
      (exists later,
          output_since w0 (snd (main http gunzip args w0))
          = MsgCreatedOutputDir (output_dir args) :: later)
      /\ (makedirs_tail (output_dir args) <> "." ->
          path_exists (snd (main http gunzip args w0)) (output_dir args) = true))
  /\ (forall e w, prepare args w0 = (Raises e, w) ->
      fst (main http gunzip args w0) = Raises e
      /\ output_since w0 (snd (main http gunzip args w0)) = []
      /\ requests (snd (main http gunzip args w0)) = requests w0
      /\ files (snd (main http gunzip args w0)) = files w0)
  /\ (output_dir args = EmptyString -> path_exists w0 EmptyString = false ->
      main http gunzip args w0 = (Raises FileNotFoundError, w0)).
Proof.
  split; [| split; [| split; [| split]]].
  - destruct (main_cases http gunzip args w0) as [(w & Hprep & ->) | (e & w & Hprep & ->)];
      cbn [snd]; rewrite ?dirs_parse_and_run; exact (prepare_dirs _ _ _ _ Hprep).
  - intros Hthere.
    destruct (prepare_cases args w0) as [[_ H] | (Hnew & _)]; [| congruence].
    rewrite (main_prepared _ _ _ _ _ H), parse_and_run_eq. cbn [snd].
    apply dirs_parse_and_run.
  - intros Hnew w Hprep.
    rewrite (main_prepared _ _ _ _ _ Hprep), parse_and_run_eq. cbn [snd].
    split.
    + exists (output_since w (parse_and_run_world http gunzip args w)).
      destruct (prepare_effects _ _ _ _ Hprep) as (Hgrows & _ & _ & Hout).
      rewrite (output_since_trans w0 w) by (exact Hgrows || apply grows_parse_and_run).
      destruct Hout as [Hout | (_ & _ & Hout)]; [| now rewrite Hout].
      exfalso. revert Hprep Hout. unfold prepare.
      rewrite run_bind_lift. unfold os_path_exists. cbn [fst snd]. rewrite Hnew.
      cbn [negb when]. rewrite run_bind_run.
      pose proof (makedirs_go_made (String.length (output_dir args)) (output_dir args) w0)
        as (_ & _ & _ & _ & _ & Hstd & _).
      fold (os_makedirs (output_dir args)) in Hstd.
      destruct (os_makedirs (output_dir args) w0) as [[[] | e] wm]; cbn [fst snd] in *;
        [| discriminate].
      rewrite lift_run, print_run. cbn [fst snd]. intros [= <-].
      unfold output_since. cbn [stdout printed]. rewrite Hstd, drop_app_length.
      discriminate.
    + intros Htail. unfold path_exists. apply orb_true_iff. right.
      rewrite (is_dir_same _ _ _ (same_system_parse_and_run http gunzip args w)).
      revert Hprep. unfold prepare.
      rewrite run_bind_lift. unfold os_path_exists. cbn [fst snd]. rewrite Hnew.
      cbn [negb when]. rewrite run_bind_run.
      destruct (os_makedirs (output_dir args) w0) as [[[] | e] wm] eqn:Hmk; cbn [fst snd];
        [| discriminate].
      rewrite lift_run, print_run. cbn [fst snd]. intros [= <-].
      change (is_dir (printed [MsgCreatedOutputDir (output_dir args)] wm) (output_dir args))
        with (is_dir wm (output_dir args)).
      exact (makedirs_go_returns _ _ _ _ Hmk Htail).
  - intros e w Hprep. rewrite (main_not_prepared _ _ _ _ _ _ Hprep). cbn [fst snd].
    destruct (prepare_effects _ _ _ _ Hprep) as (_ & Hfiles & Hreq & Hout).
    split; [reflexivity |]. split; [| split; assumption].
    destruct Hout as [Hout | (Hret & _)]; [exact Hout | discriminate Hret].
  - intros Hdir Hnew. apply main_not_prepared. unfold prepare. rewrite Hdir.
    rewrite run_bind_lift. unfold os_path_exists. cbn [fst snd]. rewrite Hnew.
    reflexivity.
Qed.
End RunFacts.

Section Requests.
Variable http : nat -> string -> http_outcome.
Variable gunzip : string -> gunzip_result.

(** X10. Take a run whose output directory is there or has been made,
    whose parser returns a date and whose archives can be opened for
    writing.  When the fetch of the DLR navigation file succeeds there is
    no fallback: the requests of the run are the observation file and the
    DLR file, in this order, whether the observation fetch succeeded or
    not.  No run asks for the observation file twice. *)
Theorem X10_no_fallback_after_success (args : arguments) (w0 w : world) (dt : datetime) :
  prepare args w0 = (Returned tt, w) ->
  fst (get_obs_date_from_rinex (rinex_rover_file args) w) = Some dt ->
  archives_can_open args dt w = true ->
  fails (http (S (length (requests w0))) (nav_url (year dt) (doy_str_of dt))) = false ->
  requests_since w0 (snd (main http gunzip args w0))
  = [ obs_url (names_of args dt); nav_url (year dt) (doy_str_of dt) ].
Proof.
  intros Hprep Hdt Hopen Hdlr. rewrite parser_result in Hdt.
  rewrite (requests_main_with_date _ _ _ _ _ _ Hprep Hdt Hopen). now rewrite Hdlr.
Qed.
End Requests.

(** ** Where the files are written *)

Lemma join_relative (d b : string) :
  PyStr.startswith b "/" = false ->
  exists sep, (sep = EmptyString \/ sep = "/") /\ OsPath.join d b = d +:+ sep +:+ b.
Proof.
  intros Hb. unfold OsPath.join. rewrite Hb.
  destruct (String.eqb d EmptyString || PyStr.endswith d "/").
  - exists EmptyString. split; [now left | reflexivity].
  - exists "/". split; [now right | reflexivity].
Qed.

Lemma lower_char_slash (c : ascii) :
  PyStr.lower_char c = "/"%char -> c = "/"%char.
Proof.
  destruct c as [[] [] [] [] [] [] [] []]; vm_compute; intros H;
    first [reflexivity | discriminate H].
Qed.

Lemma startswith_slash_cons (c : ascii) (s : string) :
  PyStr.startswith (String c s) "/" = Ascii.eqb c "/"%char.
Proof. destruct s; destruct c as [[] [] [] [] [] [] [] []]; vm_compute; reflexivity. Qed.

Lemma startswith_slash_lower (c : ascii) (rest tail : string) :
  PyStr.startswith (PyStr.lower (String c rest) +:+ tail) "/" = Ascii.eqb c "/"%char.
Proof.
  cbn [PyStr.lower]. rewrite append_cons, startswith_slash_cons.
  destruct (Ascii.eqb c "/"%char) eqn:Hc.
  - apply Ascii.eqb_eq in Hc. subst c. reflexivity.
  - apply Ascii.eqb_neq. intros H. apply lower_char_slash in H.
    apply Ascii.eqb_neq in Hc. contradiction.
Qed.

(** X14. The navigation files are always written in the output directory:
    their local paths are the directory, a separator when the directory
    does not end with one, and the file name.  So is the observation file
    when the station identifier starts with a character other than a
    slash.  When the identifier starts with a slash, with version "3" or
    "2", the output directory is ignored: the local path is the file name
    itself, an absolute path. *)
Theorem X14_local_paths (args : arguments) (dt : datetime) :
  (forall agency,
      exists sep,
        (sep = EmptyString \/ sep = "/")
        /\ nav_dl_path_gz_for args dt agency
           = output_dir args +:+ sep
               +:+ nav_filename_rnx_gz_for (year dt) (doy_str_of dt) agency)
  /\ (forall c rest,
        station_id args = String c rest -> c <> "/"%char ->
        exists sep,
          (sep = EmptyString \/ sep = "/")
          /\ obs_dl_path_gz args dt
             = output_dir args +:+ sep +:+ obs_filename_gz (names_of args dt))
  /\ (forall rest,
        station_id args = String "/"%char rest ->
        rinex_obs_version args = "3" \/ rinex_obs_version args = "2" ->
        obs_dl_path_gz args dt = obs_filename_gz (names_of args dt)
        /\ obs_dl_path_final args dt = obs_final_filename (names_of args dt)
        /\ PyStr.startswith (obs_dl_path_gz args dt) "/" = true).
Proof.
  split; [| split].
  - intros agency. apply join_relative. reflexivity.
  - intros c rest Hst Hc. apply join_relative.
    unfold names_of, build_obs, station_id_lower_of. rewrite Hst.
    apply Ascii.eqb_neq in Hc.
    destruct (String.eqb (rinex_obs_version args) "3"); cbn [obs_filename_gz].
    + unfold obs_filename_crx_gz, obs_filename_stem_3.
      now rewrite append_assoc, startswith_slash_lower.
    + destruct (String.eqb (rinex_obs_version args) "2"); cbn [obs_filename_gz];
        [| reflexivity].
      unfold obs_filename_211_gz, obs_filename_stem_2.
      now rewrite append_assoc, startswith_slash_lower.
  - intros rest Hst Hv.
    assert (Hgz : PyStr.startswith (obs_filename_gz (names_of args dt)) "/" = true
                  /\ PyStr.startswith (obs_final_filename (names_of args dt)) "/" = true).
    { unfold names_of, build_obs, station_id_lower_of. rewrite Hst.
      destruct Hv as [-> | ->]; cbn [String.eqb Ascii.eqb Bool.eqb obs_filename_gz obs_final_filename].
      - unfold obs_filename_crx_gz, obs_filename_stem_3.
        split; [rewrite append_assoc | rewrite append_assoc]; now rewrite startswith_slash_lower.
      - unfold obs_filename_211_gz, obs_filename_stem_2.
        split; [rewrite append_assoc |]; now rewrite startswith_slash_lower. }
    destruct Hgz as [Hgz Hfinal].
    unfold obs_dl_path_gz, obs_dl_path_final, OsPath.join. rewrite Hgz, Hfinal.
    repeat split. exact Hgz.
Qed.
(** ** The station identifier, whatever its case *)

Lemma lower_char_idempotent (c : ascii) :
  PyStr.lower_char (PyStr.lower_char c) = PyStr.lower_char c.
Proof. destruct c as [[] [] [] [] [] [] [] []]; vm_compute; reflexivity. Qed.

Lemma lower_idempotent (s : string) : PyStr.lower (PyStr.lower s) = PyStr.lower s.
Proof.
  induction s as [|c s IH]; [reflexivity |].
  cbn [PyStr.lower]. now rewrite lower_char_idempotent, IH.
Qed.

(** X15. The station identifier counts only through its lowercase form:
    two identifiers with the same lowercase form, such as an identifier and
    its uppercase or lowercase form, give the same run, with the same
    requests, the same files and the same output. *)
Theorem X15_station_case (http : nat -> string -> http_outcome)
    (gunzip : string -> gunzip_result) (rover station1 station2 dir version : string)
    (w : world) :
  PyStr.lower station1 = PyStr.lower station2 ->
  main http gunzip
    {| rinex_rover_file := rover; station_id := station1; output_dir := dir;
       rinex_obs_version := version |} w
  = main http gunzip
      {| rinex_rover_file := rover; station_id := station2; output_dir := dir;
         rinex_obs_version := version |} w.
Proof.
  intros Hlower. unfold main. rewrite !run_bind_run.
  change (prepare {| rinex_rover_file := rover; station_id := station2; output_dir := dir;
                     rinex_obs_version := version |} w)
    with (prepare {| rinex_rover_file := rover; station_id := station1; output_dir := dir;
                     rinex_obs_version := version |} w).
  destruct (prepare _ w) as [[[] | e] w1]; cbn [fst snd]; [| reflexivity].
  rewrite !parse_and_run_eq. f_equal.
  - unfold parse_and_run_returns, parsed_world, run_from_date_returns, nav_stage_returns,
      obs_stage_returns, obs_stage_world, announced, fetch_nav_returns, fetch_obs_returns,
      fetch_obs_world, obs_dl_path_gz, obs_dl_path_final, nav_dl_path_gz_for,
      nav_dl_path_final_for, names_of, station_id_lower_of.
    cbn [rinex_rover_file station_id output_dir rinex_obs_version].
    now rewrite Hlower.
  - unfold parse_and_run_world, parsed_world, run_from_date_world, nav_stage_world,
      nav_stage_returns, obs_stage_returns, obs_stage_world, announced, fetch_nav_world,
      fetch_nav_returns, fetch_obs_returns, fetch_obs_world, summary_world, summary_lines,
      obs_dl_path_gz, obs_dl_path_final, nav_dl_path_gz_for, nav_dl_path_final_for,
      names_of, station_id_lower_of.
    cbn [rinex_rover_file station_id output_dir rinex_obs_version].
    now rewrite Hlower.
Qed.

(** ** Following a path through the stages *)

Lemma endswith_conflict (s a b : string) :
  String.length a = String.length b -> a <> b ->
  PyStr.endswith s a = true -> PyStr.endswith s b = true -> False.
Proof.
  unfold PyStr.endswith. intros Hlen Hne Ha Hb.
  apply andb_true_iff in Ha as [_ Ha]. apply andb_true_iff in Hb as [_ Hb].
  rewrite Hlen in Ha. apply String.eqb_eq in Ha, Hb. congruence.
Qed.

Lemma endswith_join (d name suffix : string) :
  PyStr.endswith (OsPath.join d (name +:+ suffix)) suffix = true.
Proof.
  unfold OsPath.join.
  destruct (PyStr.startswith (name +:+ suffix) "/"); [apply endswith_append |].
  destruct (String.eqb d EmptyString || PyStr.endswith d "/").
  - rewrite <- append_assoc. apply endswith_append.
  - rewrite <- !append_assoc. apply endswith_append.
Qed.

Lemma last_char_obs_final args dt :
  rinex_obs_version args = "3" \/ rinex_obs_version args = "2" ->
  last_char (obs_dl_path_final args dt) = Some "x"%char
  \/ last_char (obs_dl_path_final args dt) = Some "d"%char.
Proof.
  intros [Hv | Hv]; unfold obs_dl_path_final, names_of; rewrite Hv;
    unfold build_obs; cbn [String.eqb Ascii.eqb Bool.eqb obs_final_filename].
  - left. rewrite last_char_join by (apply append_not_nil_r; discriminate).
    now rewrite last_char_append by discriminate.
  - right. unfold obs_filename_stem_2.
    rewrite last_char_join by (rewrite <- !append_assoc; apply append_not_nil_r; discriminate).
    rewrite <- !append_assoc. now rewrite last_char_append by discriminate.
Qed.

Lemma obs_final_not_nav_gz args dt agency :
  rinex_obs_version args = "3" \/ rinex_obs_version args = "2" ->
  obs_dl_path_final args dt <> nav_dl_path_gz_for args dt agency.
Proof.
  intros Hv Heq. apply (f_equal last_char) in Heq. rewrite last_char_nav_gz in Heq.
  destruct (last_char_obs_final args dt Hv) as [H | H]; rewrite H in Heq; discriminate Heq.
Qed.

Lemma obs_final_not_obs_gz_v3 args dt :
  rinex_obs_version args = "3" ->
  obs_dl_path_final args dt <> obs_dl_path_gz args dt.
Proof.
  intros Hv Heq. apply (f_equal last_char) in Heq. revert Heq.
  unfold obs_dl_path_final, obs_dl_path_gz, names_of. rewrite Hv.
  unfold build_obs. cbn [String.eqb Ascii.eqb Bool.eqb obs_final_filename obs_filename_gz].
  unfold obs_filename_crx_gz.
  rewrite !last_char_join by (apply append_not_nil_r; discriminate).
  rewrite !last_char_append by discriminate. discriminate.
Qed.

Lemma obs_final_not_nav_final_v3 args dt agency :
  rinex_obs_version args = "3" ->
  obs_dl_path_final args dt <> nav_dl_path_final_for args dt agency.
Proof.
  intros Hv Heq.
  apply (endswith_conflict (obs_dl_path_final args dt) ".crx" ".rnx");
    [reflexivity | discriminate | |].
  - unfold obs_dl_path_final, names_of. rewrite Hv. unfold build_obs.
    cbn [String.eqb Ascii.eqb Bool.eqb obs_final_filename]. apply endswith_join.
  - rewrite Heq. unfold nav_dl_path_final_for. apply endswith_join.
Qed.

Lemma nav_final_not_nav_gz args dt agency agency' :
  nav_dl_path_final_for args dt agency <> nav_dl_path_gz_for args dt agency'.
Proof.
  intros Heq. apply (f_equal last_char) in Heq. rewrite last_char_nav_gz in Heq.
  unfold nav_dl_path_final_for in Heq.
  rewrite last_char_join in Heq by (apply append_not_nil_r; discriminate).
  rewrite last_char_append in Heq by discriminate. discriminate Heq.
Qed.

Lemma path_exists_file (w : world) (p content : string) :
  files w !! p = Some content -> path_exists w p = true.
Proof.
  intros H. unfold path_exists, is_file. apply orb_true_iff. left.
  apply bool_decide_eq_true. eauto.
Qed.

Lemma can_open_not_dir (w : world) (p : string) :
  can_open w p = true -> is_dir w p = false.
Proof.
  unfold can_open. intros H.
  apply andb_true_iff in H as [H _]. apply andb_true_iff in H as [_ H].
  now apply negb_true_iff in H.
Qed.

(** the decompressor on an archive that is there, when the output opens *)
Lemma inflate_case_ready (gunzip : string -> gunzip_result) (w : world)
    (gz out body : string) :
  is_dir w gz = false -> files w !! gz = Some body -> gz ∉ unreadable w ->
  can_open w out = true -> out <> gz ->
  inflate_case_of gunzip w gz out
  = match gunzip body with
    | Corrupt written => ArchiveCorrupt written
    | Inflated data =>
        if bool_decide (gz ∈ unremovable w) then ArchiveKept data else ArchiveInflated data
    end.
Proof.
  intros Hdir Hfile Hread Hopen Hne. unfold inflate_case_of.
  rewrite Hdir, Hfile, bool_decide_eq_false_2 by exact Hread.
  apply can_open_error in Hopen. rewrite Hopen.
  rewrite lookup_insert_ne, Hfile by exact Hne. reflexivity.
Qed.

Section Tracking.
Variable http : nat -> string -> http_outcome.
Variable gunzip : string -> gunzip_result.

Lemma exists_more_files (w w' : world) (p : string) :
  dirs w ⊆ dirs w' ->
  (is_Some (files w !! p) -> is_Some (files w' !! p)) ->
  path_exists w p = true -> path_exists w' p = true.
Proof.
  unfold path_exists, is_file, is_dir. intros Hdirs Hfiles H.
  apply orb_true_iff in H as [H | H]; apply orb_true_iff; [left | right];
    apply bool_decide_eq_true in H; apply bool_decide_eq_true; auto.
Qed.

Lemma exists_downloaded url path w p :
  path_exists w p = true -> path_exists (downloaded http url path w) p = true.
Proof.
  apply exists_more_files; [reflexivity |]. cbn [files downloaded].
  unfold download_files. intros Hp.
  destruct (next_answer http w url) as [e | status chunks broken]; [exact Hp |].
  destruct (is_error_status status); [exact Hp |].
  destruct (open_error w path); [exact Hp |].
  destruct (decide (path = p)) as [-> | Hne].
  - rewrite lookup_insert_eq. eauto.
  - now rewrite lookup_insert_ne.
Qed.

Lemma exists_inflated gz out w p :
  p <> gz -> path_exists w p = true -> path_exists (inflated gunzip gz out w) p = true.
Proof.
  intros Hgz. apply exists_more_files; [reflexivity |]. cbn [files inflated].
  intros Hp. destruct (inflate_case_of gunzip w gz out); cbn; try exact Hp;
    rewrite ?lookup_delete_ne by (now apply not_eq_sym);
    (destruct (decide (out = p)) as [-> | Hne];
     [rewrite lookup_insert_eq; eauto | now rewrite lookup_insert_ne]).
Qed.

Lemma exists_fetch_nav args dt w p :
  p <> nav_dl_path_gz_for args dt "DLR" -> p <> nav_dl_path_gz_for args dt "GDE" ->
  path_exists w p = true -> path_exists (fetch_nav_world http gunzip args dt w) p = true.
Proof.
  intros Hdlr Hgde Hp. unfold fetch_nav_world.
  repeat match goal with
         | |- context [match ?r with Returned _ => _ | Raises _ => _ end] =>
             destruct r as [[|] | ?]
         end;
    repeat first [ assumption
                 | rewrite path_exists_printed
                 | apply exists_downloaded
                 | apply exists_inflated; [assumption |] ].
Qed.

Lemma files_downloaded_other url path w p :
  p <> path -> files (downloaded http url path w) !! p = files w !! p.
Proof.
  intros Hne. cbn [files downloaded]. unfold download_files.
  destruct (next_answer http w url) as [e | status chunks broken]; [reflexivity |].
  destruct (is_error_status status); [reflexivity |].
  destruct (open_error w path); [reflexivity |].
  now rewrite lookup_insert_ne by now apply not_eq_sym.
Qed.

Lemma files_inflated_other gz out w p :
  p <> gz -> p <> out -> files (inflated gunzip gz out w) !! p = files w !! p.
Proof.
  intros Hgz Hout. cbn [files inflated].
  destruct (inflate_case_of gunzip w gz out); cbn;
    rewrite ?lookup_delete_ne, ?lookup_insert_ne by (now apply not_eq_sym); reflexivity.
Qed.

Lemma files_fetch_nav_other args dt w p :
  p <> nav_dl_path_gz_for args dt "DLR" -> p <> nav_dl_path_gz_for args dt "GDE" ->
  p <> nav_dl_path_final_for args dt "DLR" -> p <> nav_dl_path_final_for args dt "GDE" ->
  files (fetch_nav_world http gunzip args dt w) !! p = files w !! p.
Proof.
  intros Hdlr Hgde Hfd Hfg. unfold fetch_nav_world.
  repeat match goal with
         | |- context [match ?r with Returned _ => _ | Raises _ => _ end] =>
             destruct r as [[|] | ?]
         end;
    repeat first [ rewrite files_inflated_other by assumption
                 | rewrite files_downloaded_other by assumption
                 | progress cbn [files printed] ];
    reflexivity.
Qed.

(** the summary shows the base observation path whenever that path exists
    when the observation stage ends *)
Lemma base_obs_shown args w0 w dt :
  prepare args w0 = (Returned tt, w) ->
  parsed_date (rover_scan w (rinex_rover_file args)) = Some dt ->
  archives_can_open args dt w = true ->
  rinex_obs_version args = "3" \/ rinex_obs_version args = "2" ->
  path_exists (obs_stage_world http gunzip args dt w) (obs_dl_path_final args dt) = true ->
  MsgBaseObs (obs_dl_path_final args dt) ∈ output_since w0 (snd (main http gunzip args w0)).
Proof.
  intros Hprep Hdt Hopen Hv Hthere.
  rewrite (output_main_with_date _ _ _ _ _ _ Hprep Hdt),
    (output_run_from_date _ _ _ _ _ Hopen).
  assert (Hend : path_exists (nav_stage_world http gunzip args dt w)
                   (obs_dl_path_final args dt) = true).
  { unfold nav_stage_world. apply exists_fetch_nav; try assumption;
      now apply obs_final_not_nav_gz. }
  unfold shown at 1. rewrite Hend.
  rewrite !elem_of_app. do 4 right. unfold summary_lines.
  do 4 apply list_elem_of_further. apply list_elem_of_here.
Qed.

Lemma fails_complete (status : Z) (chunks : list string) :
  status < 400 \/ 600 <= status -> fails (Response status chunks None) = false.
Proof.
  intros Hs. unfold fails. apply orb_false_iff. split; [| reflexivity].
  apply andb_false_iff. destruct Hs; [left; apply Z.leb_gt | right; apply Z.ltb_ge]; lia.
Qed.

Lemma not_error_status (status : Z) :
  status < 400 \/ 600 <= status -> is_error_status status = false.
Proof.
  intros Hs. unfold is_error_status.
  apply andb_false_iff. destruct Hs; [left; apply Z.leb_gt | right; apply Z.ltb_ge]; lia.
Qed.

(** the files after a download whose body has arrived whole *)
Lemma files_downloaded_complete url path w status chunks :
  next_answer http w url = Response status chunks None ->
  status < 400 \/ 600 <= status ->
  can_open w path = true ->
  files (downloaded http url path w) = <[path := join_chunks chunks]> (files w).
Proof.
  intros Hanswer Hs Hopen. cbn [files downloaded]. rewrite Hanswer. unfold download_files.
  apply can_open_error in Hopen. now rewrite (not_error_status _ Hs), Hopen.
Qed.

(** the world after the observation stage of version "3" when the download
    has succeeded *)
Lemma obs_stage_v3_downloaded args w dt status chunks :
  rinex_obs_version args = "3" ->
  can_open w (obs_dl_path_gz args dt) = true ->
  http (length (requests w)) (obs_url (names_of args dt)) = Response status chunks None ->
  status < 400 \/ 600 <= status ->
  obs_stage_world http gunzip args dt w
  = inflated gunzip (obs_dl_path_gz args dt) (obs_dl_path_final args dt)
      (downloaded http (obs_url (names_of args dt)) (obs_dl_path_gz args dt)
         (announced args dt w))
  /\ files (downloaded http (obs_url (names_of args dt)) (obs_dl_path_gz args dt)
             (announced args dt w))
     = <[obs_dl_path_gz args dt := join_chunks chunks]> (files w).
Proof.
  intros Hv Hopen Hanswer Hs.
  assert (Hnext : next_answer http (announced args dt w) (obs_url (names_of args dt))
                  = Response status chunks None) by exact Hanswer.
  split.
  - rewrite (obs_stage_world_open _ _ _ _ _ Hopen). cbv zeta.
    rewrite Hnext, (fails_complete _ _ Hs), Hv. cbn [String.eqb Ascii.eqb Bool.eqb andb].
    assert (Hends : PyStr.endswith (obs_filename_gz (names_of args dt)) ".crx.gz" = true).
    { unfold names_of. rewrite Hv. unfold build_obs.
      cbn [String.eqb Ascii.eqb Bool.eqb obs_filename_gz]. apply endswith_append. }
    now rewrite Hends.
  - rewrite (files_downloaded_complete _ _ _ _ _ Hnext Hs); [reflexivity |].
    now rewrite (can_open_same _ _ _ (same_system_announced args dt w)).
Qed.

(** the decompressor on the observation archive that has just been
    downloaded *)
Lemma obs_archive_case args w dt status chunks :
  rinex_obs_version args = "3" ->
  can_open w (obs_dl_path_gz args dt) = true ->
  can_open w (obs_dl_path_final args dt) = true ->
  http (length (requests w)) (obs_url (names_of args dt)) = Response status chunks None ->
  status < 400 \/ 600 <= status ->
  obs_dl_path_gz args dt ∉ unreadable w ->
  inflate_case_of gunzip
    (downloaded http (obs_url (names_of args dt)) (obs_dl_path_gz args dt)
       (announced args dt w))
    (obs_dl_path_gz args dt) (obs_dl_path_final args dt)
  = match gunzip (join_chunks chunks) with
    | Corrupt written => ArchiveCorrupt written
    | Inflated data =>
        if bool_decide (obs_dl_path_gz args dt ∈ unremovable w) then ArchiveKept data
        else ArchiveInflated data
    end.
Proof.
  intros Hv Hgz Hfinal Hanswer Hs Hread.
  destruct (obs_stage_v3_downloaded args w dt status chunks Hv Hgz Hanswer Hs) as [_ Hfiles].
  pose proof (same_system_trans _ _ _ (same_system_announced args dt w)
                (same_system_downloaded http (obs_url (names_of args dt))
                   (obs_dl_path_gz args dt) (announced args dt w))) as Hsame.
  rewrite (inflate_case_ready gunzip _ _ _ (join_chunks chunks)).
  - destruct Hsame as (_ & _ & _ & Hrm & _). now rewrite Hrm.
  - rewrite (is_dir_same _ _ _ Hsame). now apply can_open_not_dir.
  - rewrite Hfiles. apply lookup_insert_eq.
  - destruct Hsame as (_ & Hun & _). now rewrite Hun.
  - now rewrite (can_open_same _ _ _ Hsame).
  - now apply obs_final_not_obs_gz_v3.
Qed.
End Tracking.

(** ** Whole runs *)
Section WholeRuns.
Variable http : nat -> string -> http_outcome.
Variable gunzip : string -> gunzip_result.

(** X11. The observation file of version "3", from the network to the
    summary.  Take a run whose output directory is there or has been made,
    whose parser returns a date, whose archives can be opened for writing,
    and in which the final observation file opens for writing and the
    system lets the archive be read and removed.  When the server answers
    the observation request with a whole body that is a gzip archive, the
    run ends with the inflated content in the final observation file, and
    the summary shows that path. *)
Theorem X11_observation_pipeline (args : arguments) (w0 w : world) (dt : datetime)
    (status : Z) (chunks : list string) (data : string) :
  rinex_obs_version args = "3" ->
  prepare args w0 = (Returned tt, w) ->
  fst (get_obs_date_from_rinex (rinex_rover_file args) w) = Some dt ->
  archives_can_open args dt w = true ->
  can_open w (obs_dl_path_final args dt) = true ->
  http (length (requests w0)) (obs_url (names_of args dt)) = Response status chunks None ->
  status < 400 \/ 600 <= status ->
  gunzip (join_chunks chunks) = Inflated data ->
  obs_dl_path_gz args dt ∉ unreadable w ->
  obs_dl_path_gz args dt ∉ unremovable w ->
  files (snd (main http gunzip args w0)) !! obs_dl_path_final args dt = Some data
  /\ MsgBaseObs (obs_dl_path_final args dt) ∈ output_since w0 (snd (main http gunzip args w0)).
Proof.
  intros Hv Hprep Hdt Hopen Hfinal Hanswer Hs Hcodec Hread Hrem.
  rewrite parser_result in Hdt.
  destruct (prepare_effects _ _ _ _ Hprep) as (_ & _ & Hreq & _). rewrite <- Hreq in Hanswer.
  pose proof (archives_can_open_split _ _ _ Hopen) as (Hgz & _ & _).
  destruct (obs_stage_v3_downloaded http gunzip args w dt status chunks Hv Hgz Hanswer Hs)
    as [Hstage Hfiles].
  pose proof (obs_final_not_obs_gz_v3 args dt Hv) as Hne.
  assert (Hobs : files (obs_stage_world http gunzip args dt w)
                   !! obs_dl_path_final args dt = Some data).
  { rewrite Hstage. cbn [files inflated].
    rewrite (obs_archive_case http gunzip args w dt status chunks Hv Hgz Hfinal Hanswer Hs Hread).
    rewrite Hcodec, bool_decide_eq_false_2 by exact Hrem. cbn [inflate_files].
    rewrite lookup_delete_ne by (now apply not_eq_sym). apply lookup_insert_eq. }
  split.
  - rewrite (main_with_date _ _ _ _ _ _ Hprep Hdt). cbn [snd].
    rewrite (run_from_date_world_open _ _ _ _ _ Hopen).
    unfold summary_world. cbn [files printed].
    unfold nav_stage_world. rewrite files_fetch_nav_other; [exact Hobs | | | |];
      first [ apply obs_final_not_nav_gz; now left
            | now apply obs_final_not_nav_final_v3 ].
  - apply (base_obs_shown http gunzip args w0 w dt Hprep Hdt Hopen); [now left |].
    exact (path_exists_file _ _ _ Hobs).
Qed.

(** X12. A body that is not a gzip archive, in a run as in X11: the
    download of the observation file of version "3" succeeds, the
    decompressor fails, and the summary still shows the final observation
    path, because the decompressor has created that file before it failed;
    the file holds what was written until then. *)
Theorem X12_corrupt_archive_is_reported_present (args : arguments) (w0 w : world)
    (dt : datetime) (status : Z) (chunks : list string) (written : string) :
  rinex_obs_version args = "3" ->
  prepare args w0 = (Returned tt, w) ->
  fst (get_obs_date_from_rinex (rinex_rover_file args) w) = Some dt ->
  archives_can_open args dt w = true ->
  can_open w (obs_dl_path_final args dt) = true ->
  http (length (requests w0)) (obs_url (names_of args dt)) = Response status chunks None ->
  status < 400 \/ 600 <= status ->
  gunzip (join_chunks chunks) = Corrupt written ->
  obs_dl_path_gz args dt ∉ unreadable w ->
  files (snd (main http gunzip args w0)) !! obs_dl_path_final args dt = Some written
  /\ MsgDecompressError (obs_dl_path_gz args dt) BadGzipFile
       ∈ output_since w0 (snd (main http gunzip args w0))
  /\ MsgBaseObs (obs_dl_path_final args dt) ∈ output_since w0 (snd (main http gunzip args w0)).
Proof.
  intros Hv Hprep Hdt Hopen Hfinal Hanswer Hs Hcodec Hread.
  rewrite parser_result in Hdt.
  destruct (prepare_effects _ _ _ _ Hprep) as (_ & _ & Hreq & _). rewrite <- Hreq in Hanswer.
  pose proof (archives_can_open_split _ _ _ Hopen) as (Hgz & _ & _).
  destruct (obs_stage_v3_downloaded http gunzip args w dt status chunks Hv Hgz Hanswer Hs)
    as [Hstage Hfiles].
  pose proof (obs_final_not_obs_gz_v3 args dt Hv) as Hne.
  pose proof (obs_archive_case http gunzip args w dt status chunks Hv Hgz Hfinal Hanswer Hs Hread)
    as Hcase.
  rewrite Hcodec in Hcase.
  assert (Hobs : files (obs_stage_world http gunzip args dt w)
                   !! obs_dl_path_final args dt = Some written).
  { rewrite Hstage. cbn [files inflated]. rewrite Hcase. cbn [inflate_files].
    apply lookup_insert_eq. }
  split; [| split].
  - rewrite (main_with_date _ _ _ _ _ _ Hprep Hdt). cbn [snd].
    rewrite (run_from_date_world_open _ _ _ _ _ Hopen).
    unfold summary_world. cbn [files printed].
    unfold nav_stage_world. rewrite files_fetch_nav_other; [exact Hobs | | | |];
      first [ apply obs_final_not_nav_gz; now left
            | now apply obs_final_not_nav_final_v3 ].
  - rewrite (output_main_with_date _ _ _ _ _ _ Hprep Hdt),
      (output_run_from_date _ _ _ _ _ Hopen).
    rewrite !elem_of_app. right. right. left.
    rewrite Hstage.
    rewrite (output_since_trans _ (downloaded http (obs_url (names_of args dt))
                                     (obs_dl_path_gz args dt) (announced args dt w)))
      by (apply grows_downloaded || apply grows_inflated).
    rewrite output_inflated, Hcase. rewrite elem_of_app. right.
    cbn [inflate_output]. apply list_elem_of_further, list_elem_of_here.
  - apply (base_obs_shown http gunzip args w0 w dt Hprep Hdt Hopen); [now left |].
    exact (path_exists_file _ _ _ Hobs).
Qed.

(** X13. A file left by an earlier run, in a run whose output directory is
    there or has been made, whose parser returns a date and whose archives
    can be opened for writing: when the final observation path exists
    before the run and the download of the observation file fails, the run
    prints that the download has failed and the summary nevertheless shows
    the path, as if the file were the result of this run. *)
Theorem X13_stale_file_is_reported_present (args : arguments) (w0 w : world)
    (dt : datetime) :
  rinex_obs_version args = "3" \/ rinex_obs_version args = "2" ->
  prepare args w0 = (Returned tt, w) ->
  fst (get_obs_date_from_rinex (rinex_rover_file args) w) = Some dt ->
  archives_can_open args dt w = true ->
  fails (http (length (requests w0)) (obs_url (names_of args dt))) = true ->
  path_exists w0 (obs_dl_path_final args dt) = true ->
  MsgObsDownloadFailed ∈ output_since w0 (snd (main http gunzip args w0))
  /\ MsgBaseObs (obs_dl_path_final args dt) ∈ output_since w0 (snd (main http gunzip args w0)).
Proof.
  intros Hv Hprep Hdt Hopen Hfail Hthere. rewrite parser_result in Hdt.
  destruct (prepare_effects _ _ _ _ Hprep) as (_ & Hfiles & Hreq & _).
  rewrite <- Hreq in Hfail.
  pose proof (archives_can_open_split _ _ _ Hopen) as (Hgz & _ & _).
  assert (Hstage : obs_stage_world http gunzip args dt w
                   = printed [MsgObsDownloadFailed]
                       (downloaded http (obs_url (names_of args dt)) (obs_dl_path_gz args dt)
                          (announced args dt w))).
  { rewrite (obs_stage_world_open _ _ _ _ _ Hgz). cbv zeta.
    change (next_answer http (announced args dt w) (obs_url (names_of args dt)))
      with (http (length (requests w)) (obs_url (names_of args dt))).
    now rewrite Hfail. }
  split.
  - rewrite (output_main_with_date _ _ _ _ _ _ Hprep Hdt),
      (output_run_from_date _ _ _ _ _ Hopen).
    rewrite !elem_of_app. right. right. left.
    rewrite Hstage.
    rewrite (output_since_trans _ (downloaded http (obs_url (names_of args dt))
                                     (obs_dl_path_gz args dt) (announced args dt w)))
      by (apply grows_downloaded || apply grows_printed).
    rewrite output_printed, elem_of_app. right. apply list_elem_of_here.
  - apply (base_obs_shown http gunzip args w0 w dt Hprep Hdt Hopen Hv).
    rewrite Hstage. rewrite path_exists_printed.
    apply exists_downloaded. unfold announced. rewrite path_exists_printed.
    revert Hthere. apply exists_more_files.
    + exact (prepare_dirs _ _ _ _ Hprep).
    + now rewrite Hfiles.
Qed.
End WholeRuns.

Section Order.
Variable http : nat -> string -> http_outcome.
Variable gunzip : string -> gunzip_result.

(** a download that returns [True] has printed that it succeeded *)
Lemma download_output_ok (o : http_outcome) (refused : option exn) (url path : string) :
  download_result o refused = Returned true ->
  download_output o refused url path = [MsgAttemptDownload url; MsgDownloaded path].
Proof.
  unfold download_result, download_output.
  destruct o as [e | status chunks broken]; [discriminate |].
  destruct (is_error_status status); [discriminate |].
  destruct refused; [discriminate |].
  destruct broken; [discriminate | reflexivity].
Qed.

Lemma decompressing_after_download_obs args names gz final w p :
  MsgDecompressing p ∈ output_since w (fetch_obs_world http gunzip args names gz final w) ->
  MsgDownloaded p ∈ output_since w (fetch_obs_world http gunzip args names gz final w).
Proof.
  unfold fetch_obs_world.
  destruct (download_returns http (obs_url names) gz w) as [[|] | e] eqn:Hret.
  - match goal with |- context [if ?b then _ else _] => destruct b end.
    + erewrite output_since_eq
        by (cbn [stdout printed downloaded inflated]; rewrite <- !app_assoc; reflexivity).
      rewrite !elem_of_app. intros [H | H].
      * now apply decompressing_in_download in H.
      * apply decompressing_in_inflate in H. subst p. left.
        rewrite (download_output_ok _ _ _ _ Hret).
        apply list_elem_of_further, list_elem_of_here.
    + match goal with |- context [if ?b then _ else _] => destruct b end;
        (erewrite output_since_eq
           by (cbn [stdout printed downloaded]; rewrite <- !app_assoc; reflexivity));
        rewrite elem_of_app; intros [H | H];
        first [ now apply decompressing_in_download in H
              | apply list_elem_of_singleton in H; discriminate H ].
  - erewrite output_since_eq
      by (cbn [stdout printed downloaded]; rewrite <- !app_assoc; reflexivity).
    rewrite elem_of_app. intros [H | H].
    + now apply decompressing_in_download in H.
    + apply list_elem_of_singleton in H. discriminate H.
  - rewrite output_downloaded. intros H. now apply decompressing_in_download in H.
Qed.

Lemma decompressing_after_download_nav args dt w p :
  MsgDecompressing p ∈ output_since w (fetch_nav_world http gunzip args dt w) ->
  MsgDownloaded p ∈ output_since w (fetch_nav_world http gunzip args dt w).
Proof.
  unfold fetch_nav_world.
  destruct (download_returns http (nav_url (year dt) (doy_str_of dt)) _ w)
    as [[|] | e] eqn:Hdlr.
  - erewrite output_since_eq
      by (cbn [stdout printed downloaded inflated]; rewrite <- !app_assoc; reflexivity).
    rewrite !elem_of_app. intros [H | H].
    + now apply decompressing_in_download in H.
    + apply decompressing_in_inflate in H. subst p. left.
      rewrite (download_output_ok _ _ _ _ Hdlr).
      apply list_elem_of_further, list_elem_of_here.
  - destruct (download_returns http (nav_url_gde (year dt) (doy_str_of dt)) _ _)
      as [[|] | e] eqn:Hgde;
      (erewrite output_since_eq
         by (cbn [stdout printed downloaded inflated]; rewrite <- ?app_assoc; reflexivity));
      rewrite !elem_of_app.
    + intros [H | [H | [H | H]]].
      * now apply decompressing_in_download in H.
      * apply list_elem_of_singleton in H. discriminate H.
      * now apply decompressing_in_download in H.
      * apply decompressing_in_inflate in H. subst p. right. right. left.
        rewrite (download_output_ok _ _ _ _ Hgde).
        apply list_elem_of_further, list_elem_of_here.
    + intros [H | [H | [H | H]]].
      * now apply decompressing_in_download in H.
      * apply list_elem_of_singleton in H. discriminate H.
      * now apply decompressing_in_download in H.
      * apply list_elem_of_singleton in H. discriminate H.
    + intros [H | [H | H]].
      * now apply decompressing_in_download in H.
      * apply list_elem_of_singleton in H. discriminate H.
      * now apply decompressing_in_download in H.
  - rewrite output_downloaded. intros H. now apply decompressing_in_download in H.
Qed.

Lemma decompressing_in_parser args w p :
  MsgDecompressing p ∈ output_since w (parsed_world args w) -> False.
Proof.
  unfold parsed_world. rewrite output_printed. intros H.
  destruct (rover_scan w (rinex_rover_file args)) as [e | [d | l | | e]];
    try destruct e; cbn in H;
    first [ now apply elem_of_nil in H
          | apply list_elem_of_singleton in H; discriminate H ].
Qed.

Lemma decompressing_after_download_run args dt w p :
  MsgDecompressing p ∈ output_since w (run_from_date_world http gunzip args dt w) ->
  MsgDownloaded p ∈ output_since w (run_from_date_world http gunzip args dt w).
Proof.
  destruct (output_run_from_date_stages http gunzip args dt w) as (rest & -> & Hrest).
  rewrite !elem_of_app. intros [H | [H | H]].
  - unfold announced in H. rewrite output_printed in H.
    apply elem_of_app in H as [H | H].
    + repeat (apply elem_of_cons in H as [H | H]; [discriminate H |]).
      now apply elem_of_nil in H.
    + destruct (negb _ && _);
        [apply list_elem_of_singleton in H; discriminate H | now apply elem_of_nil in H].
  - right. left. unfold obs_stage_world in *.
    now apply decompressing_after_download_obs.
  - right. right.
    destruct Hrest as [-> | [-> | (base_obs & nav_file & ->)]].
    + now apply elem_of_nil in H.
    + unfold nav_stage_world in *. now apply decompressing_after_download_nav.
    + apply elem_of_app in H as [H | H].
      * apply elem_of_app. left. unfold nav_stage_world in *.
        now apply decompressing_after_download_nav.
      * unfold summary_lines in H.
        repeat (apply elem_of_cons in H as [H | H]; [discriminate H |]).
        now apply elem_of_nil in H.
Qed.

(** X16. The decompressor is only ever run on an archive that the same
    run has just downloaded with success: for every path on which a run
    starts the decompressor, the run has printed that the download to that
    path succeeded. *)
Theorem X16_decompress_only_after_download (args : arguments) (w : world) (p : string) :
  MsgDecompressing p ∈ output_since w (snd (main http gunzip args w)) ->
  MsgDownloaded p ∈ output_since w (snd (main http gunzip args w)).
Proof.
  destruct (main_cases http gunzip args w) as [(w1 & Hprep & ->) | (e & w1 & Hprep & ->)];
    cbn [snd].
  - destruct (prepare_effects _ _ _ _ Hprep) as (Hgrows & _).
    rewrite (output_since_trans w w1) by (exact Hgrows || apply grows_parse_and_run).
    rewrite !elem_of_app. intros [H | H].
    + now apply (decompressing_in_prepared _ _ _ _ _ Hprep) in H.
    + right. revert H. unfold parse_and_run_world.
      destruct (parsed_date (rover_scan w1 (rinex_rover_file args))) as [dt|] eqn:Hdt.
      * rewrite (parsed_world_date _ _ _ Hdt). apply decompressing_after_download_run.
      * intros H. now apply decompressing_in_parser in H.
  - intros H. now apply (decompressing_in_prepared _ _ _ _ _ Hprep) in H.
Qed.

(** X17. The fallback, from the network to the summary.  Take a run whose
    output directory is there or has been made, whose parser returns a
    date, whose archives can be opened for writing, and in which the GDE
    navigation file opens for writing and the system lets the GDE archive
    be read and removed.  When the fetch of the DLR file fails and the
    server answers the request for the GDE file with a whole body that is
    a gzip archive, the run ends with the inflated content in the GDE
    navigation file, the GDE archive is removed, and the summary shows the
    path of the GDE file. *)
Theorem X17_fallback_pipeline (args : arguments) (w0 w : world) (dt : datetime)
    (status : Z) (chunks : list string) (data : string) :
  prepare args w0 = (Returned tt, w) ->
  fst (get_obs_date_from_rinex (rinex_rover_file args) w) = Some dt ->
  archives_can_open args dt w = true ->
  can_open w (nav_dl_path_final_for args dt "GDE") = true ->
  fails (http (S (length (requests w0))) (nav_url (year dt) (doy_str_of dt))) = true ->
  http (S (S (length (requests w0)))) (nav_url_gde (year dt) (doy_str_of dt))
  = Response status chunks None ->
  status < 400 \/ 600 <= status ->
  gunzip (join_chunks chunks) = Inflated data ->
  nav_dl_path_gz_for args dt "GDE" ∉ unreadable w ->
  nav_dl_path_gz_for args dt "GDE" ∉ unremovable w ->
  files (snd (main http gunzip args w0)) !! nav_dl_path_final_for args dt "GDE" = Some data
  /\ files (snd (main http gunzip args w0)) !! nav_dl_path_gz_for args dt "GDE" = None
  /\ MsgNavFile (nav_dl_path_final_for args dt "GDE")
       ∈ output_since w0 (snd (main http gunzip args w0)).
Proof.
  intros Hprep Hdt Hopen Hfinal Hdlr Hgde Hs Hcodec Hread Hrem.
  rewrite parser_result in Hdt.
  destruct (prepare_effects _ _ _ _ Hprep) as (_ & _ & Hreq & _).
  rewrite <- Hreq in Hdlr, Hgde.
  set (wo := obs_stage_world http gunzip args dt w).
  assert (Hlen : length (requests wo) = S (length (requests w))).
  { subst wo. apply requests_obs_stage_length. }
  assert (Hfinal_path : nav_dl_path_final http args dt wo = nav_dl_path_final_for args dt "GDE").
  { unfold nav_dl_path_final, next_answer. now rewrite Hlen, Hdlr. }
  pose proof (nav_final_not_nav_gz args dt "GDE" "GDE") as Hne.
  set (wd := downloaded http (nav_url (year dt) (doy_str_of dt))
               (nav_dl_path_gz_for args dt "DLR") wo).
  set (wf := printed [MsgNavDlrFailed] wd).
  set (wg := downloaded http (nav_url_gde (year dt) (doy_str_of dt))
               (nav_dl_path_gz_for args dt "GDE") wf).
  assert (Hsame_f : same_system w wf).
  { subst wf wd wo.
    eapply same_system_trans; [apply same_system_obs_stage |].
    eapply same_system_trans; [apply same_system_downloaded | apply same_system_printed]. }
  assert (Hsame_g : same_system w wg).
  { subst wg. eapply same_system_trans; [exact Hsame_f | apply same_system_downloaded]. }
  pose proof (archives_can_open_split _ _ _ Hopen) as (_ & _ & Hgz).
  assert (Hanswer : next_answer http wf (nav_url_gde (year dt) (doy_str_of dt))
                    = Response status chunks None).
  { unfold next_answer. subst wf wd. cbn [requests printed downloaded].
    rewrite length_app, Hlen. cbn [length].
    now replace (S (length (requests w)) + 1)%nat with (S (S (length (requests w)))) by lia. }
  assert (Hnav : nav_stage_world http gunzip args dt w
                 = inflated gunzip (nav_dl_path_gz_for args dt "GDE")
                     (nav_dl_path_final_for args dt "GDE") wg).
  { rewrite (nav_stage_world_open _ _ _ _ _ Hopen). cbv zeta. fold wo.
    unfold next_answer at 1. rewrite Hlen, Hdlr.
    fold wd. fold wf. rewrite Hanswer, (fails_complete _ _ Hs). reflexivity. }
  assert (Hbody : files wg !! nav_dl_path_gz_for args dt "GDE" = Some (join_chunks chunks)).
  { subst wg. rewrite (files_downloaded_complete _ _ _ _ _ _ Hanswer Hs).
    - apply lookup_insert_eq.
    - now rewrite (can_open_same _ _ _ Hsame_f). }
  assert (Hcase : inflate_case_of gunzip wg (nav_dl_path_gz_for args dt "GDE")
                    (nav_dl_path_final_for args dt "GDE") = ArchiveInflated data).
  { rewrite (inflate_case_ready gunzip wg _ _ (join_chunks chunks)).
    - rewrite Hcodec.
      destruct Hsame_g as (_ & _ & _ & Hrm & _). rewrite Hrm.
      now rewrite bool_decide_eq_false_2 by exact Hrem.
    - rewrite (is_dir_same _ _ _ Hsame_g). now apply can_open_not_dir.
    - exact Hbody.
    - destruct Hsame_g as (_ & Hun & _). now rewrite Hun.
    - now rewrite (can_open_same _ _ _ Hsame_g).
    - exact Hne. }
  assert (Hend : files (snd (main http gunzip args w0))
                 = delete (nav_dl_path_gz_for args dt "GDE")
                     (<[nav_dl_path_final_for args dt "GDE" := data]> (files wg))).
  { rewrite (main_with_date _ _ _ _ _ _ Hprep Hdt). cbn [snd].
    rewrite (run_from_date_world_open _ _ _ _ _ Hopen).
    unfold summary_world. cbn [files printed].
    rewrite Hnav. cbn [files inflated]. now rewrite Hcase. }
  assert (Hthere : files (snd (main http gunzip args w0))
                     !! nav_dl_path_final_for args dt "GDE" = Some data).
  { rewrite Hend, lookup_delete_ne by (now apply not_eq_sym). apply lookup_insert_eq. }
  split; [exact Hthere | split].
  - rewrite Hend. apply lookup_delete_eq.
  - rewrite (output_main_with_date _ _ _ _ _ _ Hprep Hdt),
      (output_run_from_date _ _ _ _ _ Hopen).
    fold wo. rewrite Hfinal_path.
    assert (Hshown : shown (nav_stage_world http gunzip args dt w)
                       (nav_dl_path_final_for args dt "GDE") NAV_MANUALLY
                     = nav_dl_path_final_for args dt "GDE").
    { unfold shown.
      assert (Hex : path_exists (nav_stage_world http gunzip args dt w)
                      (nav_dl_path_final_for args dt "GDE") = true).
      { apply (path_exists_file _ _ data).
        rewrite (main_with_date _ _ _ _ _ _ Hprep Hdt) in Hthere. cbn [snd] in Hthere.
        rewrite (run_from_date_world_open _ _ _ _ _ Hopen) in Hthere. exact Hthere. }
      now rewrite Hex. }
    rewrite Hshown. rewrite !elem_of_app. do 4 right. unfold summary_lines.
    do 5 apply list_elem_of_further. apply list_elem_of_here.
Qed.
End Order.

(** ** The further properties on sample runs *)

Lemma X1_download_success_witness :
  fst (download_file serve_archives "https://host/a.gz" "out/a.gz" (made_out sample_world))
  = Returned true
  /\ files (snd (download_file serve_archives "https://host/a.gz" "out/a.gz"
                   (made_out sample_world)))
     = <["out/a.gz" := "Gpayload"]> (files sample_world)
  /\ fst (download_file serve_archives "https://host/a.gz" "out/a.gz" sample_world)
     = Raises FileNotFoundError.
Proof.
  destruct (X1_download_success serve_archives "https://host/a.gz" "out/a.gz"
              (made_out sample_world)) as (Hiff & Hfiles & _).
  destruct (X1_download_success serve_archives "https://host/a.gz" "out/a.gz" sample_world)
    as (_ & _ & Hraises).
  split; [| split].
  - apply Hiff. split; [reflexivity |].
    exists 200, ["G"; "payload"]. split; [reflexivity | left; lia].
  - apply (Hfiles 200 ["G"; "payload"]); [reflexivity | left; lia | reflexivity].
  - apply (Hraises 200 ["G"; "payload"] None); [reflexivity | left; lia | reflexivity].
Defined.

Lemma X2_download_frame_witness :
  files (snd (download_file broken_stream "https://host/a.gz" "out/a.gz"
                (made_out sample_world)))
    !! "rover.obs" = files (made_out sample_world) !! "rover.obs"
  /\ requests (snd (download_file broken_stream "https://host/a.gz" "out/a.gz"
                      (made_out sample_world)))
     = ["https://host/a.gz"].
Proof.
  destruct (X2_download_frame broken_stream "https://host/a.gz" "out/a.gz"
              (made_out sample_world))
    as (Hother & _ & Hreq & _).
  split; [apply Hother; discriminate | exact Hreq].
Defined.

Lemma X3_decompress_frame_witness :
  fst (decompress_gz_file failing_gunzip "nav.rnx.gz" "nav.rnx" (world_with_archive "x"))
  = false
  /\ files (snd (decompress_gz_file failing_gunzip "nav.rnx.gz" "nav.rnx"
                   (world_with_archive "x"))) !! "nav.rnx" = Some "part"
  /\ files (snd (decompress_gz_file failing_gunzip "nav.rnx.gz" "nav.rnx"
                   (world_with_archive "x"))) !! "nav.rnx.gz" = Some (sample_gzip "x").
Proof.
  destruct (X3_decompress_frame failing_gunzip "nav.rnx.gz" "nav.rnx" (world_with_archive "x"))
    as (_ & _ & _ & Hcorrupt).
  apply (Hcorrupt (sample_gzip "x") "part").
  - vm_compute. reflexivity.
  - vm_compute. reflexivity.
  - discriminate.
  - reflexivity.
Defined.

Lemma X4_decompress_twice_witness :
  fst (decompress_gz_file sample_gunzip "nav.rnx.gz" "nav.rnx" (world_with_archive "x")) = true
  /\ fst (decompress_gz_file sample_gunzip "nav.rnx.gz" "nav.rnx"
            (snd (decompress_gz_file sample_gunzip "nav.rnx.gz" "nav.rnx"
                    (world_with_archive "x")))) = false.
Proof.
  assert (Hok : fst (decompress_gz_file sample_gunzip "nav.rnx.gz" "nav.rnx"
                       (world_with_archive "x")) = true) by (vm_compute; reflexivity).
  split; [exact Hok |].
  exact (proj1 (X4_decompress_twice sample_gunzip "nav.rnx.gz" "nav.rnx"
                  (world_with_archive "x") Hok)).
Defined.

Lemma X5_first_marker_line_decides_witness :
  text_lines two_marker_header = two_marker_lines
  /\ scan_lines two_marker_lines = scan_lines [month_13_line +:+ newline]
  /\ fst (get_obs_date_from_rinex "rover.obs" (world_with_rover two_marker_header)) = None
  /\ output_since (world_with_rover two_marker_header)
       (snd (get_obs_date_from_rinex "rover.obs" (world_with_rover two_marker_header)))
     = [MsgRoverReadError ValueError].
Proof.
  assert (Hlines : text_lines two_marker_header = two_marker_lines)
    by (vm_compute; reflexivity).
  destruct (X5_first_marker_line_decides (world_with_rover two_marker_header) "rover.obs"
              two_marker_header
              [ "     3.04           OBSERVATION DATA    M                   RINEX VERSION / TYPE"
                  +:+ newline ]
              [line_text sample_line] (month_13_line +:+ newline))
    as (Heq & _ & Hresult & Hout).
  - vm_compute. reflexivity.
  - vm_compute. reflexivity.
  - exact Hlines.
  - repeat constructor.
  - vm_compute. reflexivity.
  - split; [exact Hlines |]. split; [exact Heq |].
    split; [rewrite Hresult | rewrite Hout]; vm_compute; reflexivity.
Defined.

Lemma X6_pattern_groups_witness :
  exists year month day hour minute second_full,
    PyRe.search PyRe.TIME_OF_FIRST_OBS_RE (line_text sample_line)
    = Some [year; month; day; hour; minute; second_full]
    /\ String.length year = 4%nat
    /\ 0 <= int_of_digits month < 100.
Proof.
  destruct (X6_pattern_groups (line_text sample_line)
              ["2023"; "01"; "15"; "08"; "30"; "15.0000000"])
    as (y & mo & d & h & mi & s & Hg & _ & Hlen & _ & _ & _ & _ & _ & _ & _ & Hmo & _).
  - vm_compute. reflexivity.
  - exists y, mo, d, h, mi, s. rewrite <- Hg. split; [vm_compute; reflexivity |].
    split; assumption.
Defined.

Lemma X7_parser_effects_witness :
  fst (get_obs_date_from_rinex "rover.obs" sample_world) = Some sample_date
  /\ output_since sample_world (snd (get_obs_date_from_rinex "rover.obs" sample_world)) = []
  /\ exists diagnostic,
      output_since empty_world (snd (get_obs_date_from_rinex "rover.obs" empty_world))
      = [diagnostic].
Proof.
  destruct (X7_parser_effects "rover.obs" sample_world) as (_ & _ & _ & Hsilent & _).
  destruct (X7_parser_effects "rover.obs" empty_world) as (_ & _ & _ & _ & Hone).
  assert (Hdate : fst (get_obs_date_from_rinex "rover.obs" sample_world) = Some sample_date)
    by (vm_compute; reflexivity).
  split; [exact Hdate |]. split; [exact (Hsilent _ Hdate) |].
  apply Hone. vm_compute. reflexivity.
Defined.

Lemma X8_doy_names_the_day_witness :
  fst (get_obs_date_from_rinex "rover.obs" sample_world) = Some sample_date
  /\ fst (get_obs_date_from_rinex "rover.obs" (world_with_rover tenth_of_second_line))
     = Some {| year := 2023; month := 1; day := 15; hour := 8; minute := 30;
               second := 15; microsecond := 99999; tzinfo := utc |}
  /\ month sample_date = 1 /\ day sample_date = 15.
Proof.
  assert (H1 : fst (get_obs_date_from_rinex "rover.obs" sample_world) = Some sample_date)
    by (vm_compute; reflexivity).
  assert (H2 : fst (get_obs_date_from_rinex "rover.obs" (world_with_rover tenth_of_second_line))
               = Some {| year := 2023; month := 1; day := 15; hour := 8; minute := 30;
                         second := 15; microsecond := 99999; tzinfo := utc |})
    by (vm_compute; reflexivity).
  destruct (X8_doy_names_the_day _ _ _ _ _ _ H1 H2 eq_refl eq_refl) as [[Hmonth Hday] _].
  split; [exact H1 |]. split; [exact H2 |]. split; [exact Hmonth | exact Hday].
Defined.

Lemma X9_output_directory_witness :
  path_exists sample_world "out" = false
  /\ path_exists (snd (main not_found sample_gunzip (sample_args "3") sample_world)) "out" = true
  /\ (exists later,
        output_since empty_world
          (snd (main not_found sample_gunzip (sample_args "3") empty_world))
        = MsgCreatedOutputDir "out" :: later)
  /\ main not_found sample_gunzip empty_dir_args sample_world
     = (Raises FileNotFoundError, sample_world).
Proof.
  destruct (X9_output_directory not_found sample_gunzip (sample_args "3") sample_world)
    as (_ & _ & Hsample & _).
  destruct (X9_output_directory not_found sample_gunzip (sample_args "3") empty_world)
    as (_ & _ & Hempty & _).
  destruct (X9_output_directory not_found sample_gunzip empty_dir_args sample_world)
    as (_ & _ & _ & _ & Hnone).
  split; [reflexivity |]. split; [| split].
  - destruct (Hsample eq_refl (made_out sample_world)) as [_ Hthere];
      [vm_compute; reflexivity |].
    apply Hthere. discriminate.
  - destruct (Hempty eq_refl (made_out empty_world)) as [Hfirst _];
      [vm_compute; reflexivity |].
    exact Hfirst.
  - apply Hnone; reflexivity.
Defined.

Lemma X10_no_fallback_after_success_witness :
  fails (serve_archives 1 (nav_url 2023 "015")) = false
  /\ requests_since sample_world
       (snd (main serve_archives sample_gunzip (sample_args "3") sample_world))
     = [ "https://cddis.nasa.gov/archive/gnss/data/daily/2023/015/23o/algo0150.23o.crx.gz";
         "https://cddis.nasa.gov/archive/gnss/data/campaign/mgex/daily/rinex3/2023/015/BRDM00DLR_S_20230150000_01D_MN.rnx.gz" ].
Proof.
  split; [reflexivity |].
  exact (X10_no_fallback_after_success serve_archives sample_gunzip (sample_args "3")
           sample_world (made_out sample_world) sample_date (sample_prepared "3")
           (sample_parsed_prepared "3") eq_refl eq_refl).
Defined.

Lemma X11_observation_pipeline_witness :
  files (snd (main serve_archives sample_gunzip (sample_args "3") sample_world))
    !! "out/algo0150.23o.crx" = Some "payload"
  /\ MsgBaseObs "out/algo0150.23o.crx"
       ∈ output_since sample_world
           (snd (main serve_archives sample_gunzip (sample_args "3") sample_world)).
Proof.
  apply (X11_observation_pipeline serve_archives sample_gunzip (sample_args "3") sample_world
           (made_out sample_world) sample_date 200 ["G"; "payload"] "payload").
  - reflexivity.
  - apply sample_prepared.
  - apply sample_parsed_prepared.
  - reflexivity.
  - reflexivity.
  - reflexivity.
  - left. lia.
  - reflexivity.
  - apply not_elem_of_empty.
  - apply not_elem_of_empty.
Defined.

Lemma X12_corrupt_archive_is_reported_present_witness :
  files (snd (main serve_garbage sample_gunzip (sample_args "3") sample_world))
    !! "out/algo0150.23o.crx" = Some EmptyString
  /\ MsgDecompressError "out/algo0150.23o.crx.gz" BadGzipFile
       ∈ output_since sample_world
           (snd (main serve_garbage sample_gunzip (sample_args "3") sample_world))
  /\ MsgBaseObs "out/algo0150.23o.crx"
       ∈ output_since sample_world
           (snd (main serve_garbage sample_gunzip (sample_args "3") sample_world)).
Proof.
  apply (X12_corrupt_archive_is_reported_present serve_garbage sample_gunzip
           (sample_args "3") sample_world (made_out sample_world) sample_date 200
           ["<html>login</html>"] EmptyString).
  - reflexivity.
  - apply sample_prepared.
  - apply sample_parsed_prepared.
  - reflexivity.
  - reflexivity.
  - reflexivity.
  - left. lia.
  - reflexivity.
  - apply not_elem_of_empty.
Defined.

Lemma X13_stale_file_is_reported_present_witness :
  path_exists world_with_old_obs "out/algo0150.23o.crx" = true
  /\ MsgObsDownloadFailed
       ∈ output_since world_with_old_obs
           (snd (main not_found sample_gunzip (sample_args "3") world_with_old_obs))
  /\ MsgBaseObs "out/algo0150.23o.crx"
       ∈ output_since world_with_old_obs
           (snd (main not_found sample_gunzip (sample_args "3") world_with_old_obs)).
Proof.
  split; [vm_compute; reflexivity |].
  apply (X13_stale_file_is_reported_present not_found sample_gunzip (sample_args "3")
           world_with_old_obs world_with_old_obs sample_date).
  - now left.
  - vm_compute. reflexivity.
  - vm_compute. reflexivity.
  - vm_compute. reflexivity.
  - reflexivity.
  - vm_compute. reflexivity.
Defined.

Lemma X14_local_paths_witness :
  obs_dl_path_gz slash_station_args sample_date = "/tmp/x0150.23o.crx.gz"
  /\ exists sep,
      (sep = EmptyString \/ sep = "/")
      /\ obs_dl_path_gz (sample_args "3") sample_date
         = "out" +:+ sep +:+ "algo0150.23o.crx.gz".
Proof.
  destruct (X14_local_paths slash_station_args sample_date) as (_ & _ & Hslash).
  destruct (X14_local_paths (sample_args "3") sample_date) as (_ & Hinside & _).
  split.
  - destruct (Hslash "tmp/x" eq_refl (or_introl eq_refl)) as (Hgz & _). exact Hgz.
  - destruct (Hinside "A"%char "LGO" eq_refl ltac:(discriminate)) as (sep & Hsep & Hpath).
    exists sep. split; [exact Hsep | exact Hpath].
Defined.

Lemma X15_station_case_witness :
  main not_found sample_gunzip
    {| rinex_rover_file := "rover.obs"; station_id := "ALGO"; output_dir := "out";
       rinex_obs_version := "3" |} sample_world
  = main not_found sample_gunzip
      {| rinex_rover_file := "rover.obs"; station_id := "algo"; output_dir := "out";
         rinex_obs_version := "3" |} sample_world.
Proof.
  apply (X15_station_case not_found sample_gunzip "rover.obs" "ALGO" "algo" "out" "3"
           sample_world).
  reflexivity.
Defined.

Lemma X16_decompress_only_after_download_witness :
  MsgDecompressing "out/algo0150.23o.crx.gz"
    ∈ output_since sample_world
        (snd (main serve_archives sample_gunzip (sample_args "3") sample_world))
  /\ MsgDownloaded "out/algo0150.23o.crx.gz"
       ∈ output_since sample_world
           (snd (main serve_archives sample_gunzip (sample_args "3") sample_world)).
Proof.
  assert (Hrun : MsgDecompressing "out/algo0150.23o.crx.gz"
                   ∈ output_since sample_world
                       (snd (main serve_archives sample_gunzip (sample_args "3")
                               sample_world))).
  { apply list_elem_of_In. vm_compute. do 5 right. left. reflexivity. }
  split; [exact Hrun |].
  exact (X16_decompress_only_after_download serve_archives sample_gunzip (sample_args "3")
           sample_world _ Hrun).
Defined.

Lemma X17_fallback_pipeline_witness :
  fails (serve_all_but_dlr 1 (nav_url 2023 "015")) = true
  /\ files (snd (main serve_all_but_dlr sample_gunzip (sample_args "3") sample_world))
       !! "out/BRDM00GDE_S_20230150000_01D_MN.rnx" = Some "payload"
  /\ MsgNavFile "out/BRDM00GDE_S_20230150000_01D_MN.rnx"
       ∈ output_since sample_world
           (snd (main serve_all_but_dlr sample_gunzip (sample_args "3") sample_world)).
Proof.
  destruct (X17_fallback_pipeline serve_all_but_dlr sample_gunzip (sample_args "3")
              sample_world (made_out sample_world) sample_date 200 ["G"; "payload"] "payload")
    as (Hfile & _ & Hshown).
  - apply sample_prepared.
  - apply sample_parsed_prepared.
  - reflexivity.
  - reflexivity.
  - vm_compute. reflexivity.
  - vm_compute. reflexivity.
  - left. lia.
  - reflexivity.
  - apply not_elem_of_empty.
  - apply not_elem_of_empty.
  - split; [vm_compute; reflexivity |]. split; [exact Hfile | exact Hshown].
Defined.

Lemma X18_day_of_year_and_yy_witness :
  fst (get_obs_date_from_rinex "rover.obs" sample_world) = Some sample_date
  /\ get_doy sample_date = Gregorian.ordinal_day 2023 1 15
  /\ doy_str_of sample_date = "015"
  /\ yy_of sample_date = PyStr.last2 (PyStr.zfill 4 (PyStr.str_of_Z 2023)).
Proof.
  assert (Hparsed : fst (get_obs_date_from_rinex "rover.obs" sample_world)
                    = Some sample_date) by (vm_compute; reflexivity).
  destruct (X18_day_of_year_and_yy "rover.obs" sample_world sample_date Hparsed)
    as (Hdoy & _ & _ & _ & _ & _ & _ & Hyy).
  split; [exact Hparsed |]. split; [exact Hdoy |]. split; [reflexivity |].
  apply Hyy. cbn. lia.
Defined.
